(** * The order synchronisation engine of main.py

    A shallow embedding of the Bagy / Melhor Envio bridge: the document
    helpers ([clean_document], [validate_cpf]), the SQLite order table
    ([db_save], [db_pending], [db_stats]), the retry decorator
    ([retry_on_failure]), the two remote clients, the webhook handler, the
    tracking worker, and the routes ([webhook], [health], [stats_endpoint],
    [test_webhook]).

    Python values are an inductive type [pyval]; exceptions are values of
    [exn] carried by [outcome]; everything that touches the database, the
    network or the clock runs in a state-and-exception monad [M] over a
    record holding the order table, the outside world and a trace of the
    observable effects (HTTP requests, sleeps, the retry decorator's log
    lines).  The outside world is a parameter: theorems hold for every
    behaviour of the remote platforms, of the database file and of the
    clock.

    Where the model stops:
    - strings are byte strings (UTF-8); [str.lower] acts on the ASCII
      letters;
    - floats are binary64; how a float prints, how a string parses as a
      number and how SQLite renders a REAL as text are left open
      ([runtime]);
    - logging is left out, except the two lines of the retry decorator and
      the expressions of a log line that can raise;
    - a database transaction either fails before it writes or commits; a
      call of [db_save] (its SELECT and its INSERT) is one transaction;
    - [time.sleep] refuses a negative length: the pauses are taken not to
      be negative;
    - [bagy_get_order], which the GET branch of the webhook route calls and
      main.py does not define, is a parameter of the route;
    - the threads, one for each request and one for the worker, are
      interleaved at the HTTP requests and at the database transactions,
      in any order; the log line and the pause of the retry decorator go
      with the attempt they follow, and the endless loop of the worker is
      taken round by round. *)

From Stdlib Require Import ZArith String Ascii Bool Lia.
From Stdlib Require Import PrimFloat FloatOps SpecFloat DecimalString.
From stdpp Require Import gmap strings list fin_maps sorting.

Local Open Scope string_scope.
Local Open Scope Z_scope.
Set Warnings "-register-all".

(** ** Python values *)

(** What [json.loads] produces, which is also all the program ever handles:
    [None], booleans, integers, floats (IEEE binary64, as the kernel's
    primitive floats), strings (as UTF-8 bytes), lists and dicts (in
    insertion order; [dict_get] reads the first binding of a key). *)
Inductive pyval : Type :=
  | PNone
  | PBool (b : bool)
  | PInt (z : Z)
  | PFloat (f : float)
  | PStr (s : string)
  | PList (l : list pyval)
  | PDict (d : list (string * pyval)).

Inductive exn_class : Type :=
  | Exception
  | ValueError
  | TypeError
  | AttributeError
  | KeyError
  | OverflowError
  | RequestException
  | JSONDecodeError
  | SqliteError.

(** An exception: its class and the text [str(e)] gives. *)
Record exn : Type := mk_exn { exn_cls : exn_class; exn_msg : string }.

Definition str_exn (e : exn) : string := exn_msg e.

Inductive outcome (A : Type) : Type :=
  | Ok (a : A)
  | Raise (e : exn).
Arguments Ok {A} a.
Arguments Raise {A} e.

(** [bool(v)] *)
Definition truthy (v : pyval) : bool :=
  match v with
  | PNone => false
  | PBool b => b
  | PInt z => negb (z =? 0)
  | PFloat f => negb (PrimFloat.eqb f 0)
  | PStr s => negb (String.eqb s "")
  | PList l => match l with [] => false | _ => true end
  | PDict d => match d with [] => false | _ => true end
  end.

(** [a or b] *)
Definition py_or (a b : pyval) : pyval := if truthy a then a else b.

Definition type_name (v : pyval) : string :=
  match v with
  | PNone => "NoneType"
  | PBool _ => "bool"
  | PInt _ => "int"
  | PFloat _ => "float"
  | PStr _ => "str"
  | PList _ => "list"
  | PDict _ => "dict"
  end.

Definition no_attribute (v : pyval) (attr : string) : exn :=
  mk_exn AttributeError
    ("'" +:+ type_name v +:+ "' object has no attribute '" +:+ attr +:+ "'").

Definition dict_get (d : list (string * pyval)) (k : string) (dflt : pyval) : pyval :=
  match find (fun kv => String.eqb (fst kv) k) d with
  | Some kv => snd kv
  | None => dflt
  end.

(** [k in d] for a dict [d] *)
Definition dict_has (d : list (string * pyval)) (k : string) : bool :=
  existsb (fun kv => String.eqb (fst kv) k) d.

(** [v.get(k, dflt)]: only a dict has the method. *)
Definition py_get (v : pyval) (k : string) (dflt : pyval) : outcome pyval :=
  match v with
  | PDict d => Ok (dict_get d k dflt)
  | _ => Raise (no_attribute v "get")
  end.

(** ** Strings *)

Definition is_digit (c : ascii) : bool :=
  let n := N_of_ascii c in ((48 <=? n) && (n <=? 57))%N.

Fixpoint filter_string (p : ascii -> bool) (s : string) : string :=
  match s with
  | EmptyString => EmptyString
  | String c s' => if p c then String c (filter_string p s') else filter_string p s'
  end.

(** [str.lower()] on the ASCII letters; the bytes of other characters are
    kept as they are. *)
Definition lower_ascii (c : ascii) : ascii :=
  let n := N_of_ascii c in
  if ((65 <=? n) && (n <=? 90))%N then ascii_of_N (n + 32) else c.

Fixpoint py_lower (s : string) : string :=
  match s with
  | EmptyString => EmptyString
  | String c s' => String (lower_ascii c) (py_lower s')
  end.

(** [needle in hay] for two strings *)
Fixpoint py_in (needle hay : string) : bool :=
  String.prefix needle hay ||
  match hay with
  | EmptyString => false
  | String _ hay' => py_in needle hay'
  end.

Definition str_of_Z (z : Z) : string := NilZero.string_of_int (Z.to_int z).

Fixpoint join (sep : string) (l : list string) : string :=
  match l with
  | [] => ""
  | [s] => s
  | s :: l' => s +:+ sep +:+ join sep l'
  end.

(** ** Numbers *)

(** [float(z)] for an integer: round to nearest even; an integer beyond the
    binary64 range raises. *)
Definition float_of_Z (z : Z) : outcome float :=
  match binary_normalize prec emax z 0 false with
  | S754_infinity _ => Raise (mk_exn OverflowError "int too large to convert to float")
  | sf => Ok (SF2Prim sf)
  end.

(** [int(f)] for a float: truncation towards zero. *)
Definition Z_of_float (f : float) : outcome Z :=
  match Prim2SF f with
  | S754_zero _ => Ok 0
  | S754_nan => Raise (mk_exn ValueError "cannot convert float NaN to integer")
  | S754_infinity _ => Raise (mk_exn OverflowError "cannot convert float infinity to integer")
  | S754_finite s m e =>
      let magnitude := if 0 <=? e then Z.pos m * 2 ^ e else Z.pos m / 2 ^ (- e) in
      Ok (if s then - magnitude else magnitude)
  end.

(** [max(a, b)] on floats: the first argument unless the second is greater. *)
Definition py_max2 (a b : float) : float := if PrimFloat.ltb a b then b else a.

(** [max(xs, default=d)] *)
Definition py_max (xs : list float) (dflt : float) : float :=
  match xs with
  | [] => dflt
  | x :: xs' => fold_left py_max2 xs' x
  end.

(** [sum(xs)] of floats, left to right from the integer 0.  (CPython 3.12
    and later compensate the rounding errors of a float sum; that changes
    nothing for a sum of one term, or one that is exact.) *)
Definition py_sum (xs : list float) : float := fold_left PrimFloat.add xs 0%float.

(** The parts of the Python and SQLite runtimes the program calls and this
    development leaves open: how a float or a string prints inside a
    container, how a string parses as a number, the text SQLite stores for a
    REAL in a TEXT column (NULL for NaN). *)
Record runtime : Type := {
  float_repr : float -> string;
  str_repr : string -> string;
  float_of_str : string -> option float;
  int_of_str : string -> option Z;
  sqlite_real_text : float -> option string
}.

Section Conversions.
Variable rt : runtime.

(** [repr(v)] *)
Fixpoint py_repr (v : pyval) : string :=
  match v with
  | PNone => "None"
  | PBool true => "True"
  | PBool false => "False"
  | PInt z => str_of_Z z
  | PFloat f => float_repr rt f
  | PStr s => str_repr rt s
  | PList l => "[" +:+ join ", " (map py_repr l) +:+ "]"
  | PDict d =>
      "{" +:+ join ", " (map (fun kv => str_repr rt (fst kv) +:+ ": " +:+ py_repr (snd kv)) d)
          +:+ "}"
  end.

(** [str(v)] *)
Definition py_str (v : pyval) : string :=
  match v with
  | PStr s => s
  | _ => py_repr v
  end.

(** [float(v)] *)
Definition py_float (v : pyval) : outcome float :=
  match v with
  | PFloat f => Ok f
  | PInt z => float_of_Z z
  | PBool b => Ok (if b then 1%float else 0%float)
  | PStr s =>
      match float_of_str rt s with
      | Some f => Ok f
      | None => Raise (mk_exn ValueError ("could not convert string to float: " +:+ str_repr rt s))
      end
  | _ =>
      Raise (mk_exn TypeError
               ("float() argument must be a string or a real number, not '"
                  +:+ type_name v +:+ "'"))
  end.

(** [int(v)] *)
Definition py_int (v : pyval) : outcome Z :=
  match v with
  | PInt z => Ok z
  | PBool b => Ok (if b then 1 else 0)
  | PFloat f => Z_of_float f
  | PStr s =>
      match int_of_str rt s with
      | Some z => Ok z
      | None =>
          Raise (mk_exn ValueError
                   ("invalid literal for int() with base 10: " +:+ str_repr rt s))
      end
  | _ =>
      Raise (mk_exn TypeError
               ("int() argument must be a string, a bytes-like object or a real number, not '"
                  +:+ type_name v +:+ "'"))
  end.
End Conversions.

(** ** Document helpers *)

(** [re.sub(r'[^0-9]', '', str(document))], or [""] for a falsy document. *)
Definition clean_document (rt : runtime) (document : pyval) : string :=
  if truthy document then filter_string is_digit (py_str rt document) else "".

Definition clean_zipcode (rt : runtime) (zipcode : pyval) : string :=
  if truthy zipcode then filter_string is_digit (py_str rt zipcode) else "".

(** [int(c)] for a digit character. *)
Definition int_of_char (c : ascii) : Z := Z.of_N (N_of_ascii c) - 48.

(** [int(s[i])]; the callers index below [len(s)] only. *)
Definition digit_at (s : string) (i : Z) : Z :=
  match String.get (Z.to_nat i) s with
  | Some c => int_of_char c
  | None => 0
  end.

(** [range(n)] *)
Definition py_range (n : Z) : list Z := map Z.of_nat (seq 0 (Z.to_nat n)).

Definition sum_Z (l : list Z) : Z := fold_left Z.add l 0.

(** [s == s[0] * n] *)
Definition all_first_char (s : string) (n : nat) : bool :=
  match s with
  | EmptyString => false
  | String c _ => String.eqb s (string_of_list_ascii (repeat c n))
  end.

Definition validate_cpf (rt : runtime) (cpf : pyval) : bool :=
  let cpf := clean_document rt cpf in
  if negb (Z.of_nat (String.length cpf) =? 11) then false
  else if all_first_char cpf 11 then false
  else
    let sum_dig1 := sum_Z (map (fun i => digit_at cpf i * (10 - i)) (py_range 9)) in
    let dig1 := 11 - sum_dig1 mod 11 in
    let dig1 := if 10 <=? dig1 then 0 else dig1 in
    if negb (dig1 =? digit_at cpf 9) then false
    else
      let sum_dig2 := sum_Z (map (fun i => digit_at cpf i * (11 - i)) (py_range 10)) in
      let dig2 := 11 - sum_dig2 mod 11 in
      let dig2 := if 10 <=? dig2 then 0 else dig2 in
      if negb (dig2 =? digit_at cpf 10) then false
      else true.

(** ** Configuration, HTTP and the trace of effects *)

(** The module-level settings read from the environment at start-up. *)
Record config : Type := {
  BAGY_TOKEN : option string;
  MELHORENVIO_TOKEN : option string;
  BAGY_BASE : string;
  MELHORENVIO_BASE : string;
  SENDER_NAME : string;
  SENDER_PHONE : string;
  SENDER_EMAIL : string;
  SENDER_DOCUMENT : string;
  SENDER_ADDRESS : string;
  SENDER_COMPLEMENT : string;
  SENDER_NUMBER : string;
  SENDER_DISTRICT : string;
  SENDER_CITY : string;
  SENDER_STATE : string;
  SENDER_ZIPCODE : string;
  SERVICE_ID : Z;
  TRACKER_INTERVAL : Z;
  MAX_RETRIES : Z;
  REQUEST_TIMEOUT : Z
}.

(** A call of [requests.put] or [requests.post]. *)
Record request : Type := {
  req_method : string;
  req_url : string;
  req_headers : list (string * string);
  req_json : option pyval;
  req_timeout : Z
}.

(** What the program reads of a [requests.Response]: [r.status_code],
    [r.text] (with [r.content], its bytes) and the result of [r.json()]. *)
Record response : Type := {
  status_code : Z;
  text : string;
  json_body : outcome pyval
}.

(** [r.ok]: no 4xx or 5xx status. *)
Definition resp_ok (r : response) : bool :=
  negb ((400 <=? status_code r) && (status_code r <? 600)).

(** [r.json() if r.content else {}] *)
Definition response_data (r : response) : outcome pyval :=
  if String.eqb (text r) "" then Ok (PDict []) else json_body r.

(** The two log lines of the retry decorator, with the values they print. *)
Inductive log_line : Type :=
  | LogRetry (attempt max_attempts : Z) (func_name : string) (e : exn) (delay : Z)
  | LogExhausted (max_attempts : Z) (func_name : string) (e : exn).

Inductive event : Type :=
  | EvRequest (r : request)
  | EvSleep (seconds : Z)
  | EvLog (l : log_line).

(** ** The state-and-exception monad *)

Definition M (St A : Type) : Type := St -> outcome A * St.

Definition ret {St A : Type} (a : A) : M St A := fun st => (Ok a, st).

Definition raise {St A : Type} (e : exn) : M St A := fun st => (Raise e, st).

Definition lift {St A : Type} (o : outcome A) : M St A := fun st => (o, st).

Definition bind {St A B : Type} (m : M St A) (k : A -> M St B) : M St B :=
  fun st =>
    match m st with
    | (Ok a, st') => k a st'
    | (Raise e, st') => (Raise e, st')
    end.

(** [try: m / except Exception as e: h e] *)
Definition try_except {St A : Type} (m : M St A) (h : exn -> M St A) : M St A :=
  fun st =>
    match m st with
    | (Ok a, st') => (Ok a, st')
    | (Raise e, st') => h e st'
    end.

Notation "'let!' x ':=' m 'in' k" := (bind m (fun x => k))
  (at level 10, x name, m at level 100, k at level 200).
Notation "'let!' ' p ':=' m 'in' k" := (bind m (fun x => match x with p => k end))
  (at level 10, p pattern, m at level 100, k at level 200).
Notation "'run!' m 'in' k" := (bind m (fun _ => k))
  (at level 10, m at level 100, k at level 200).

(** [for x in xs: body x] *)
Fixpoint for_each {St A : Type} (xs : list A) (body : A -> M St unit) : M St unit :=
  match xs with
  | [] => ret tt
  | x :: xs' => run! body x in for_each xs' body
  end.

(** [[f(x) for x in xs]], left to right, stopping at the first exception. *)
Fixpoint map_outcome {A B : Type} (f : A -> outcome B) (xs : list A) : outcome (list B) :=
  match xs with
  | [] => Ok []
  | x :: xs' =>
      match f x with
      | Raise e => Raise e
      | Ok y =>
          match map_outcome f xs' with
          | Raise e => Raise e
          | Ok ys => Ok (y :: ys)
          end
      end
  end.

Definition bind_outcome {A B : Type} (o : outcome A) (k : A -> outcome B) : outcome B :=
  match o with
  | Ok a => k a
  | Raise e => Raise e
  end.

Notation "'try!' x ':=' o 'in' k" := (bind_outcome o (fun x => k))
  (at level 10, x name, o at level 100, k at level 200).

(** ** The retry decorator *)

(** [raise None], which is what the decorator reaches when the loop ran no
    attempt at all. *)
Definition raise_none_error : exn :=
  mk_exn TypeError "exceptions must derive from BaseException".

Section RetryPolicy.
Context {St A : Type}.
(** How an effect of the decorator itself (a log line, a sleep) acts on the state. *)
Variable emit : event -> St -> St.
Variables (max_attempts delay : Z) (func_name : string).
Variable func : M St A.

Definition emit_unit (ev : event) : M St unit := fun st => (Ok tt, emit ev st).

(** The body of [for attempt in range(1, max_attempts + 1)], with [todo]
    iterations left, followed by [raise last_exception]. *)
Fixpoint retry_attempts (todo : nat) (attempt : Z) (last_exception : option exn) : M St A :=
  match todo with
  | O =>
      match last_exception with
      | Some e => raise e
      | None => raise raise_none_error
      end
  | S todo' =>
      try_except func (fun e =>
        run! (if attempt <? max_attempts
              then run! emit_unit (EvLog (LogRetry attempt max_attempts func_name e delay)) in
                   emit_unit (EvSleep delay)
              else emit_unit (EvLog (LogExhausted max_attempts func_name e))) in
        retry_attempts todo' (attempt + 1) (Some e))
  end.

Definition retry_on_failure : M St A :=
  retry_attempts (Z.to_nat max_attempts) 1 None.
End RetryPolicy.

(** ** The order table *)

(** A row of the [orders] table, keyed in the table by [bagy_order_id]
    (TEXT UNIQUE NOT NULL).  Timestamps are the clock's readings; the
    autoincremented [id], which no query reads, is left out. *)
Record order_row : Type := {
  melhorenvio_order_id : option string;
  tracking_code : option string;
  status : string;
  created_at : Z;
  updated_at : Z;
  delivered_at : option Z;
  retry_count : Z;
  last_error : option string
}.

(** The default of [db_save]'s [status] parameter. *)
Definition default_status : string := "created".

(** [COALESCE(new, old)] *)
Definition coalesce (new old : option string) : option string :=
  match new with
  | Some _ => new
  | None => old
  end.

(** The truth value of [error] in [1 if error else 0]. *)
Definition error_given (error : option string) : bool :=
  match error with
  | Some msg => negb (String.eqb msg "")
  | None => false
  end.

(** The SELECT and the INSERT ... ON CONFLICT DO UPDATE of [db_save], at the
    time [now], once the parameters are bound. *)
Definition upsert_order (now : Z) (k : string) (me trk : option string)
    (new_status : string) (error : option string)
    (tbl : gmap string order_row) : gmap string order_row :=
  let existing := tbl !! k in
  let count :=
    (match existing with Some r => retry_count r | None => 0 end)
    + (if error_given error then 1 else 0) in
  match existing with
  | None =>
      <[k := {| melhorenvio_order_id := me;
                tracking_code := trk;
                status := new_status;
                created_at := now;
                updated_at := now;
                delivered_at := None;
                retry_count := count;
                last_error := error |}]> tbl
  | Some r =>
      <[k := {| melhorenvio_order_id := coalesce me (melhorenvio_order_id r);
                tracking_code := coalesce trk (tracking_code r);
                status := new_status;
                created_at := created_at r;
                updated_at := now;
                delivered_at :=
                  if String.eqb new_status "delivered" then Some now else delivered_at r;
                retry_count := count;
                last_error := error |}]> tbl
  end.

(** The WHERE clause of [db_pending]. *)
Definition is_pending (max_retries : Z) (r : order_row) : bool :=
  (String.eqb (status r) "created" || String.eqb (status r) "shipped")
  && match tracking_code r with
     | Some t => negb (String.eqb t "SEM-RASTREIO")
     | None => false
     end
  && (retry_count r <? max_retries * 2).

Definition older_or_same (a b : string * order_row) : Prop :=
  updated_at (snd a) <= updated_at (snd b).

#[local] Instance older_or_same_dec (a b : string * order_row) : Decision (older_or_same a b) :=
  Z_le_dec (updated_at (snd a)) (updated_at (snd b)).

(** The rows [db_pending] selects: (bagy_order_id, melhorenvio_order_id,
    tracking_code), least recently updated first.  SQLite promises no
    order among rows of equal [updated_at]; the order they come out in
    here is the sort's, and no statement below depends on it. *)
Definition select_pending (max_retries : Z) (tbl : gmap string order_row)
    : list (string * option string * option string) :=
  map (fun kr => (fst kr, melhorenvio_order_id (snd kr), tracking_code (snd kr)))
      (merge_sort older_or_same
         (filter (fun kr => is_pending max_retries (snd kr) = true) (map_to_list tbl))).

(** A column value as Python reads it back. *)
Definition py_of_text (t : option string) : pyval :=
  match t with
  | Some s => PStr s
  | None => PNone
  end.

(** What a Python value bound to a TEXT column (or compared with one)
    becomes: NULL for [None], the text of a number, an error for a type
    sqlite3 cannot adapt. *)
Definition bind_param (rt : runtime) (v : pyval) : outcome (option string) :=
  match v with
  | PNone => Ok None
  | PStr s => Ok (Some s)
  | PInt z =>
      if (- 2 ^ 63 <=? z) && (z <? 2 ^ 63) then Ok (Some (str_of_Z z))
      else Raise (mk_exn OverflowError "Python int too large to convert to SQLite INTEGER")
  | PBool b => Ok (Some (if b then "1" else "0"))
  | PFloat f => Ok (sqlite_real_text rt f)
  | PList _ | PDict _ =>
      Raise (mk_exn SqliteError "Error binding parameter: type is not supported")
  end.

(** ** Payload normalisation *)

(** [k in v] *)
Definition py_contains (k : string) (v : pyval) : outcome bool :=
  match v with
  | PDict d => Ok (dict_has d k)
  | PList l => Ok (existsb (fun x => match x with PStr s => String.eqb s k | _ => false end) l)
  | PStr s => Ok (py_in k s)
  | _ => Raise (mk_exn TypeError ("argument of type '" +:+ type_name v +:+ "' is not iterable"))
  end.

(** [v[k]] for a string [k] *)
Definition py_index (v : pyval) (k : string) : outcome pyval :=
  match v with
  | PDict d =>
      match find (fun kv => String.eqb (fst kv) k) d with
      | Some kv => Ok (snd kv)
      | None => Raise (mk_exn KeyError ("'" +:+ k +:+ "'"))
      end
  | PList _ => Raise (mk_exn TypeError "list indices must be integers or slices, not str")
  | PStr _ => Raise (mk_exn TypeError "string indices must be integers, not 'str'")
  | _ => Raise (mk_exn TypeError ("'" +:+ type_name v +:+ "' object is not subscriptable"))
  end.

(** [len(v)] *)
Definition py_len (v : pyval) : outcome Z :=
  match v with
  | PStr s => Ok (Z.of_nat (String.length s))
  | PList l => Ok (Z.of_nat (length l))
  | PDict d => Ok (Z.of_nat (length d))
  | _ => Raise (mk_exn TypeError ("object of type '" +:+ type_name v +:+ "' has no len()"))
  end.

(** The elements [for it in v] visits: a list's items, a dict's keys, a
    string's characters. *)
Definition py_iter (v : pyval) : outcome (list pyval) :=
  match v with
  | PList l => Ok l
  | PDict d => Ok (map (fun kv => PStr (fst kv)) d)
  | PStr s => Ok (map (fun c => PStr (String c EmptyString)) (list_ascii_of_string s))
  | _ => Raise (mk_exn TypeError ("'" +:+ type_name v +:+ "' object is not iterable"))
  end.

(** [v == s] for a string literal [s] *)
Definition py_eq_str (v : pyval) (s : string) : bool :=
  match v with
  | PStr s' => String.eqb s' s
  | _ => false
  end.

(** The order itself: what is under "data" when the payload has both
    "event" and "data", the payload otherwise. *)
Definition normalize_order_data (pedido : pyval) : outcome pyval :=
  try! has_event := py_contains "event" pedido in
  if has_event then
    try! has_data := py_contains "data" pedido in
    if has_data then
      (* the log line reads pedido.get('event') *)
      try! _ := py_get pedido "event" PNone in
      py_index pedido "data"
    else Ok pedido
  else Ok pedido.

(** The item [send_to_melhorenvio] puts in place of an empty item list.
    The float is the binary64 value of the literal 0.3. *)
Definition weight_floor : float := 0x1.3333333333333p-2%float.

Definition default_item : pyval :=
  PDict [("weight", PFloat weight_floor); ("length", PInt 20); ("height", PInt 10);
         ("width", PInt 15); ("quantity", PInt 1)].

(** What the webhook answers: the kind of JSON body and, by [reply_status],
    the HTTP status.  The stack trace of the error bodies is left out. *)
Inductive reply : Type :=
  | ReplyMissingId
  | ReplyIgnored (order_id order_code fulfillment_status : pyval)
  | ReplyAlreadyProcessed (stored_status : string)
  | ReplySuccess (order_id me_order_id tracking : pyval)
  | ReplyError (error_msg : string) (order_id : pyval)
  | ReplyInternalError (details : string).

Definition reply_status (r : reply) : Z :=
  match r with
  | ReplyMissingId => 400
  | ReplyIgnored _ _ _ => 200
  | ReplyAlreadyProcessed _ => 200
  | ReplySuccess _ _ _ => 200
  | ReplyError _ _ => 500
  | ReplyInternalError _ => 500
  end.

(** The "message" (or "error") text of the body. *)
Definition reply_message (r : reply) : string :=
  match r with
  | ReplyMissingId => "ID do pedido não encontrado"
  | ReplyIgnored _ _ _ => "Pedido ignorado - apenas pedidos FATURADOS são processados"
  | ReplyAlreadyProcessed _ => "Pedido já processado"
  | ReplySuccess _ _ _ => "Pedido enviado ao Melhor Envio e marcado como enviado na Bagy"
  | ReplyError msg _ => msg
  | ReplyInternalError _ => "Erro interno ao processar webhook"
  end.

(** ** The engine *)

(** The world outside the process, of some type [W], and how it answers:
    an HTTP call returns a response or raises; a database transaction may
    fail (a locked or broken file) before it writes anything; the clock
    gives CURRENT_TIMESTAMP.  With them, the runtime and the settings. *)
Record environment (W : Type) : Type := {
  env_rt : runtime;
  env_cfg : config;
  http : request -> W -> outcome response * W;
  db_fault : W -> option exn * W;
  clock : W -> Z
}.
Arguments env_rt {W} _.
Arguments env_cfg {W} _.
Arguments http {W} _ _ _.
Arguments db_fault {W} _ _.
Arguments clock {W} _ _.

(** The order table, the world and the effects observed so far. *)
Record state (W : Type) : Type := mk_state {
  db : gmap string order_row;
  world : W;
  trace : list event
}.
Arguments mk_state {W} _ _ _.
Arguments db {W} _.
Arguments world {W} _.
Arguments trace {W} _.

Section Engine.
Context {W : Type}.
Variable env : environment W.
Local Abbreviation rt := (env_rt env).
Local Abbreviation cfg := (env_cfg env).
Local Abbreviation state := (state W).

Definition emit (ev : event) (st : state) : state :=
  {| db := db st; world := world st; trace := trace st ++ [ev] |}.

(** [time.sleep(seconds)] *)
Definition sleep (seconds : Z) : M state unit := emit_unit emit (EvSleep seconds).

(** [requests.put(...)] / [requests.post(...)] *)
Definition send (r : request) : M state response :=
  fun st =>
    let '(o, w') := http env r (world st) in
    (o, {| db := db st; world := w'; trace := trace st ++ [EvRequest r] |}).

(** [with sqlite3.connect(DB_PATH) as con:] *)
Definition db_connect : M state unit :=
  fun st =>
    let '(fault, w') := db_fault env (world st) in
    (match fault with Some e => Raise e | None => Ok tt end,
     {| db := db st; world := w'; trace := trace st |}).

(** [db_save(order_id, me_order_id=None, tracking=None, status="created",
    error=None)]: the callers that leave an argument out get these. *)
Definition db_save (order_id me_order_id tracking : pyval) (new_status : string)
    (error : option string) : M state unit :=
  run! db_connect in
  let! key := lift (bind_param rt order_id) in
  let! me := lift (bind_param rt me_order_id) in
  let! trk := lift (bind_param rt tracking) in
  match key with
  | None => raise (mk_exn SqliteError "NOT NULL constraint failed: orders.bagy_order_id")
  | Some k =>
      fun st =>
        (Ok tt,
         {| db := upsert_order (clock env (world st)) k me trk new_status error (db st);
            world := world st;
            trace := trace st |})
  end.

(** On any exception [db_pending] returns the empty list. *)
Definition db_pending : M state (list (string * option string * option string)) :=
  try_except
    (run! db_connect in
     fun st => (Ok (select_pending (MAX_RETRIES cfg) (db st)), st))
    (fun _ => ret []).

(** The [SELECT status FROM orders WHERE bagy_order_id = ?] of the handler. *)
Definition db_select_status (order_id : pyval) : M state (option string) :=
  run! db_connect in
  let! key := lift (bind_param rt order_id) in
  fun st =>
    (Ok (match key with
         | Some k => status <$> db st !! k
         | None => None
         end), st).

(** *** The storefront client *)

Definition token_headers (token : option string) (name : string)
    : outcome (list (string * string)) :=
  match token with
  | Some t =>
      if String.eqb t "" then Raise (mk_exn ValueError (name +:+ " não configurado"))
      else Ok [("Authorization", "Bearer " +:+ t);
               ("Content-Type", "application/json");
               ("Accept", "application/json")]
  | None => Raise (mk_exn ValueError (name +:+ " não configurado"))
  end.

Definition bagy_headers : outcome (list (string * string)) :=
  token_headers (BAGY_TOKEN cfg) "BAGY_TOKEN".

Definition melhorenvio_headers : outcome (list (string * string)) :=
  token_headers (MELHORENVIO_TOKEN cfg) "MELHORENVIO_TOKEN".

Definition http_error (what : string) (r : response) : exn :=
  mk_exn Exception (what +:+ " [HTTP " +:+ str_of_Z (status_code r) +:+ "]: " +:+ text r).

(** The function under the decorator. *)
Definition bagy_mark_shipped_once (order_id tracking_code : pyval) : M state pyval :=
  let url := BAGY_BASE cfg +:+ "/orders/" +:+ py_str rt order_id +:+ "/fulfillment/shipped" in
  let body := PDict [("shipping_code", tracking_code);
                     ("shipping_carrier", PStr "Melhor Envio")] in
  let! headers := lift bagy_headers in
  let! r := send {| req_method := "PUT"; req_url := url; req_headers := headers;
                    req_json := Some body; req_timeout := REQUEST_TIMEOUT cfg |} in
  if negb (resp_ok r) then raise (http_error "Erro Bagy shipped" r)
  else lift (response_data r).

Definition bagy_mark_shipped (order_id tracking_code : pyval) : M state pyval :=
  retry_on_failure emit (MAX_RETRIES cfg) 2 "bagy_mark_shipped"
    (bagy_mark_shipped_once order_id tracking_code).

Definition bagy_mark_delivered_once (order_id : pyval) : M state pyval :=
  let url := BAGY_BASE cfg +:+ "/orders/" +:+ py_str rt order_id +:+ "/fulfillment/delivered" in
  let! headers := lift bagy_headers in
  let! r := send {| req_method := "PUT"; req_url := url; req_headers := headers;
                    req_json := None; req_timeout := REQUEST_TIMEOUT cfg |} in
  if negb (resp_ok r) then raise (http_error "Erro Bagy delivered" r)
  else lift (response_data r).

Definition bagy_mark_delivered (order_id : pyval) : M state pyval :=
  retry_on_failure emit (MAX_RETRIES cfg) 2 "bagy_mark_delivered"
    (bagy_mark_delivered_once order_id).

(** *** The carrier client *)

(** [float(it.get(key, dflt))] *)
Definition item_float (key : string) (dflt : pyval) (it : pyval) : outcome float :=
  try! v := py_get it key dflt in
  py_float rt v.

(** [float(it.get(key, dflt)) * int(it.get("quantity", 1))] *)
Definition item_times_quantity (key : string) (dflt : pyval) (it : pyval) : outcome float :=
  try! x := item_float key dflt it in
  try! q := py_get it "quantity" (PInt 1) in
  try! n := py_int rt q in
  try! nf := float_of_Z n in
  Ok (x * nf)%float.

(** [send_to_melhorenvio] from the extraction of the order id to the payload
    (the order is already normalised). *)
Definition shipment_payload (pedido : pyval) : outcome pyval :=
  try! order_id := py_get pedido "id" (PStr "UNKNOWN") in
  try! address := py_get pedido "address" (PDict []) in
  try! addr :=
    (if truthy address then Ok address else py_get pedido "shipping_address" (PDict [])) in
  if negb (truthy addr) then
    Raise (mk_exn ValueError "Endereço de entrega não encontrado no pedido")
  else
  try! cust := py_get pedido "customer" (PDict []) in
  (* the log line reads cust.get('name', 'N/A') before the test *)
  try! _ := py_get cust "name" (PStr "N/A") in
  if negb (truthy cust) then
    Raise (mk_exn ValueError "Dados do cliente não encontrados no pedido")
  else
  try! items0 := py_get pedido "items" (PList []) in
  let items := py_or items0 (PList []) in
  (* the log line reads len(items) *)
  try! _ := py_len items in
  let items := if negb (truthy items) then PList [default_item] else items in
  try! items := py_iter items in
  try! weights := map_outcome (item_times_quantity "weight" (PFloat weight_floor)) items in
  let total_weight := py_max2 (py_sum weights) weight_floor in
  try! lengths := map_outcome (item_float "length" (PInt 20)) items in
  let max_length := py_max lengths 20 in
  try! heights := map_outcome (item_float "height" (PInt 10)) items in
  let max_height := py_max heights 10 in
  try! widths := map_outcome (item_float "width" (PInt 15)) items in
  let max_width := py_max widths 15 in
  try! total := py_get pedido "total" (PInt 0) in
  try! total := py_float rt total in
  try! invoice_value :=
    (if truthy (PFloat total) then Ok total
     else try! prices := map_outcome (item_times_quantity "price" (PInt 0)) items in
          Ok (py_sum prices)) in
  let invoice_value := py_max2 invoice_value 10 in
  try! document := py_get cust "document" (PStr "") in
  let customer_doc := clean_document rt document in
  let customer_doc :=
    if negb (String.eqb customer_doc "") && negb (validate_cpf rt (PStr customer_doc))
    then "" else customer_doc in
  try! zipcode := py_get addr "zipcode" (PStr "") in
  let customer_zipcode := clean_zipcode rt zipcode in
  let sender_zipcode := clean_zipcode rt (PStr (SENDER_ZIPCODE cfg)) in
  try! to_name := py_get cust "name" (PStr "Cliente") in
  try! to_phone := py_get cust "phone" (PStr "") in
  try! to_email := py_get cust "email" (PStr "") in
  try! to_address := py_get addr "street" (PStr "") in
  try! to_complement := py_get addr "complement" (PStr "") in
  try! to_number := py_get addr "number" (PStr "S/N") in
  try! neighborhood := py_get addr "neighborhood" (PStr "") in
  try! to_district := py_get addr "district" neighborhood in
  try! to_city := py_get addr "city" (PStr "") in
  try! to_state := py_get addr "state" (PStr "") in
  try! height := Z_of_float max_height in
  try! width := Z_of_float max_width in
  try! length := Z_of_float max_length in
  Ok (PDict [
    ("service", PInt (SERVICE_ID cfg));
    ("from", PDict [
      ("name", PStr (SENDER_NAME cfg));
      ("phone", PStr (SENDER_PHONE cfg));
      ("email", PStr (SENDER_EMAIL cfg));
      ("document", PStr (SENDER_DOCUMENT cfg));
      ("address", PStr (SENDER_ADDRESS cfg));
      ("complement", PStr (SENDER_COMPLEMENT cfg));
      ("number", PStr (SENDER_NUMBER cfg));
      ("district", PStr (SENDER_DISTRICT cfg));
      ("city", PStr (SENDER_CITY cfg));
      ("state_abbr", PStr (SENDER_STATE cfg));
      ("postal_code", PStr sender_zipcode)]);
    ("to", PDict [
      ("name", to_name);
      ("phone", to_phone);
      ("email", to_email);
      ("document", PStr customer_doc);
      ("address", to_address);
      ("complement", to_complement);
      ("number", to_number);
      ("district", to_district);
      ("city", to_city);
      ("state_abbr", to_state);
      ("postal_code", PStr customer_zipcode)]);
    ("products", PList [PDict [
      ("name", PStr ("Pedido #" +:+ py_str rt order_id));
      ("quantity", PInt 1);
      ("unitary_value", PFloat invoice_value)]]);
    ("volumes", PList [PDict [
      ("height", PInt height);
      ("width", PInt width);
      ("length", PInt length);
      ("weight", PFloat total_weight)]]);
    ("options", PDict [
      ("insurance_value", PFloat invoice_value);
      ("receipt", PBool false);
      ("own_hand", PBool false);
      ("collect", PBool false)])]).

(** The shipment id and the tracking code read from the carrier's answer. *)
Definition shipment_ids (data : pyval) : outcome (pyval * pyval) :=
  try! me_order_id := py_get data "id" (PStr "") in
  try! tracking := py_get data "tracking" (PStr "") in
  try! protocol := py_get data "protocol" (PStr "") in
  Ok (me_order_id, py_or (py_or tracking protocol) (PStr "SEM-RASTREIO")).

(** The function under the decorator. *)
Definition send_to_melhorenvio_once (pedido : pyval) : M state (pyval * pyval) :=
  let! pedido := lift (normalize_order_data pedido) in
  let! payload := lift (shipment_payload pedido) in
  let url := MELHORENVIO_BASE cfg +:+ "/me/cart" in
  let! headers := lift melhorenvio_headers in
  let! r := send {| req_method := "POST"; req_url := url; req_headers := headers;
                    req_json := Some payload; req_timeout := REQUEST_TIMEOUT cfg |} in
  if negb (resp_ok r) then raise (http_error "Erro Melhor Envio" r)
  else
    let! data := lift (response_data r) in
    lift (shipment_ids data).

Definition send_to_melhorenvio (pedido : pyval) : M state (pyval * pyval) :=
  retry_on_failure emit (MAX_RETRIES cfg) 2 "send_to_melhorenvio"
    (send_to_melhorenvio_once pedido).

(** The test of one entry of the tracking answer. *)
Definition entry_delivered (order_data : pyval) : outcome bool :=
  try! st := py_get order_data "status" (PStr "") in
  let status_text := py_lower (py_str rt st) in
  Ok (py_in "entregue" status_text
      || py_in "delivered" status_text
      || py_in "finalizado" status_text
      || String.eqb status_text "delivered").

(** The [for order_data in orders] loop with its early [return True]. *)
Fixpoint any_delivered (orders : list pyval) : outcome bool :=
  match orders with
  | [] => Ok false
  | order_data :: rest =>
      try! is_delivered := entry_delivered order_data in
      if is_delivered then Ok true else any_delivered rest
  end.

Definition tracking_request (me_order_id : pyval) (headers : list (string * string)) : request :=
  {| req_method := "POST";
     req_url := MELHORENVIO_BASE cfg +:+ "/me/shipment/tracking";
     req_headers := headers;
     req_json := Some (PDict [("orders", PList [me_order_id])]);
     req_timeout := REQUEST_TIMEOUT cfg |}.

Definition melhorenvio_check_delivered (me_order_id : pyval) : M state bool :=
  try_except
    (let! headers := lift melhorenvio_headers in
     let! r := send (tracking_request me_order_id headers) in
     if negb (resp_ok r) then ret false
     else
       let! data := lift (response_data r) in
       let orders := match data with PList l => l | _ => [data] end in
       lift (any_delivered orders))
    (fun _ => ret false).

(** *** The tracking worker *)

(** The [try] block of the loop body: the query and, when the carrier
    reports the delivery, the storefront call and the write. *)
Definition check_delivery (bagy_order_id me_order_id tracking_code : pyval) : M state unit :=
  let! delivered :=
    (if truthy me_order_id then melhorenvio_check_delivered me_order_id else ret false) in
  if delivered then
    let! _ := bagy_mark_delivered bagy_order_id in
    db_save bagy_order_id me_order_id tracking_code "delivered" None
  else ret tt.

(** The body of [for bagy_order_id, me_order_id, tracking_code in
    pending_orders], the two-second pause included.  The write of the
    [except] block names no status: [db_save] takes its default, 'created'. *)
Definition check_order (row : string * option string * option string) : M state unit :=
  let '(bagy_order_id, me_order_id, tracking_code) := row in
  let bagy_order_id := PStr bagy_order_id in
  let me_order_id := py_of_text me_order_id in
  let tracking_code := py_of_text tracking_code in
  run! try_except
         (check_delivery bagy_order_id me_order_id tracking_code)
         (fun e =>
            let error_msg := str_exn e in
            db_save bagy_order_id me_order_id tracking_code default_status
              (Some error_msg)) in
  sleep 2.

(** One round of [while True]: the scan, whose exceptions are only logged,
    then the pause. *)
Definition tracking_scan : M state unit :=
  run! try_except
         (let! pending_orders := db_pending in
          for_each pending_orders check_order)
         (fun _ => ret tt) in
  sleep (TRACKER_INTERVAL cfg).

(** The first [rounds] rounds of the worker's endless loop. *)
Fixpoint tracking_worker (rounds : nat) : M state unit :=
  match rounds with
  | O => ret tt
  | S rounds' => run! tracking_scan in tracking_worker rounds'
  end.

(** *** The webhook handler *)

(** The inner [try] of [webhook_handler]: the pipeline and its error path. *)
Definition process_order (pedido_normalizado order_id : pyval) : M state reply :=
  try_except
    (let! '(me_order_id, tracking) := send_to_melhorenvio pedido_normalizado in
     let! _ := bagy_mark_shipped order_id tracking in
     run! db_save order_id me_order_id tracking "shipped" None in
     ret (ReplySuccess order_id me_order_id tracking))
    (fun e =>
       let error_msg := str_exn e in
       run! db_save order_id PNone PNone "error" (Some error_msg) in
       ret (ReplyError error_msg order_id)).

Definition already_processed (stored_status : string) : bool :=
  String.eqb stored_status "shipped" || String.eqb stored_status "delivered".

Definition webhook_handler (pedido : pyval) : M state reply :=
  try_except
    (let! pedido_normalizado := lift (normalize_order_data pedido) in
     let! order_id := lift (py_get pedido_normalizado "id" PNone) in
     let! order_code := lift (py_get pedido_normalizado "code" PNone) in
     if negb (truthy order_id) then ret ReplyMissingId
     else
       let! fulfillment_status :=
         lift (py_get pedido_normalizado "fulfillment_status" (PStr "")) in
       if negb (py_eq_str fulfillment_status "invoiced") then
         ret (ReplyIgnored order_id order_code fulfillment_status)
       else
         let! existing := db_select_status order_id in
         match existing with
         | Some stored_status =>
             if already_processed stored_status then ret (ReplyAlreadyProcessed stored_status)
             else process_order pedido_normalizado order_id
         | None => process_order pedido_normalizado order_id
         end)
    (fun e => ret (ReplyInternalError (str_exn e))).
End Engine.

(** ** A scripted world, for running the engine on concrete inputs *)

(** The answers the remote platforms will give, in order, the faults the
    database will have, in order, and the time. *)
Record script : Type := {
  answers : list (outcome response);
  faults : list (option exn);
  now : Z
}.

Definition script_http (_ : request) (w : script) : outcome response * script :=
  match answers w with
  | [] => (Raise (mk_exn RequestException "connection refused"), w)
  | o :: rest => (o, {| answers := rest; faults := faults w; now := now w + 1 |})
  end.

Definition script_db_fault (w : script) : option exn * script :=
  match faults w with
  | [] => (None, w)
  | f :: rest => (f, {| answers := answers w; faults := rest; now := now w |})
  end.

Definition plain_runtime : runtime := {|
  float_repr := fun _ => "<float>";
  str_repr := fun s => "'" +:+ s +:+ "'";
  float_of_str := fun _ => None;
  int_of_str := fun _ => None;
  sqlite_real_text := fun _ => None
|}.

(** The defaults of the settings, with both tokens set. *)
Definition default_config : config := {|
  BAGY_TOKEN := Some "bagy-token";
  MELHORENVIO_TOKEN := Some "me-token";
  BAGY_BASE := "https://api.dooca.store";
  MELHORENVIO_BASE := "https://melhorenvio.com.br/api/v2";
  SENDER_NAME := "Loja Aurea Dress";
  SENDER_PHONE := "11999999999";
  SENDER_EMAIL := "contato@aureadress.com";
  SENDER_DOCUMENT := "";
  SENDER_ADDRESS := "Rua Exemplo, 123";
  SENDER_COMPLEMENT := "";
  SENDER_NUMBER := "123";
  SENDER_DISTRICT := "Centro";
  SENDER_CITY := "São Paulo";
  SENDER_STATE := "SP";
  SENDER_ZIPCODE := "03320-001";
  SERVICE_ID := 2;
  TRACKER_INTERVAL := 600;
  MAX_RETRIES := 3;
  REQUEST_TIMEOUT := 30
|}.

Definition script_env : environment script := {|
  env_rt := plain_runtime;
  env_cfg := default_config;
  http := script_http;
  db_fault := script_db_fault;
  clock := now
|}.

Definition json_response (code : Z) (body : pyval) : outcome response :=
  Ok {| status_code := code; text := "<json>"; json_body := Ok body |}.

Definition start (tbl : gmap string order_row) (w : script) : state script :=
  {| db := tbl; world := w; trace := [] |}.

(** * Properties *)

(** ** CPF validation *)

(** The check digit of the modulus-11 scheme: the weighted sum of the
    digits, 11 minus its remainder by 11, and 0 when that is 10 or more. *)
Definition check_digit (weights digits : list Z) : Z :=
  let v := 11 - sum_Z (zip_with Z.mul weights digits) mod 11 in
  if 10 <=? v then 0 else v.

(** The digits left of a string by the cleaning. *)
Definition cpf_digits (s : string) : list Z :=
  map int_of_char (list_ascii_of_string (filter_string is_digit s)).

(** Validity as the specification words it: eleven digits, not one digit
    eleven times, the tenth digit the check digit of the first nine under
    the weights 10..2, the eleventh that of the first ten under 11..2. *)
Definition cpf_valid (ds : list Z) : Prop :=
  length ds = 11%nat
  /\ (forall d, ds <> repeat d 11)
  /\ ds !! 9%nat = Some (check_digit [10; 9; 8; 7; 6; 5; 4; 3; 2] (take 9 ds))
  /\ ds !! 10%nat = Some (check_digit [11; 10; 9; 8; 7; 6; 5; 4; 3; 2] (take 10 ds)).

Lemma int_of_char_inj (a b : ascii) : int_of_char a = int_of_char b -> a = b.
Proof.
  unfold int_of_char. intros H.
  assert (N_of_ascii a = N_of_ascii b) as E by lia.
  rewrite <- (ascii_N_embedding a), <- (ascii_N_embedding b). by rewrite E.
Qed.

Lemma clean_document_str (rt : runtime) (s : string) :
  clean_document rt (PStr s) = filter_string is_digit s.
Proof.
  unfold clean_document. simpl. destruct s; reflexivity.
Qed.

Lemma length_list_ascii (s : string) :
  length (list_ascii_of_string s) = String.length s.
Proof. induction s; simpl; congruence. Qed.

Lemma ascii_eqb_true (a b : ascii) : Ascii.eqb a b = true <-> a = b.
Proof. apply Ascii.eqb_eq. Qed.

Definition eleven (c0 c1 c2 c3 c4 c5 c6 c7 c8 c9 c10 : ascii) : string :=
  String c0 (String c1 (String c2 (String c3 (String c4 (String c5 (String c6
    (String c7 (String c8 (String c9 (String c10 EmptyString)))))))))).

Lemma string_length_eleven (s : string) :
  String.length s = 11%nat ->
  exists c0 c1 c2 c3 c4 c5 c6 c7 c8 c9 c10, s = eleven c0 c1 c2 c3 c4 c5 c6 c7 c8 c9 c10.
Proof.
  intros H.
  do 11 (destruct s as [|? s]; [discriminate H|]).
  destruct s; [|discriminate H].
  by do 11 eexists.
Qed.

Lemma sum_dig1_eleven c0 c1 c2 c3 c4 c5 c6 c7 c8 c9 c10 :
  let s := eleven c0 c1 c2 c3 c4 c5 c6 c7 c8 c9 c10 in
  sum_Z (map (fun i => digit_at s i * (10 - i)) (py_range 9))
  = sum_Z (zip_with Z.mul [10; 9; 8; 7; 6; 5; 4; 3; 2]
             (take 9 (map int_of_char (list_ascii_of_string s)))).
Proof.
  cbv -[int_of_char Z.add Z.mul Z.sub]. lia.
Qed.

Lemma sum_dig2_eleven c0 c1 c2 c3 c4 c5 c6 c7 c8 c9 c10 :
  let s := eleven c0 c1 c2 c3 c4 c5 c6 c7 c8 c9 c10 in
  sum_Z (map (fun i => digit_at s i * (11 - i)) (py_range 10))
  = sum_Z (zip_with Z.mul [11; 10; 9; 8; 7; 6; 5; 4; 3; 2]
             (take 10 (map int_of_char (list_ascii_of_string s)))).
Proof.
  cbv -[int_of_char Z.add Z.mul Z.sub]. lia.
Qed.

Lemma all_first_char_eleven c0 c1 c2 c3 c4 c5 c6 c7 c8 c9 c10 :
  let s := eleven c0 c1 c2 c3 c4 c5 c6 c7 c8 c9 c10 in
  all_first_char s 11 = true <->
  exists d, map int_of_char (list_ascii_of_string s) = repeat d 11.
Proof.
  cbv zeta. unfold all_first_char, eleven. rewrite String.eqb_eq. split.
  - intros H. exists (int_of_char c0). cbn in H. by injection H as -> -> -> -> -> -> -> -> -> ->.
  - intros [d H]. cbn in H.
    injection H as H0 H1 H2 H3 H4 H5 H6 H7 H8 H9 H10. subst d.
    apply int_of_char_inj in H1, H2, H3, H4, H5, H6, H7, H8, H9, H10.
    by subst.
Qed.

(** [validate_cpf] computes what the specification says. *)
Lemma validate_cpf_refines (rt : runtime) (s : string) :
  validate_cpf rt (PStr s) = true <-> cpf_valid (cpf_digits s).
Proof.
  unfold validate_cpf, cpf_digits. rewrite clean_document_str.
  set (c := filter_string is_digit s).
  destruct (Z.of_nat (String.length c) =? 11) eqn:Hlen; cbn [negb].
  2: { split; [discriminate|]. intros [Hl _].
       rewrite length_map, length_list_ascii in Hl. lia. }
  assert (String.length c = 11%nat) as Hl by lia.
  destruct (string_length_eleven c Hl)
    as (c0 & c1 & c2 & c3 & c4 & c5 & c6 & c7 & c8 & c9 & c10 & ->).
  rewrite sum_dig1_eleven, sum_dig2_eleven.
  pose proof (all_first_char_eleven c0 c1 c2 c3 c4 c5 c6 c7 c8 c9 c10) as Hall.
  cbv zeta in Hall. unfold cpf_valid, check_digit.
  set (s11 := eleven c0 c1 c2 c3 c4 c5 c6 c7 c8 c9 c10) in *.
  set (ds := map int_of_char (list_ascii_of_string s11)) in *.
  assert (ds !! 9%nat = Some (digit_at s11 9)) as -> by reflexivity.
  assert (ds !! 10%nat = Some (digit_at s11 10)) as -> by reflexivity.
  assert (length ds = 11%nat) as Hlds by reflexivity.
  destruct (all_first_char s11 11) eqn:Hafc.
  { split; [discriminate|]. intros (_ & Hne & _).
    destruct (proj1 Hall eq_refl) as [d Hd]. by destruct (Hne d). }
  assert (forall d, ds <> repeat d 11) as Hne.
  { intros d Hd. assert (false = true) by (apply Hall; eauto). discriminate. }
  set (v1 := 11 - sum_Z (zip_with Z.mul [10; 9; 8; 7; 6; 5; 4; 3; 2] (take 9 ds)) mod 11).
  set (v2 := 11 - sum_Z (zip_with Z.mul [11; 10; 9; 8; 7; 6; 5; 4; 3; 2] (take 10 ds)) mod 11).
  destruct (Z.eqb_spec (if 10 <=? v1 then 0 else v1) (digit_at s11 9)) as [E1|E1]; cbn [negb].
  2: { split; [discriminate|]. intros (_ & _ & H9 & _). congruence. }
  destruct (Z.eqb_spec (if 10 <=? v2 then 0 else v2) (digit_at s11 10)) as [E2|E2]; cbn [negb].
  2: { split; [discriminate|]. intros (_ & _ & _ & H10). congruence. }
  split; [|done]. intros _. rewrite E1, E2. done.
Qed.

Lemma take_agree {A : Type} (n : nat) (l l' : list A) :
  (forall j, (j < n)%nat -> l !! j = l' !! j) -> take n l = take n l'.
Proof.
  intros H. apply list_eq. intros j.
  destruct (decide (j < n)%nat) as [Hj|Hj].
  - rewrite !lookup_take_lt by done. by apply H.
  - rewrite !lookup_take_ge by lia. done.
Qed.

(** C5. [validate_cpf] accepts exactly the strings whose digits number
    eleven, are not one digit repeated, and carry the two modulus-11 check
    digits; hence a string whose digits differ from those of an accepted one
    in the tenth or in the eleventh place only is rejected. *)
Theorem validate_cpf_correct (rt : runtime) :
  (forall s : string, validate_cpf rt (PStr s) = true <-> cpf_valid (cpf_digits s))
  /\ (forall (s s' : string) (i : nat),
        validate_cpf rt (PStr s) = true ->
        i = 9%nat \/ i = 10%nat ->
        length (cpf_digits s') = length (cpf_digits s) ->
        (forall j, j <> i -> cpf_digits s' !! j = cpf_digits s !! j) ->
        cpf_digits s' !! i <> cpf_digits s !! i ->
        validate_cpf rt (PStr s') = false).
Proof.
  split; [apply validate_cpf_refines|].
  intros s s' i Hv Hi Hlen Hsame Hdiff.
  apply validate_cpf_refines in Hv. destruct Hv as (_ & _ & H9 & H10).
  destruct (validate_cpf rt (PStr s')) eqn:Hv'; [|done]. exfalso.
  apply validate_cpf_refines in Hv'. destruct Hv' as (_ & _ & H9' & H10').
  destruct Hi as [-> | ->].
  - apply Hdiff. rewrite H9, H9'. do 2 f_equal.
    apply take_agree. intros j Hj. apply Hsame. lia.
  - apply Hdiff. rewrite H10, H10'. do 2 f_equal.
    apply take_agree. intros j Hj. apply Hsame. lia.
Qed.

(** 123.456.789-09 is accepted; with its last digit changed to 8, or its
    tenth to 1, it is not. *)
Example validate_cpf_examples :
  validate_cpf plain_runtime (PStr "123.456.789-09") = true
  /\ validate_cpf plain_runtime (PStr "123.456.789-08") = false
  /\ validate_cpf plain_runtime (PStr "123.456.789-19") = false
  /\ validate_cpf plain_runtime (PStr "111.111.111-11") = false.
Proof. repeat split; reflexivity. Qed.

(** ** The order table *)

Section StoreProperties.
Context {W : Type}.
Variable env : environment W.
Local Abbreviation rt := (env_rt env).

(** A write that goes through leaves the trace alone and turns the table
    into its [upsert_order]. *)
Lemma db_save_ok (order_id me_order_id tracking : pyval) (new_status : string)
    (error : option string) (st st' : state W) :
  db_save env order_id me_order_id tracking new_status error st = (Ok tt, st') ->
  exists k me trk w',
    bind_param rt order_id = Ok (Some k)
    /\ bind_param rt me_order_id = Ok me
    /\ bind_param rt tracking = Ok trk
    /\ db_fault env (world st) = (None, w')
    /\ st' = {| db := upsert_order (clock env w') k me trk new_status error (db st);
                world := w'; trace := trace st |}.
Proof.
  unfold db_save, bind, db_connect, lift, raise.
  destruct (db_fault env (world st)) as [[e|] w'] eqn:Hf; [discriminate|].
  cbn.
  destruct (bind_param rt order_id) as [[k|]|] eqn:Hk; cbn;
    destruct (bind_param rt me_order_id) as [me|] eqn:Hme; cbn; try discriminate;
    destruct (bind_param rt tracking) as [trk|] eqn:Htrk; cbn; try discriminate.
  intros [= <-]. by exists k, me, trk, w'.
Qed.

(** A write that raises has written nothing. *)
Lemma db_save_raise (order_id me_order_id tracking : pyval) (new_status : string)
    (error : option string) (st st' : state W) (e : exn) :
  db_save env order_id me_order_id tracking new_status error st = (Raise e, st') ->
  db st' = db st /\ trace st' = trace st.
Proof.
  unfold db_save, bind, db_connect, lift, raise.
  destruct (db_fault env (world st)) as [[e'|] w'] eqn:Hf.
  { intros [= _ <-]. done. }
  cbn.
  destruct (bind_param rt order_id) as [[k|]|] eqn:Hk; cbn;
    destruct (bind_param rt me_order_id) as [me|] eqn:Hme; cbn;
    try (intros [= _ <-]; done);
    destruct (bind_param rt tracking) as [trk|] eqn:Htrk; cbn;
    try (intros [= _ <-]; done).
Qed.

Lemma upsert_order_lookup (now : Z) (k : string) (me trk : option string)
    (new_status : string) (error : option string) (tbl : gmap string order_row) :
  exists r, upsert_order now k me trk new_status error tbl !! k = Some r
    /\ status r = new_status
    /\ last_error r = error
    /\ updated_at r = now
    /\ retry_count r =
         match tbl !! k with Some old => retry_count old | None => 0 end
         + (if error_given error then 1 else 0)
    /\ melhorenvio_order_id r =
         coalesce me (match tbl !! k with Some old => melhorenvio_order_id old | None => None end)
    /\ tracking_code r =
         coalesce trk (match tbl !! k with Some old => tracking_code old | None => None end)
    /\ delivered_at r =
         match tbl !! k with
         | Some old => if String.eqb new_status "delivered" then Some now else delivered_at old
         | None => None
         end.
Proof.
  unfold upsert_order. destruct (tbl !! k) as [old|] eqn:Hold.
  - eexists. rewrite lookup_insert_eq. split; [reflexivity|]. cbn. done.
  - eexists. rewrite lookup_insert_eq. split; [reflexivity|]. cbn.
    repeat split; [by destruct me | by destruct trk].
Qed.

Lemma upsert_order_other (now : Z) (k k' : string) (me trk : option string)
    (new_status : string) (error : option string) (tbl : gmap string order_row) :
  k <> k' -> upsert_order now k me trk new_status error tbl !! k' = tbl !! k'.
Proof.
  intros Hne. unfold upsert_order. destruct (tbl !! k); by rewrite lookup_insert_ne.
Qed.

(** C2, as the code has it. A write without an error that goes through
    leaves the order's [last_error] NULL, whatever it held before: the
    UPDATE assigns the column the bound value, with no COALESCE. *)
Theorem success_write_clears_last_error (order_id me_order_id tracking : pyval)
    (new_status : string) (st st' : state W) (k : string) (old : order_row) (msg : string) :
  bind_param rt order_id = Ok (Some k) ->
  db st !! k = Some old ->
  last_error old = Some msg ->
  db_save env order_id me_order_id tracking new_status None st = (Ok tt, st') ->
  last_error <$> db st' !! k = Some None.
Proof.
  intros Hk Hold _ Hsave.
  destruct (db_save_ok _ _ _ _ _ _ _ Hsave) as (k' & me & trk & w' & Hk' & _ & _ & _ & ->).
  rewrite Hk in Hk'. injection Hk' as <-. cbn.
  destruct (upsert_order_lookup (clock env w') k me trk new_status None (db st))
    as (r & Hr & _ & He & _).
  rewrite Hr. cbn. by rewrite He.
Qed.
End StoreProperties.

(** An order delivered after a failed check: the table before the write
    that marks it delivered shows the error, the table after does not. *)
Definition failed_once : gmap string order_row :=
  {[ "A" := {| melhorenvio_order_id := Some "me-1"; tracking_code := Some "BR1";
               status := "created"; created_at := 1; updated_at := 5;
               delivered_at := None; retry_count := 1;
               last_error := Some "Erro Bagy delivered [HTTP 500]: " |} ]}.

Definition quiet : script := {| answers := []; faults := []; now := 10 |}.

Lemma success_write_clears_last_error_witness :
  last_error <$>
    db (snd (db_save script_env (PStr "A") (PStr "me-1") (PStr "BR1") "delivered" None
               (start failed_once quiet))) !! "A"
  = Some None.
Proof.
  eapply (success_write_clears_last_error script_env (PStr "A") (PStr "me-1") (PStr "BR1")
            "delivered" (start failed_once quiet) _ "A").
  - reflexivity.
  - reflexivity.
  - reflexivity.
  - reflexivity.
Defined.

(** C2, as stated, fails: the stored message was non-null before the
    success write and is NULL after it. *)
Lemma success_write_keeps_last_error_counterexample :
  last_error <$> failed_once !! "A" = Some (Some "Erro Bagy delivered [HTTP 500]: ")
  /\ fst (db_save script_env (PStr "A") (PStr "me-1") (PStr "BR1") "delivered" None
            (start failed_once quiet)) = Ok tt
  /\ last_error <$>
       db (snd (db_save script_env (PStr "A") (PStr "me-1") (PStr "BR1") "delivered" None
                  (start failed_once quiet))) !! "A"
     = Some None.
Proof. repeat split; vm_compute; reflexivity. Qed.

(** ** The selection of the reconciliation scan *)

(** Every selected row is a row of the table that passes the WHERE clause,
    and every such row is selected. *)
Lemma select_pending_spec (max_retries : Z) (tbl : gmap string order_row)
    (row : string * option string * option string) :
  row ∈ select_pending max_retries tbl <->
  exists r, tbl !! row.1.1 = Some r
    /\ is_pending max_retries r = true
    /\ row = (row.1.1, melhorenvio_order_id r, tracking_code r).
Proof.
  destruct row as [[k me] trk]. cbn.
  unfold select_pending. rewrite list_elem_of_In, in_map_iff. split.
  - intros ([k' r] & [= <- <- <-] & Hin). cbn.
    apply list_elem_of_In in Hin. rewrite merge_sort_Permutation in Hin.
    apply list_elem_of_filter in Hin as [Hp Hin].
    apply elem_of_map_to_list in Hin. eauto.
  - intros (r & Hr & Hp & [= -> ->]). exists (k, r). split; [done|].
    apply list_elem_of_In. rewrite merge_sort_Permutation.
    apply list_elem_of_filter. split; [done|]. by apply elem_of_map_to_list.
Qed.

Lemma select_pending_keys_NoDup (max_retries : Z) (tbl : gmap string order_row) :
  NoDup ((select_pending max_retries tbl).*1.*1).
Proof.
  unfold select_pending.
  assert (forall l : list (string * order_row),
            (map (fun kr => (kr.1, melhorenvio_order_id kr.2, tracking_code kr.2)) l).*1.*1
            = l.*1) as ->.
  { induction l as [|? ? IH]; cbn; [done|]. by rewrite <- IH. }
  rewrite merge_sort_Permutation.
  apply NoDup_fmap_fst.
  - intros k r1 r2 [_ H1]%list_elem_of_filter [_ H2]%list_elem_of_filter.
    apply elem_of_map_to_list in H1, H2. congruence.
  - apply NoDup_filter, NoDup_map_to_list.
Qed.

Section SelectionProperties.
Context {W : Type}.
Variable env : environment W.
Local Abbreviation rt := (env_rt env).
Local Abbreviation cfg := (env_cfg env).

(** [db_pending] never raises: it returns the selection, or nothing at all
    when the database fails; neither the table nor the trace changes. *)
Lemma db_pending_total (st : state W) :
  exists rows st',
    db_pending env st = (Ok rows, st')
    /\ db st' = db st /\ trace st' = trace st
    /\ (rows = select_pending (MAX_RETRIES cfg) (db st) \/ rows = []).
Proof.
  unfold db_pending, try_except, bind, db_connect, ret.
  destruct (db_fault env (world st)) as [[e|] w']; cbn; eauto 10.
Qed.

End SelectionProperties.

(** ** What the remote calls leave alone *)

Section RetryFrame.
Context {St A : Type}.
Variable emit : event -> St -> St.
Variables (max_attempts delay : Z) (func_name : string).
Variable func : M St A.
(** A relation between the state before and the state after, kept by every
    step the decorator takes. *)
Variable R : St -> St -> Prop.
Hypothesis R_refl : forall st, R st st.
Hypothesis R_trans : forall st1 st2 st3, R st1 st2 -> R st2 st3 -> R st1 st3.
Hypothesis R_emit : forall ev st, R st (emit ev st).
Hypothesis R_func : forall st, R st (snd (func st)).

Lemma retry_attempts_keeps (todo : nat) (attempt : Z) (last : option exn) (st : St) :
  R st (snd (retry_attempts emit max_attempts delay func_name func todo attempt last st)).
Proof.
  revert attempt last st. induction todo as [|todo IH]; intros attempt last st; cbn.
  - destruct last; apply R_refl.
  - unfold try_except. pose proof (R_func st) as Hf.
    destruct (func st) as [[a|e] st1]; cbn in *; [done|].
    unfold bind at 1.
    destruct (attempt <? max_attempts); unfold bind, emit_unit; cbn;
      (eapply R_trans; [|apply IH]); eauto.
Qed.

Lemma retry_on_failure_keeps (st : St) :
  R st (snd (retry_on_failure emit max_attempts delay func_name func st)).
Proof. apply retry_attempts_keeps. Qed.
End RetryFrame.

Section RemoteFrame.
Context {W : Type}.
Variable env : environment W.
Local Abbreviation rt := (env_rt env).

(** The table is as it was; the trace has only grown. *)
Definition same_table (st st' : state W) : Prop :=
  db st' = db st /\ exists evs, trace st' = (trace st ++ evs)%list.

Lemma same_table_refl (st : state W) : same_table st st.
Proof. split; [done|]. exists []. by rewrite app_nil_r. Qed.

Lemma same_table_trans (st1 st2 st3 : state W) :
  same_table st1 st2 -> same_table st2 st3 -> same_table st1 st3.
Proof.
  intros [H1 [e1 T1]] [H2 [e2 T2]]. split; [congruence|].
  exists (e1 ++ e2)%list. by rewrite T2, T1, app_assoc.
Qed.

Lemma same_table_emit (ev : event) (st : state W) : same_table st (emit ev st).
Proof. split; [done|]. by exists [ev]. Qed.

Lemma same_table_send (r : request) (st : state W) : same_table st (snd (send env r st)).
Proof.
  unfold send. destruct (http env r (world st)) as [o w']. cbn.
  split; [done|]. by exists [EvRequest r].
Qed.

Lemma same_table_bagy_mark_shipped (order_id tracking_code : pyval) (st : state W) :
  same_table st (snd (bagy_mark_shipped env order_id tracking_code st)).
Proof.
  unfold bagy_mark_shipped. apply retry_on_failure_keeps;
    eauto using same_table_refl, same_table_trans, same_table_emit.
  intros st0. unfold bagy_mark_shipped_once, bind, lift, raise.
  destruct (bagy_headers env); cbn; [|apply same_table_refl].
  pose proof (same_table_send
    {| req_method := "PUT";
       req_url := BAGY_BASE (env_cfg env) +:+ "/orders/" +:+ py_str rt order_id
                    +:+ "/fulfillment/shipped";
       req_headers := a;
       req_json := Some (PDict [("shipping_code", tracking_code);
                                ("shipping_carrier", PStr "Melhor Envio")]);
       req_timeout := REQUEST_TIMEOUT (env_cfg env) |} st0) as Hs.
  destruct (send env _ st0) as [[r|e] st1]; cbn in *; [|done].
  destruct (resp_ok r); cbn; done.
Qed.

Lemma same_table_bagy_mark_delivered (order_id : pyval) (st : state W) :
  same_table st (snd (bagy_mark_delivered env order_id st)).
Proof.
  unfold bagy_mark_delivered. apply retry_on_failure_keeps;
    eauto using same_table_refl, same_table_trans, same_table_emit.
  intros st0. unfold bagy_mark_delivered_once, bind, lift, raise.
  destruct (bagy_headers env); cbn; [|apply same_table_refl].
  pose proof (same_table_send
    {| req_method := "PUT";
       req_url := BAGY_BASE (env_cfg env) +:+ "/orders/" +:+ py_str rt order_id
                    +:+ "/fulfillment/delivered";
       req_headers := a;
       req_json := None;
       req_timeout := REQUEST_TIMEOUT (env_cfg env) |} st0) as Hs.
  destruct (send env _ st0) as [[r|e] st1]; cbn in *; [|done].
  destruct (resp_ok r); cbn; done.
Qed.

Lemma same_table_send_to_melhorenvio (pedido : pyval) (st : state W) :
  same_table st (snd (send_to_melhorenvio env pedido st)).
Proof.
  unfold send_to_melhorenvio. apply retry_on_failure_keeps;
    eauto using same_table_refl, same_table_trans, same_table_emit.
  intros st0. unfold send_to_melhorenvio_once, bind, lift, raise.
  destruct (normalize_order_data pedido) as [p|]; cbn; [|apply same_table_refl].
  destruct (shipment_payload env p) as [payload|]; cbn; [|apply same_table_refl].
  destruct (melhorenvio_headers env) as [hs|]; cbn; [|apply same_table_refl].
  pose proof (same_table_send
    {| req_method := "POST";
       req_url := MELHORENVIO_BASE (env_cfg env) +:+ "/me/cart";
       req_headers := hs;
       req_json := Some payload;
       req_timeout := REQUEST_TIMEOUT (env_cfg env) |} st0) as Hs.
  destruct (send env _ st0) as [[r|e] st1]; cbn in *; [|done].
  destruct (resp_ok r); cbn; [|done].
  destruct (response_data r); cbn; done.
Qed.

Lemma same_table_check_delivered (me_order_id : pyval) (st : state W) :
  same_table st (snd (melhorenvio_check_delivered env me_order_id st)).
Proof.
  unfold melhorenvio_check_delivered, try_except, bind, lift, ret.
  destruct (melhorenvio_headers env) as [hs|]; cbn; [|apply same_table_refl].
  pose proof (same_table_send (tracking_request env me_order_id hs) st) as Hs.
  destruct (send env _ st) as [[r|e] st1]; cbn in *; [|done].
  destruct (resp_ok r); cbn; [|done].
  destruct (response_data r) as [data|]; cbn; [|done].
  destruct (any_delivered env _); cbn; done.
Qed.
End RemoteFrame.

(** ** The error path of the webhook handler *)

Section HandlerErrorPath.
Context {W : Type}.
Variable env : environment W.
Local Abbreviation rt := (env_rt env).

(** C10. When the carrier has created the shipment and the pipeline fails
    afterwards, the write of the error path binds NULL for the shipment id
    and for the tracking code: for an order with no row yet, the row it
    leaves has status 'error' and both columns NULL. *)
Theorem error_path_forgets_shipment (pedido order_id me_order_id tracking order_id' : pyval)
    (k msg : string) (st st1 st' : state W) :
  send_to_melhorenvio env pedido st = (Ok (me_order_id, tracking), st1) ->
  process_order env pedido order_id st = (Ok (ReplyError msg order_id'), st') ->
  bind_param rt order_id = Ok (Some k) ->
  db st !! k = None ->
  exists r,
    db st' !! k = Some r
    /\ status r = "error"
    /\ melhorenvio_order_id r = None
    /\ tracking_code r = None
    /\ last_error r = Some msg.
Proof.
  intros Hsend Hproc Hk Hnone.
  pose proof (same_table_send_to_melhorenvio env pedido st) as [Hdb1 _].
  rewrite Hsend in Hdb1. cbn in Hdb1.
  unfold process_order, try_except, bind in Hproc. rewrite Hsend in Hproc.
  pose proof (same_table_bagy_mark_shipped env order_id tracking st1) as [Hdb2 _].
  assert (forall e stx, db stx = db st ->
            (let (o, st'0) :=
               bind (db_save env order_id PNone PNone "error" (Some (str_exn e)))
                    (fun _ => ret (ReplyError (str_exn e) order_id)) stx
             in (o, st'0)) = (Ok (ReplyError msg order_id'), st') ->
            exists r, db st' !! k = Some r /\ status r = "error"
              /\ melhorenvio_order_id r = None /\ tracking_code r = None
              /\ last_error r = Some msg) as Herr.
  { intros e stx Hstx. unfold bind, ret.
    destruct (db_save env order_id PNone PNone "error" (Some (str_exn e)) stx)
      as [[[]|e'] sty] eqn:Hsave; [|discriminate].
    intros [= <- <- <-].
    destruct (db_save_ok _ _ _ _ _ _ _ _ Hsave)
      as (k' & me & trk & w' & Hk' & Hme & Htrk & _ & ->).
    rewrite Hk in Hk'. injection Hk' as <-.
    cbn in Hme, Htrk. injection Hme as <-. injection Htrk as <-. cbn.
    destruct (upsert_order_lookup (clock env w') k None None "error"
                (Some (str_exn e)) (db stx))
      as (r & Hr & Hs & He & _ & _ & Hm & Ht & _).
    rewrite Hstx, Hnone in Hm, Ht. eauto 10. }
  destruct (bagy_mark_shipped env order_id tracking st1) as [[v|e] st2]; cbn in *.
  - destruct (db_save env order_id me_order_id tracking "shipped" None st2)
      as [[[]|e] st3] eqn:Hsave; cbn in Hproc; [discriminate|].
    apply db_save_raise in Hsave as [Hdb3 _].
    apply (Herr e st3); [congruence|].
    unfold bind, ret. destruct (db_save env _ _ _ _ _ st3) as [[[]|?] ?]; exact Hproc.
  - apply (Herr e st2); [congruence|].
    unfold bind, ret. destruct (db_save env _ _ _ _ _ st2) as [[[]|?] ?]; exact Hproc.
Qed.
End HandlerErrorPath.

(** The carrier creates the shipment me-1 with the code BR1, then the
    storefront answers 500 to each of the three attempts. *)
Definition invoiced_order : pyval :=
  PDict [("id", PStr "A"); ("fulfillment_status", PStr "invoiced"); ("total", PInt 150);
         ("customer", PDict [("name", PStr "Ana"); ("document", PStr "123.456.789-09")]);
         ("address", PDict [("street", PStr "Avenida Paulista"); ("zipcode", PStr "01310-100")]);
         ("items", PList [])].

Definition storefront_down : script :=
  {| answers := [json_response 200 (PDict [("id", PStr "me-1"); ("tracking", PStr "BR1")]);
                 json_response 500 PNone; json_response 500 PNone; json_response 500 PNone];
     faults := []; now := 0 |}.

Lemma error_path_forgets_shipment_witness :
  exists r,
    db (snd (process_order script_env invoiced_order (PStr "A") (start ∅ storefront_down)))
      !! "A" = Some r
    /\ status r = "error"
    /\ melhorenvio_order_id r = None
    /\ tracking_code r = None
    /\ last_error r = Some "Erro Bagy shipped [HTTP 500]: <json>".
Proof.
  eapply (error_path_forgets_shipment script_env invoiced_order (PStr "A")
            (PStr "me-1") (PStr "BR1") (PStr "A") "A" _ (start ∅ storefront_down)).
  - vm_compute. reflexivity.
  - vm_compute. reflexivity.
  - reflexivity.
  - reflexivity.
Defined.

(** ** The shipment request *)



Section PayloadProperties.
Context {W : Type}.
Variable env : environment W.
Local Abbreviation rt := (env_rt env).









Lemma or_as_py_or (a b : pyval) :
  (if truthy a then Ok a else Ok b) = Ok (py_or a b).
Proof. unfold py_or. by destruct (truthy a). Qed.






End PayloadProperties.

(** The order of [invoiced_order] has an empty item list. *)
Example empty_order_volume :
  (try! payload := shipment_payload script_env invoiced_order in
   py_get payload "volumes" PNone)
  = Ok (PList [PDict [("height", PInt 10); ("width", PInt 15); ("length", PInt 20);
                      ("weight", PFloat weight_floor)]]).
Proof. vm_compute. reflexivity. Qed.

(** ** The delivery query *)

(** [word] occurs in [text]. *)
Definition contains (word text : string) : Prop :=
  exists before after, text = before +:+ word +:+ after.

Lemma prefix_spec (word text : string) :
  String.prefix word text = true <-> exists after, text = word +:+ after.
Proof.
  revert text. induction word as [|c word IH]; intros text; cbn.
  - destruct text; cbn; (split; [intros _; by eexists | done]).
  - destruct text as [|c' text]; cbn.
    + split; [discriminate|]. intros [after H]. discriminate H.
    + destruct (Ascii.ascii_dec c c') as [<-|Hne].
      * rewrite IH. split.
        -- intros [after ->]. by exists after.
        -- intros [after H]. exists after. by injection H.
      * split; [discriminate|]. intros [after H]. injection H as -> _. by destruct Hne.
Qed.

Lemma py_in_spec (word text : string) : py_in word text = true <-> contains word text.
Proof.
  unfold contains. induction text as [|c text IH].
  - change (py_in word "") with (String.prefix word "" || false).
    rewrite orb_false_r, prefix_spec. split.
    + intros [after H]. by exists "", after.
    + intros (before & after & H). destruct before; cbn in H; [eauto|discriminate].
  - change (py_in word (String c text))
      with (String.prefix word (String c text) || py_in word text).
    rewrite orb_true_iff, prefix_spec, IH. split.
    + intros [[after H] | (before & after & H)].
      * by exists "", after.
      * exists (String c before), after. cbn. by rewrite H.
    + intros (before & after & H). destruct before as [|c' before]; cbn in H.
      * left. eauto.
      * right. injection H as <- H. eauto.
Qed.

Definition is_dict (v : pyval) : Prop := exists d, v = PDict d.

Section QueryProperties.
Context {W : Type}.
Variable env : environment W.
Local Abbreviation rt := (env_rt env).

(** An entry of the carrier's answer reports the delivery when it is an
    object whose status, as text and in lower case, contains one of the
    three words. *)
Definition reports_delivery (entry : pyval) : Prop :=
  exists d, entry = PDict d
    /\ let status_text := py_lower (py_str rt (dict_get d "status" (PStr ""))) in
       contains "delivered" status_text
       \/ contains "entregue" status_text
       \/ contains "finalizado" status_text.

Lemma entry_delivered_dict (d : list (string * pyval)) :
  exists b, entry_delivered env (PDict d) = Ok b
    /\ (b = true <-> reports_delivery (PDict d)).
Proof.
  unfold entry_delivered. cbn. eexists. split; [reflexivity|].
  set (t := py_lower (py_str rt (dict_get d "status" (PStr "")))).
  rewrite !orb_true_iff, !py_in_spec, String.eqb_eq. split.
  - intros H. exists d. split; [done|]. cbv zeta. fold t.
    destruct H as [[[H|H]|H]|H]; auto.
    left. rewrite H. by exists "", "".
  - intros (d' & [= <-] & H). cbv zeta in H. fold t in H.
    destruct H as [H|[H|H]]; auto.
Qed.

Lemma entry_delivered_ok (entry : pyval) (b : bool) :
  entry_delivered env entry = Ok b -> is_dict entry /\ (b = true <-> reports_delivery entry).
Proof.
  destruct entry; try discriminate. intros H.
  destruct (entry_delivered_dict d) as (b' & Hb' & Hiff).
  rewrite H in Hb'. injection Hb' as <-. split; [by eexists|done].
Qed.

(** The loop answers True exactly when some entry reports the delivery and
    every entry before it is an object (an entry that is not one raises
    when the loop reaches it). *)
Lemma any_delivered_true (entries : list pyval) :
  any_delivered env entries = Ok true <->
  exists before entry after,
    entries = (before ++ entry :: after)%list
    /\ Forall is_dict before
    /\ reports_delivery entry.
Proof.
  split.
  - induction entries as [|e rest IH]; cbn [any_delivered]; [discriminate|].
    destruct (entry_delivered env e) as [b|] eqn:He; cbn [bind_outcome]; [|discriminate].
    apply entry_delivered_ok in He as [Hd Hb]. destruct b.
    + intros _. exists [], e, rest. split; [done|]. split; [constructor|]. by apply Hb.
    + intros (before & entry & after & -> & Hbefore & Hentry)%IH.
      exists (e :: before), entry, after. split; [done|]. split; [by constructor|done].
  - intros (before & entry & after & -> & Hbefore & Hentry).
    induction Hbefore as [|e before [d ->] _ IH]; cbn [app any_delivered].
    + destruct Hentry as (d & -> & H).
      destruct (entry_delivered_dict d) as (b & -> & Hb). cbn [bind_outcome].
      assert (b = true) as -> by (apply Hb; by exists d). done.
    + destruct (entry_delivered_dict d) as (b & -> & _). cbn [bind_outcome]. by destruct b.
Qed.

(** Whatever happens, the query returns a boolean. *)
Lemma check_delivered_returns (me_order_id : pyval) (st : state W) :
  exists (b : bool) (st' : state W),
    melhorenvio_check_delivered env me_order_id st = (Ok b, st').
Proof.
  unfold melhorenvio_check_delivered, try_except, bind, lift, ret.
  destruct (melhorenvio_headers env) as [headers|e]; cbn; [|eauto].
  destruct (send env (tracking_request env me_order_id headers) st) as [[r|e] st1];
    cbn; [|eauto].
  destruct (resp_ok r); cbn; [|eauto].
  destruct (response_data r) as [data|e]; cbn; [|eauto].
  destruct (any_delivered env _); cbn; eauto.
Qed.

(** C8. The delivery query never raises.  It answers False when the
    headers cannot be built, when the request raises, when the response is a
    4xx or 5xx, when its body does not parse, and when the loop over the
    entries raises; otherwise it answers True exactly when an entry of the
    answer reports the delivery. *)
Theorem query_delivery_never_raises (me_order_id : pyval) (st : state W) :
  exists (b : bool) (st' : state W),
    melhorenvio_check_delivered env me_order_id st = (Ok b, st')
    /\ match melhorenvio_headers env with
       | Raise _ => b = false
       | Ok headers =>
           match http env (tracking_request env me_order_id headers) (world st) with
           | (Raise _, _) => b = false
           | (Ok r, _) =>
               if resp_ok r then
                 match response_data r with
                 | Raise _ => b = false
                 | Ok data =>
                     let entries := match data with PList l => l | _ => [data] end in
                     (b = true <->
                      exists before entry after,
                        entries = (before ++ entry :: after)%list
                        /\ Forall is_dict before
                        /\ reports_delivery entry)
                     /\ (Forall is_dict entries ->
                         (b = true <-> exists entry, entry ∈ entries /\ reports_delivery entry))
                 end
               else b = false
           end
       end.
Proof.
  unfold melhorenvio_check_delivered, try_except, bind, lift, ret, send.
  destruct (melhorenvio_headers env) as [headers|e]; cbn; [|eauto].
  destruct (http env (tracking_request env me_order_id headers) (world st))
    as [[r|e] w']; cbn; [|eauto].
  destruct (resp_ok r); cbn; [|eauto].
  destruct (response_data r) as [data|e]; cbn; [|eauto].
  set (entries := match data with PList l => l | _ => [data] end).
  pose proof (any_delivered_true entries) as Htrue.
  destruct (any_delivered env entries) as [b0|e] eqn:Hany; cbn.
  - do 2 eexists. split; [reflexivity|].
    assert (b0 = true <-> Ok (A:=bool) b0 = Ok true) as Hb0 by (split; congruence).
    split; [by rewrite Hb0, Htrue|].
    intros Hall. rewrite Hb0, Htrue. split.
    + intros (before & entry & after & -> & _ & Hentry).
      exists entry. split; [|done]. apply elem_of_app. right. by left.
    + intros (entry & Hin & Hentry).
      apply list_elem_of_split in Hin as (before & after & Heq).
      exists before, entry, after. split; [done|]. split; [|done].
      rewrite Heq in Hall. by apply Forall_app in Hall as [? _].
  - do 2 eexists. split; [reflexivity|]. split.
    + split; [discriminate|]. intros H. apply Htrue in H. discriminate H.
    + intros Hall. split; [discriminate|]. intros (entry & Hin & Hentry).
      apply list_elem_of_split in Hin as (before & after & Heq).
      assert (Raise (A:=bool) e = Ok true) as Habs; [|discriminate Habs].
      apply Htrue. exists before, entry, after. split; [done|]. split; [|done].
      rewrite Heq in Hall. by apply Forall_app in Hall as [? _].
Qed.
End QueryProperties.

(** ** The guard of the webhook handler *)

Section GuardProperties.
Context {W : Type}.
Variable env : environment W.
Local Abbreviation rt := (env_rt env).

(** C4, as the code has it. An event whose order carries an id, has the
    fulfillment status 'invoiced' and is stored with the status 'shipped'
    or 'delivered' is answered 200 "already processed" with nothing sent
    and nothing written (the status lookup itself succeeding); with any
    other stored status, 'error' among them, the handler goes on to the
    pipeline of [process_order]. *)
Theorem invoiced_duplicate_guard (pedido p order_id : pyval) (k stored : string)
    (st : state W) (w' : W) :
  normalize_order_data pedido = Ok p ->
  py_get p "id" PNone = Ok order_id ->
  truthy order_id = true ->
  py_get p "fulfillment_status" (PStr "") = Ok (PStr "invoiced") ->
  db_fault env (world st) = (None, w') ->
  bind_param rt order_id = Ok (Some k) ->
  status <$> db st !! k = Some stored ->
  let looked_up := {| db := db st; world := w'; trace := trace st |} in
  (stored = "shipped" \/ stored = "delivered" ->
   exists r,
     webhook_handler env pedido st = (Ok r, looked_up)
     /\ r = ReplyAlreadyProcessed stored
     /\ reply_status r = 200
     /\ reply_message r = "Pedido já processado")
  /\ (stored = "error" \/ already_processed stored = false ->
      webhook_handler env pedido st
      = match process_order env p order_id looked_up with
        | (Ok r, st') => (Ok r, st')
        | (Raise e, st') => (Ok (ReplyInternalError (str_exn e)), st')
        end).
Proof.
  intros Hnorm Hid Htruthy Hful Hfault Hk Hstored looked_up.
  assert (exists d, p = PDict d) as [d ->] by (destruct p; try discriminate; eauto).
  assert (webhook_handler env pedido st
          = if already_processed stored then (Ok (ReplyAlreadyProcessed stored), looked_up)
            else match process_order env (PDict d) order_id looked_up with
                 | (Ok r, st') => (Ok r, st')
                 | (Raise e, st') => (Ok (ReplyInternalError (str_exn e)), st')
                 end) as Hrun.
  { unfold webhook_handler, try_except, bind, lift, ret.
    rewrite Hnorm, Hid, Hful. cbn [py_get]. rewrite Htruthy.
    cbn [py_eq_str String.eqb Ascii.eqb Bool.eqb negb].
    unfold db_select_status, bind, db_connect, lift. rewrite Hfault, Hk.
    cbn [db]. rewrite Hstored. fold looked_up.
    destruct (already_processed stored); [done|].
    by destruct (process_order env (PDict d) order_id looked_up) as [[r|e] st']. }
  split.
  - intros Hs. exists (ReplyAlreadyProcessed stored). rewrite Hrun.
    by destruct Hs as [-> | ->].
  - intros Hs. rewrite Hrun.
    by destruct Hs as [-> | ->].
Qed.
End GuardProperties.

(** The order A, shipped, and an event for it whose fulfillment status is
    the 'shipped' the storefront shows after the first run. *)
Definition shipped_once : gmap string order_row :=
  {[ "A" := {| melhorenvio_order_id := Some "me-1"; tracking_code := Some "BR1";
               status := "shipped"; created_at := 1; updated_at := 1;
               delivered_at := None; retry_count := 0; last_error := None |} ]}.

Definition shipped_event : pyval :=
  PDict [("id", PStr "A"); ("fulfillment_status", PStr "shipped")].

Lemma invoiced_duplicate_guard_witness :
  exists r,
    webhook_handler script_env invoiced_order (start shipped_once quiet)
      = (Ok r, start shipped_once quiet)
    /\ r = ReplyAlreadyProcessed "shipped"
    /\ reply_status r = 200
    /\ reply_message r = "Pedido já processado".
Proof.
  apply (invoiced_duplicate_guard script_env invoiced_order invoiced_order (PStr "A") "A"
           "shipped" (start shipped_once quiet) quiet); try reflexivity.
  by left.
Defined.

(** C4, as stated, fails: an event for a shipped order is answered "ignored",
    not "already processed", when its fulfillment status is not 'invoiced'. *)
Lemma duplicate_event_counterexample :
  status <$> shipped_once !! "A" = Some "shipped"
  /\ fst (webhook_handler script_env shipped_event (start shipped_once quiet))
     = Ok (ReplyIgnored (PStr "A") PNone (PStr "shipped"))
  /\ reply_message (ReplyIgnored (PStr "A") PNone (PStr "shipped"))
     = "Pedido ignorado - apenas pedidos FATURADOS são processados".
Proof. repeat split; vm_compute; reflexivity. Qed.

(** An order that failed once, and the same invoiced event again, both
    platforms now answering well: two calls are made and the order is
    shipped. *)
Definition errored_once : gmap string order_row :=
  {[ "A" := {| melhorenvio_order_id := None; tracking_code := None;
               status := "error"; created_at := 1; updated_at := 1;
               delivered_at := None; retry_count := 1;
               last_error := Some "Erro Melhor Envio [HTTP 500]: <json>" |} ]}.

Example errored_order_processed_again :
  let answers_well :=
    {| answers := [json_response 200 (PDict [("id", PStr "me-1"); ("tracking", PStr "BR1")]);
                   json_response 200 (PDict [])];
       faults := []; now := 5 |} in
  let run := webhook_handler script_env invoiced_order (start errored_once answers_well) in
  run.1 = Ok (ReplySuccess (PStr "A") (PStr "me-1") (PStr "BR1"))
  /\ length (trace run.2) = 2%nat
  /\ status <$> db run.2 !! "A" = Some "shipped"
  /\ retry_count <$> db run.2 !! "A" = Some 1.
Proof. vm_compute. repeat split; reflexivity. Qed.

(** ** The retry decorator *)

Section RetryObserved.
Context {St A : Type}.
Variable emit : event -> St -> St.
Variables (max_attempts delay : Z) (func_name : string).
Variable func : M St A.

(** What an observer of the decorated call sees, in order: each call of the
    function with what it returned or raised, and each effect of the
    decorator itself. *)
Inductive observation : Type :=
  | Called (result : outcome A)
  | Did (ev : event).

(** The function and the decorator's effects, run beside a record of the
    observations; the record is out of their reach. *)
Definition observed_func : M (St * list observation) A :=
  fun sto =>
    let '(o, st') := func sto.1 in
    (o, (st', (sto.2 ++ [Called o])%list)).

Definition observed_emit (ev : event) (sto : St * list observation)
    : St * list observation :=
  (emit ev sto.1, (sto.2 ++ [Did ev])%list).

(** The observations of the failed attempts numbered [from], [from + 1],
    ... that another attempt follows: the call, the warning with the
    attempt's number, the sleep. *)
Fixpoint failed_attempts (from : Z) (es : list exn) : list observation :=
  match es with
  | [] => []
  | e :: es' =>
      Called (Raise e)
      :: Did (EvLog (LogRetry from max_attempts func_name e delay))
      :: Did (EvSleep delay)
      :: failed_attempts (from + 1) es'
  end.

(** The record changes nothing of what the decorated call returns and does. *)
Lemma observed_retry_erases (todo : nat) (attempt : Z) (last : option exn)
    (st : St) (obs : list observation) :
  let run := retry_attempts observed_emit max_attempts delay func_name observed_func
               todo attempt last (st, obs) in
  (run.1, run.2.1)
  = retry_attempts emit max_attempts delay func_name func todo attempt last st.
Proof.
  revert attempt last st obs. induction todo as [|todo IH]; intros attempt last st obs.
  - cbn. by destruct last.
  - cbn -[Z.ltb]. unfold try_except, observed_func. cbn [fst snd].
    destruct (func st) as [[a|e] st1]; [done|].
    unfold bind at 1 3.
    destruct (attempt <? max_attempts); unfold bind, emit_unit, observed_emit;
      cbn [fst snd]; apply IH.
Qed.

Lemma retry_attempts_observed (todo : nat) (attempt : Z) (last : option exn)
    (st : St) (obs0 : list observation) :
  attempt + Z.of_nat todo = max_attempts ->
  exists (es : list exn) (o : outcome A) (st' : St) (obs : list observation),
    retry_attempts observed_emit max_attempts delay func_name observed_func
      (S todo) attempt last (st, obs0) = (o, (st', obs))
    /\ ((exists a, o = Ok a
           /\ (length es <= todo)%nat
           /\ obs = (obs0 ++ failed_attempts attempt es ++ [Called (Ok a)])%list)
        \/ (exists e, o = Raise e
              /\ length es = todo
              /\ obs = (obs0 ++ failed_attempts attempt es
                          ++ [Called (Raise e);
                              Did (EvLog (LogExhausted max_attempts func_name e))])%list)).
Proof.
  revert attempt last st obs0. induction todo as [|todo IH]; intros attempt last st obs0 Hsum.
  - cbn -[Z.ltb]. unfold try_except, observed_func. cbn [fst snd].
    destruct (func st) as [[a|e] st1].
    + exists [], (Ok a), st1. eexists. split; [reflexivity|]. left. exists a. cbn. eauto.
    + unfold bind at 1. assert ((attempt <? max_attempts) = false) as -> by lia.
      unfold emit_unit, observed_emit, raise. cbn [fst snd].
      exists [], (Raise e). do 2 eexists. split; [reflexivity|]. right. exists e.
      split; [done|]. split; [done|]. cbn. by rewrite <- app_assoc.
  - change (retry_attempts observed_emit max_attempts delay func_name observed_func
              (S (S todo)) attempt last (st, obs0))
      with (try_except observed_func (fun e =>
              run! (if attempt <? max_attempts
                    then run! emit_unit observed_emit
                                (EvLog (LogRetry attempt max_attempts func_name e delay)) in
                         emit_unit observed_emit (EvSleep delay)
                    else emit_unit observed_emit
                           (EvLog (LogExhausted max_attempts func_name e))) in
              retry_attempts observed_emit max_attempts delay func_name observed_func
                (S todo) (attempt + 1) (Some e)) (st, obs0)).
    unfold try_except, observed_func. cbn [fst snd].
    destruct (func st) as [[a|e] st1].
    + exists [], (Ok a), st1. eexists. split; [reflexivity|]. left. exists a.
      split; [done|]. split; [cbn; lia|done].
    + unfold bind at 1. assert ((attempt <? max_attempts) = true) as -> by lia.
      unfold bind, emit_unit, observed_emit. cbn [fst snd].
      destruct (IH (attempt + 1) (Some e) (emit (EvSleep delay)
                  (emit (EvLog (LogRetry attempt max_attempts func_name e delay)) st1))
                  (((obs0 ++ [Called (Raise e)])
                      ++ [Did (EvLog (LogRetry attempt max_attempts func_name e delay))])
                     ++ [Did (EvSleep delay)])%list ltac:(lia))
        as (es & o & st' & obs & Hrun & Hshape).
      exists (e :: es), o, st', obs. split; [exact Hrun|].
      destruct Hshape as [(a & -> & Hlen & ->) | (e' & -> & Hlen & ->)]; [left|right].
      * exists a. split; [done|]. split; [cbn; lia|].
        cbn [failed_attempts]. by rewrite <- !app_assoc.
      * exists e'. split; [done|]. split; [cbn; lia|].
        cbn [failed_attempts]. by rewrite <- !app_assoc.
Qed.

(** C3. With [max_attempts] at least 1, the decorated call is seen to do one
    of two things.  Either the function fails some [k - 1] times, each
    failure followed by the warning and the fixed sleep, succeeds at its
    [k]-th call, [k] no more than [max_attempts], and the result of that
    call is returned: [k] calls in all.  Or it fails [max_attempts] times,
    with the warning and the sleep between consecutive attempts, the
    exhaustion is logged with the number of attempts, and the exception of
    the last attempt is raised as it is.  The record of observations apart,
    the run is the decorated call's own. *)
Theorem retry_on_failure_observed (st : St) :
  1 <= max_attempts ->
  exists (es : list exn) (o : outcome A) (st' : St) (obs : list observation),
    retry_on_failure observed_emit max_attempts delay func_name observed_func (st, [])
      = (o, (st', obs))
    /\ retry_on_failure emit max_attempts delay func_name func st = (o, st')
    /\ ((exists a, o = Ok a
           /\ Z.of_nat (length es) + 1 <= max_attempts
           /\ obs = (failed_attempts 1 es ++ [Called (Ok a)])%list)
        \/ (exists e, o = Raise e
              /\ Z.of_nat (length es) + 1 = max_attempts
              /\ obs = (failed_attempts 1 es
                          ++ [Called (Raise e);
                              Did (EvLog (LogExhausted max_attempts func_name e))])%list)).
Proof.
  intros Hmax. unfold retry_on_failure.
  destruct (Z.to_nat max_attempts) as [|todo] eqn:Htodo; [lia|].
  destruct (retry_attempts_observed todo 1 None st [] ltac:(lia))
    as (es & o & st' & obs & Hrun & Hshape).
  exists es, o, st', obs. split; [exact Hrun|]. split.
  - rewrite <- observed_retry_erases with (obs := []). cbv zeta. by rewrite Hrun.
  - destruct Hshape as [(a & -> & Hlen & ->) | (e & -> & Hlen & ->)]; [left|right].
    + exists a. split; [done|]. split; [lia|done].
    + exists e. split; [done|]. split; [lia|done].
Qed.
End RetryObserved.

(** A call that fails with a timeout until its third try, counted by the
    state, under the decorator's defaults. *)
Definition timeout_error : exn := mk_exn RequestException "timed out".

Definition third_time_lucky : M nat Z :=
  fun calls => (if (calls <? 2)%nat then Raise timeout_error else Ok 42, S calls).

Lemma retry_on_failure_observed_witness :
  exists (es : list exn) (o : outcome Z) (st' : nat) (obs : list (observation (A:=Z))),
    retry_on_failure (observed_emit (fun _ calls => calls)) 3 2 "f"
      (observed_func third_time_lucky) (0%nat, [])
      = (o, (st', obs))
    /\ retry_on_failure (fun _ calls => calls) 3 2 "f" third_time_lucky 0%nat = (o, st')
    /\ ((exists a, o = Ok a
           /\ Z.of_nat (length es) + 1 <= 3
           /\ obs = (failed_attempts 3 2 "f" 1 es ++ [Called (Ok a)])%list)
        \/ (exists e, o = Raise e
              /\ Z.of_nat (length es) + 1 = 3
              /\ obs = (failed_attempts 3 2 "f" 1 es
                          ++ [Called (Raise e); Did (EvLog (LogExhausted 3 "f" e))])%list)).
Proof.
  apply (retry_on_failure_observed (fun _ calls => calls) 3 2 "f" third_time_lucky 0%nat).
  lia.
Defined.

(** The same call, as seen: two failures, each with its warning and its
    sleep of 2, and the third call's result returned. *)
Example third_time_lucky_observed :
  retry_on_failure (observed_emit (fun _ calls => calls)) 3 2 "f"
    (observed_func third_time_lucky) (0%nat, [])
  = (Ok 42,
     (3%nat,
      [Called (Raise timeout_error); Did (EvLog (LogRetry 1 3 "f" timeout_error 2));
       Did (EvSleep 2);
       Called (Raise timeout_error); Did (EvLog (LogRetry 2 3 "f" timeout_error 2));
       Did (EvSleep 2);
       Called (Ok 42)])).
Proof. reflexivity. Qed.

(** With two attempts allowed, it is the second failure that is raised. *)
Example third_time_lucky_exhausted :
  retry_on_failure (observed_emit (fun _ calls => calls)) 2 2 "f"
    (observed_func third_time_lucky) (0%nat, [])
  = (Raise timeout_error,
     (2%nat,
      [Called (Raise timeout_error); Did (EvLog (LogRetry 1 2 "f" timeout_error 2));
       Did (EvSleep 2);
       Called (Raise timeout_error); Did (EvLog (LogExhausted 2 "f" timeout_error))])).
Proof. reflexivity. Qed.

(** ** The tracking worker *)

Section WorkerProperties.
Context {W : Type}.
Variable env : environment W.
Local Abbreviation rt := (env_rt env).

(** What a call of [db_save] can do to the table: nothing, or one upsert. *)
Lemma db_save_table (order_id me_order_id tracking : pyval) (new_status : string)
    (error : option string) (st : state W) :
  let run := db_save env order_id me_order_id tracking new_status error st in
  trace run.2 = trace st
  /\ ((exists e, run.1 = Raise e /\ db run.2 = db st)
      \/ (exists k me trk w',
            run.1 = Ok tt
            /\ bind_param rt order_id = Ok (Some k)
            /\ bind_param rt me_order_id = Ok me
            /\ bind_param rt tracking = Ok trk
            /\ db run.2 = upsert_order (clock env w') k me trk new_status error (db st))).
Proof.
  cbv zeta.
  destruct (db_save env order_id me_order_id tracking new_status error st)
    as [[[]|e] st'] eqn:Hsave; cbn [fst snd].
  - destruct (db_save_ok _ _ _ _ _ _ _ _ Hsave) as (k & me & trk & w' & Hk & Hme & Htrk & _ & ->).
    split; [done|]. right. exists k, me, trk, w'. done.
  - destruct (db_save_raise _ _ _ _ _ _ _ _ _ Hsave) as [Hdb Htr].
    split; [done|]. left. eauto.
Qed.

(** The [try] block either raises with the table as it was, or returns
    with the table as it was or with the order's row marked delivered. *)
Lemma check_delivery_table (k : string) (me trk : option string) (st : state W) :
  let run := check_delivery env (PStr k) (py_of_text me) (py_of_text trk) st in
  (exists e, run.1 = Raise e /\ db run.2 = db st)
  \/ (run.1 = Ok tt
      /\ (db run.2 = db st
          \/ exists w', db run.2 = upsert_order (clock env w') k me trk "delivered" None (db st))).
Proof.
  cbv zeta. unfold check_delivery, bind.
  assert (exists b st1,
            (if truthy (py_of_text me)
             then melhorenvio_check_delivered env (py_of_text me)
             else ret false) st = (Ok b, st1) /\ db st1 = db st) as (b & st1 & -> & Hdb1).
  { destruct (truthy (py_of_text me)).
    - destruct (check_delivered_returns env (py_of_text me) st) as (b & st1 & Hq).
      pose proof (same_table_check_delivered env (py_of_text me) st) as [Hdb _].
      rewrite Hq in Hdb. eauto.
    - unfold ret. eauto. }
  destruct b; [|right; split; [done|by left]].
  pose proof (same_table_bagy_mark_delivered env (PStr k) st1) as [Hdb2 _].
  destruct (bagy_mark_delivered env (PStr k) st1) as [[v|e] st2]; cbn [fst snd] in *.
  2: { left. exists e. split; [done|congruence]. }
  destruct (db_save_table (PStr k) (py_of_text me) (py_of_text trk) "delivered" None st2)
    as [_ [(e & He & Hdb) | (k' & me' & trk' & w' & Hok & Hk & Hme & Htrk & Hdb)]].
  - left. exists e. split; [done|congruence].
  - right. split; [done|]. right. exists w'. rewrite Hdb.
    cbn in Hk. injection Hk as <-.
    assert (me' = me) as -> by (destruct me; cbn in Hme; congruence).
    assert (trk' = trk) as -> by (destruct trk; cbn in Htrk; congruence).
    congruence.
Qed.

(** One order of the scan: the table is as it was, or the order's row is
    marked delivered, or (on an exception) rewritten by the error write,
    whose status is [db_save]'s default. *)
Lemma check_order_table (k : string) (me trk : option string) (st : state W) :
  let run := check_order env (k, me, trk) st in
  db run.2 = db st
  \/ (exists w', run.1 = Ok tt
        /\ db run.2 = upsert_order (clock env w') k me trk "delivered" None (db st))
  \/ (exists w' msg, run.1 = Ok tt
        /\ db run.2 = upsert_order (clock env w') k me trk "created" (Some msg) (db st)).
Proof.
  cbv zeta. unfold check_order, default_status. unfold bind, try_except.
  destruct (check_delivery_table k me trk st) as [(e & He & Hdb) | (Hok & Hdb)];
    destruct (check_delivery env (PStr k) (py_of_text me) (py_of_text trk) st)
      as [[[]|e'] st1]; cbn [fst snd] in *; try congruence.
  - destruct (db_save_table (PStr k) (py_of_text me) (py_of_text trk) "created"
                (Some (str_exn e')) st1)
      as [_ [(e2 & He2 & Hdb2) | (k' & me' & trk' & w' & Hok & Hk & Hme & Htrk & Hdb2)]].
    + destruct (db_save env _ _ _ _ _ st1) as [[[]|?] st2]; cbn [fst snd] in *;
        [congruence|]. left. congruence.
    + destruct (db_save env _ _ _ _ _ st1) as [[[]|?] st2]; cbn [fst snd] in *;
        [|congruence]. right. right. exists w', (str_exn e').
      unfold sleep, emit_unit, emit. cbn [fst snd db]. split; [done|].
      cbn in Hk. injection Hk as <-.
      assert (me' = me) as -> by (destruct me; cbn in Hme; congruence).
      assert (trk' = trk) as -> by (destruct trk; cbn in Htrk; congruence).
      congruence.
  - unfold sleep, emit_unit, emit. cbn [fst snd db].
    destruct Hdb as [Hdb | [w' Hdb]]; [by left|]. right. left. eauto.
Qed.

(** The error write of the loop: whatever the stored status was, the row
    it leaves has the status 'created'; it carries the message, and one
    more retry when the message is not empty. *)
Lemma worker_error_write (k : string) (me trk : option string) (msg : string)
    (old : order_row) (st st' : state W) :
  db st !! k = Some old ->
  db_save env (PStr k) (py_of_text me) (py_of_text trk) "created" (Some msg) st = (Ok tt, st') ->
  exists r, db st' !! k = Some r
    /\ status r = "created"
    /\ last_error r = Some msg
    /\ retry_count r = retry_count old + (if String.eqb msg "" then 0 else 1)
    /\ delivered_at r = delivered_at old.
Proof.
  intros Hold Hsave.
  destruct (db_save_ok _ _ _ _ _ _ _ _ Hsave) as (k' & me' & trk' & w' & Hk & _ & _ & _ & ->).
  cbn in Hk. injection Hk as <-. cbn.
  destruct (upsert_order_lookup (clock env w') k me' trk' "created" (Some msg) (db st))
    as (r & Hr & Hs & He & _ & Hc & _ & _ & Hd).
  rewrite Hold in Hc, Hd. exists r. cbn in *.
  destruct (String.eqb msg ""); cbn in *; eauto 10.
Qed.
End WorkerProperties.

(** Two shipped orders; the carrier reports both delivered; the storefront
    refuses the first (500 at each of the three attempts) and accepts the
    second. *)
Definition two_shipped : gmap string order_row :=
  {[ "A" := {| melhorenvio_order_id := Some "me-1"; tracking_code := Some "BR1";
               status := "shipped"; created_at := 1; updated_at := 1;
               delivered_at := None; retry_count := 0; last_error := None |};
     "B" := {| melhorenvio_order_id := Some "me-2"; tracking_code := Some "BR2";
               status := "shipped"; created_at := 2; updated_at := 2;
               delivered_at := None; retry_count := 0; last_error := None |} ]}.

Definition delivered_answer : outcome response :=
  json_response 200 (PList [PDict [("status", PStr "Entregue")]]).

Definition storefront_refuses_first : script :=
  {| answers := [delivered_answer;
                 json_response 500 PNone; json_response 500 PNone; json_response 500 PNone;
                 delivered_answer;
                 json_response 200 (PDict [])];
     faults := []; now := 10 |}.

(** C1, at the failing input. The scan goes on to the second order after
    the failure of the first, and the first order's row carries the message
    and one more retry; but its status, 'shipped' before the scan, is
    'created' after it. *)
Theorem worker_error_write_resets_status :
  let before := start two_shipped storefront_refuses_first in
  let after := (tracking_scan script_env before).2 in
  status <$> db before !! "A" = Some "shipped"
  /\ status <$> db after !! "A" = Some "created"
  /\ retry_count <$> db after !! "A" = Some 1
  /\ last_error <$> db after !! "A" = Some (Some "Erro Bagy delivered [HTTP 500]: <json>")
  /\ status <$> db after !! "B" = Some "delivered".
Proof. vm_compute. repeat split; reflexivity. Qed.

(** An invoiced order goes through the handler (the carrier answers me-1 and
    BR1, the storefront accepts); then a round of the worker finds it
    delivered. *)
Definition all_goes_well : script :=
  {| answers := [json_response 200 (PDict [("id", PStr "me-1"); ("tracking", PStr "BR1")]);
                 json_response 200 (PDict []);
                 delivered_answer;
                 json_response 200 (PDict [])];
     faults := []; now := 0 |}.

Definition after_event : state script :=
  (webhook_handler script_env invoiced_order (start ∅ all_goes_well)).2.

Definition after_scan : state script := (tracking_scan script_env after_event).2.

Example after_scan_delivered :
  status <$> db after_event !! "A" = Some "shipped"
  /\ delivered_at <$> db after_event !! "A" = Some None
  /\ status <$> db after_scan !! "A" = Some "delivered"
  /\ delivered_at <$> db after_scan !! "A" = Some (Some 4).
Proof. vm_compute. repeat split; reflexivity. Qed.

(** ** Further properties *)

Lemma filter_string_idempotent (p : ascii -> bool) (s : string) :
  filter_string p (filter_string p s) = filter_string p s.
Proof.
  induction s as [|c s IH]; cbn; [done|].
  destruct (p c) eqn:Hc; cbn; [|done]. by rewrite Hc, IH.
Qed.

Lemma filter_string_all (p : ascii -> bool) (s : string) :
  Forall (fun c => p c = true) (list_ascii_of_string (filter_string p s)).
Proof.
  induction s as [|c s IH]; cbn; [constructor|].
  destruct (p c) eqn:Hc; cbn; [by constructor|done].
Qed.

(** Cleaning a document or a postal code leaves digits only, and cleaning
    the result again changes nothing. *)
Theorem cleaning_idempotent (rt : runtime) (v : pyval) :
  clean_document rt (PStr (clean_document rt v)) = clean_document rt v
  /\ Forall (fun c => is_digit c = true) (list_ascii_of_string (clean_document rt v))
  /\ clean_zipcode rt (PStr (clean_zipcode rt v)) = clean_zipcode rt v
  /\ Forall (fun c => is_digit c = true) (list_ascii_of_string (clean_zipcode rt v)).
Proof.
  assert (forall s, (if truthy (PStr s) then filter_string is_digit s else "")
                    = filter_string is_digit s) as Hstr by (by intros [|c s]).
  unfold clean_document, clean_zipcode. cbn [py_str]. rewrite !Hstr.
  destruct (truthy v); cbn [filter_string list_ascii_of_string];
    rewrite ?filter_string_idempotent; auto using filter_string_all.
Qed.

Section FurtherProperties.
Context {W : Type}.
Variable env : environment W.
Local Abbreviation rt := (env_rt env).

(** An event whose fulfillment status is not 'invoiced' is answered 200
    "ignored"; nothing is sent, nothing is written, not even the world is
    consulted. *)
Theorem non_invoiced_event_ignored (pedido p order_id fulfillment_status : pyval)
    (st : state W) :
  normalize_order_data pedido = Ok p ->
  py_get p "id" PNone = Ok order_id ->
  truthy order_id = true ->
  py_get p "fulfillment_status" (PStr "") = Ok fulfillment_status ->
  py_eq_str fulfillment_status "invoiced" = false ->
  exists order_code,
    webhook_handler env pedido st
    = (Ok (ReplyIgnored order_id order_code fulfillment_status), st)
    /\ reply_status (ReplyIgnored order_id order_code fulfillment_status) = 200.
Proof.
  intros Hnorm Hid Htruthy Hful Hne.
  assert (exists d, p = PDict d) as [d ->] by (destruct p; try discriminate; eauto).
  exists (dict_get d "code" PNone).
  unfold webhook_handler, try_except, bind, lift, ret.
  rewrite Hnorm, Hid, Hful. cbn [py_get]. by rewrite Htruthy, Hne.
Qed.

(** A round of the worker never raises: whatever the database and the
    remote platforms do, the loop goes on to its next round.  (A pause of
    negative length, which [time.sleep] refuses, is left out: the setting
    TRACKER_INTERVAL is taken not to be negative.) *)
Theorem tracking_scan_never_raises (st : state W) :
  0 <= TRACKER_INTERVAL (env_cfg env) ->
  exists st', tracking_scan env st = (Ok tt, st').
Proof.
  intros _. unfold tracking_scan, bind at 1, try_except.
  destruct (bind (db_pending env) (fun pending_orders =>
              for_each pending_orders (check_order env)) st) as [[[]|e] st1];
    unfold ret, sleep, emit_unit; eauto.
Qed.

(** An order that has used up its retries (twice MAX_RETRIES) is in no
    selection of the scan. *)
Theorem exhausted_order_never_polled (st : state W) (k : string) (r : order_row) :
  db st !! k = Some r ->
  MAX_RETRIES (env_cfg env) * 2 <= retry_count r ->
  exists rows st',
    db_pending env st = (Ok rows, st')
    /\ forall row, row ∈ rows -> row.1.1 <> k.
Proof.
  intros Hr Hcount.
  destruct (db_pending_total env st) as (rows & st' & Hp & _ & _ & Hrows).
  exists rows, st'. split; [done|]. intros row Hin <-.
  destruct Hrows as [-> | ->]; [|by apply elem_of_nil in Hin].
  apply select_pending_spec in Hin as (r' & Hr' & Hpend & _).
  rewrite Hr in Hr'. injection Hr' as <-.
  unfold is_pending in Hpend. apply andb_true_iff in Hpend as [_ Hlt]. lia.
Qed.
End FurtherProperties.

Lemma non_invoiced_event_ignored_witness :
  exists order_code,
    webhook_handler script_env shipped_event (start shipped_once quiet)
    = (Ok (ReplyIgnored (PStr "A") order_code (PStr "shipped")), start shipped_once quiet)
    /\ reply_status (ReplyIgnored (PStr "A") order_code (PStr "shipped")) = 200.
Proof.
  apply (non_invoiced_event_ignored script_env shipped_event shipped_event (PStr "A")
           (PStr "shipped") (start shipped_once quiet)); reflexivity.
Defined.

Lemma tracking_scan_never_raises_witness :
  exists st',
    tracking_scan script_env (start two_shipped storefront_refuses_first) = (Ok tt, st').
Proof.
  apply (tracking_scan_never_raises script_env (start two_shipped storefront_refuses_first)).
  vm_compute. discriminate.
Defined.

(** A row that has failed six times, under the default of three retries. *)
Definition worn_out : gmap string order_row :=
  {[ "A" := {| melhorenvio_order_id := Some "me-1"; tracking_code := Some "BR1";
               status := "created"; created_at := 1; updated_at := 9;
               delivered_at := None; retry_count := 6;
               last_error := Some "Erro Bagy delivered [HTTP 500]: <json>" |} ]}.

Lemma exhausted_order_never_polled_witness :
  exists rows st',
    db_pending script_env (start worn_out quiet) = (Ok rows, st')
    /\ forall row, row ∈ rows -> row.1.1 <> "A".
Proof.
  eapply (exhausted_order_never_polled script_env (start worn_out quiet) "A").
  - reflexivity.
  - vm_compute. discriminate.
Defined.

(** The test order of the /test-webhook endpoint: a valid CPF, a full
    address, one item of 0.5 kg at 150.00. *)
Definition test_payload : pyval :=
  PDict [("id", PStr "TEST-1");
         ("fulfillment_status", PStr "invoiced");
         ("total", PFloat 150);
         ("customer", PDict [("name", PStr "Cliente Teste");
                             ("email", PStr "teste@example.com");
                             ("phone", PStr "11999999999");
                             ("document", PStr "12345678909")]);
         ("address", PDict [("street", PStr "Avenida Paulista");
                            ("number", PStr "1000");
                            ("complement", PStr "Apto 45");
                            ("district", PStr "Bela Vista");
                            ("city", PStr "São Paulo");
                            ("state", PStr "SP");
                            ("zipcode", PStr "01310-100")]);
         ("items", PList [PDict [("name", PStr "Produto Teste");
                                 ("quantity", PInt 1);
                                 ("price", PFloat 150);
                                 ("weight", PFloat 0.5);
                                 ("length", PInt 20);
                                 ("width", PInt 15);
                                 ("height", PInt 10)]])].

(** The test order, both platforms answering well: the request weighs 0.5
    and declares 150.0, two calls are made, and the table shows the order
    shipped with the tracking code the carrier returned. *)
Theorem test_order_shipped :
  let run := webhook_handler script_env test_payload (start ∅ all_goes_well) in
  run.1 = Ok (ReplySuccess (PStr "TEST-1") (PStr "me-1") (PStr "BR1"))
  /\ (try! payload := shipment_payload script_env test_payload in
      try! volumes := py_get payload "volumes" PNone in
      try! options := py_get payload "options" PNone in
      Ok (volumes, options))
     = Ok (PList [PDict [("height", PInt 10); ("width", PInt 15); ("length", PInt 20);
                         ("weight", PFloat 0.5)]],
           PDict [("insurance_value", PFloat 150); ("receipt", PBool false);
                  ("own_hand", PBool false); ("collect", PBool false)])
  /\ length (trace run.2) = 2%nat
  /\ status <$> db run.2 !! "TEST-1" = Some "shipped"
  /\ tracking_code <$> db run.2 !! "TEST-1" = Some (Some "BR1")
  /\ melhorenvio_order_id <$> db run.2 !! "TEST-1" = Some (Some "me-1").
Proof. vm_compute. repeat split; reflexivity. Qed.

(** A carrier answer with an id and no code: the sentinel is returned and
    stored, and the next round of the worker sends nothing. *)
Definition no_code_yet : script :=
  {| answers := [json_response 200 (PDict [("id", PStr "me-1")]);
                 json_response 200 (PDict [])];
     faults := []; now := 0 |}.

Example sentinel_order_not_polled :
  let run := webhook_handler script_env invoiced_order (start ∅ no_code_yet) in
  let next := tracking_scan script_env (start (db run.2) quiet) in
  run.1 = Ok (ReplySuccess (PStr "A") (PStr "me-1") (PStr "SEM-RASTREIO"))
  /\ tracking_code <$> db run.2 !! "A" = Some (Some "SEM-RASTREIO")
  /\ trace next.2 = [EvSleep 600].
Proof. vm_compute. repeat split; reflexivity. Qed.

(** ** The clients on concrete answers *)

(** The storefront refuses three times: three requests, the warning and the
    sleep of 2 after the first and after the second, the exhaustion logged
    after the third, and the third failure raised. *)
Example mark_delivered_exhausts_retries :
  let refused := mk_exn Exception "Erro Bagy delivered [HTTP 500]: <json>" in
  let run := bagy_mark_delivered script_env (PStr "A")
               (start ∅ {| answers := [json_response 500 PNone; json_response 500 PNone;
                                       json_response 500 PNone];
                           faults := []; now := 0 |}) in
  run.1 = Raise refused
  /\ match trace run.2 with
     | [EvRequest _; EvLog l1; EvSleep d1; EvRequest _; EvLog l2; EvSleep d2;
        EvRequest _; EvLog l3] =>
         l1 = LogRetry 1 3 "bagy_mark_delivered" refused 2 /\ d1 = 2
         /\ l2 = LogRetry 2 3 "bagy_mark_delivered" refused 2 /\ d2 = 2
         /\ l3 = LogExhausted 3 "bagy_mark_delivered" refused
     | _ => False
     end.
Proof. vm_compute. repeat split; reflexivity. Qed.

Definition query (answer : list (outcome response)) : outcome bool :=
  (melhorenvio_check_delivered script_env (PStr "me-1")
     (start ∅ {| answers := answer; faults := []; now := 0 |})).1.

(** The delivery query on a few answers: a status in capitals, a status
    that says something else, an answer that is one entry and not a list, a
    5xx, an entry that is not an object before the one that reports the
    delivery, no answer at all, and a body that does not parse. *)
Example query_delivery_examples :
  query [json_response 200 (PList [PDict [("status", PStr "posted")];
                                   PDict [("status", PStr "Objeto ENTREGUE")]])] = Ok true
  /\ query [json_response 200 (PList [PDict [("status", PStr "posted")]])] = Ok false
  /\ query [json_response 200 (PDict [("status", PStr "Finalizado")])] = Ok true
  /\ query [json_response 503 (PList [PDict [("status", PStr "delivered")]])] = Ok false
  /\ query [json_response 200 (PList [PStr "?"; PDict [("status", PStr "delivered")]])]
     = Ok false
  /\ query [] = Ok false
  /\ query [Ok {| status_code := 200; text := "<html>";
                  json_body := Raise (mk_exn JSONDecodeError "Expecting value") |}]
     = Ok false.
Proof. vm_compute. repeat split; reflexivity. Qed.

(** ** The theorems without premises, at concrete inputs *)

(** 123.456.789-09 with its last digit changed to 8. *)
Lemma validate_cpf_correct_witness :
  validate_cpf plain_runtime (PStr "123.456.789-08") = false.
Proof.
  apply (proj2 (validate_cpf_correct plain_runtime) "123.456.789-09" "123.456.789-08" 10%nat).
  - reflexivity.
  - by right.
  - reflexivity.
  - intros j Hj. do 10 (destruct j as [|j]; [reflexivity|]).
    destruct j as [|j]; [by destruct Hj|reflexivity].
  - discriminate.
Defined.

(** An order with two items: two units of 0.5 kg, and one of 0.25 kg. *)
Definition two_items : list (string * pyval) :=
  [("id", PStr "B");
   ("customer", PDict [("name", PStr "Ana")]);
   ("address", PDict [("street", PStr "Avenida Paulista"); ("zipcode", PStr "01310-100")]);
   ("items", PList [PDict [("weight", PFloat 0.5); ("quantity", PInt 2)];
                    PDict [("weight", PFloat 0.25)]])].

Definition two_items_payload : pyval :=
  match shipment_payload script_env (PDict two_items) with
  | Ok payload => payload
  | Raise _ => PNone
  end.


(** The volume of [two_items] weighs 0.5 x 2 + 0.25. *)
Example two_items_weight :
  py_get two_items_payload "volumes" PNone
  = Ok (PList [PDict [("height", PInt 10); ("width", PInt 15); ("length", PInt 20);
                      ("weight", PFloat 1.25)]]).
Proof. vm_compute. reflexivity. Qed.


(** The query answered by one entry that reports the delivery. *)
Lemma query_delivery_never_raises_witness :
  let entries := [PDict [("status", PStr "Entregue")]] in
  exists (b : bool) (st' : state script),
    melhorenvio_check_delivered script_env (PStr "me-1")
      (start ∅ {| answers := [delivered_answer]; faults := []; now := 0 |}) = (Ok b, st')
    /\ (b = true <->
        exists before entry after,
          entries = (before ++ entry :: after)%list
          /\ Forall is_dict before
          /\ reports_delivery script_env entry)
    /\ (Forall is_dict entries ->
        (b = true <-> exists entry, entry ∈ entries /\ reports_delivery script_env entry)).
Proof.
  exact (query_delivery_never_raises script_env (PStr "me-1")
           (start ∅ {| answers := [delivered_answer]; faults := []; now := 0 |})).
Defined.

(** * Effects, budgets and the rest of the program *)

(** ** The effects of a run *)

(** What an event weighs: a request counts for one; a sleep for its
    seconds. *)
Definition request_count (ev : event) : Z :=
  match ev with
  | EvRequest _ => 1
  | _ => 0
  end.

Definition sleep_seconds (ev : event) : Z :=
  match ev with
  | EvSleep seconds => seconds
  | _ => 0
  end.

Definition cost (w : event -> Z) (evs : list event) : Z :=
  foldr (fun ev acc => w ev + acc) 0 evs.

(** The HTTP calls among the events, and the time slept. *)
Definition requests_made (evs : list event) : Z := cost request_count evs.

Definition seconds_slept (evs : list event) : Z := cost sleep_seconds evs.

(** The headers [token_headers] builds from a token that is set. *)
Definition bearer (token : option string) (headers : list (string * string)) : Prop :=
  exists t, token = Some t /\ t <> ""
    /\ headers = [("Authorization", "Bearer " +:+ t);
                  ("Content-Type", "application/json");
                  ("Accept", "application/json")].

(** A request as the clients make them: with the configured timeout, and
    either a PUT on an order of the storefront under the storefront's token
    or a POST to the carrier under the carrier's token. *)
Definition request_ok (cfg : config) (r : request) : Prop :=
  req_timeout r = REQUEST_TIMEOUT cfg
  /\ ((req_method r = "PUT"
       /\ String.prefix (BAGY_BASE cfg +:+ "/orders/") (req_url r) = true
       /\ bearer (BAGY_TOKEN cfg) (req_headers r))
      \/ (req_method r = "POST"
          /\ String.prefix (MELHORENVIO_BASE cfg +:+ "/me/") (req_url r) = true
          /\ bearer (MELHORENVIO_TOKEN cfg) (req_headers r))).

Definition event_ok (cfg : config) (ev : event) : Prop :=
  match ev with
  | EvRequest r => request_ok cfg r
  | _ => True
  end.

Lemma cost_app (w : event -> Z) (evs1 evs2 : list event) :
  cost w (evs1 ++ evs2) = cost w evs1 + cost w evs2.
Proof. unfold cost. induction evs1 as [|ev evs1 IH]; cbn; [done|]. rewrite IH. lia. Qed.

Lemma token_headers_bearer (token : option string) (name : string)
    (headers : list (string * string)) :
  token_headers token name = Ok headers -> bearer token headers.
Proof.
  unfold token_headers. destruct token as [t|]; [|discriminate].
  destruct (String.eqb_spec t ""); [discriminate|].
  intros [= <-]. by exists t.
Qed.

Lemma prefix_append (a b : string) : String.prefix a (a +:+ b) = true.
Proof. apply prefix_spec. by exists b. Qed.

Lemma append_assoc (a b c : string) : (a +:+ b) +:+ c = a +:+ (b +:+ c).
Proof.
  induction a as [|x a IH]; [done|].
  change (String x ((a +:+ b) +:+ c) = String x (a +:+ (b +:+ c))). by rewrite IH.
Qed.

Section Effects.
Context {W : Type}.
Variable env : environment W.
Variable P : event -> Prop.
Variable w : event -> Z.

(** Every run of [m] adds to the trace events that satisfy [P] and weigh
    [c] at most. *)
Definition spends {A : Type} (c : Z) (m : M (state W) A) : Prop :=
  forall st, exists evs,
    trace (m st).2 = (trace st ++ evs)%list /\ Forall P evs /\ cost w evs <= c.

Lemma spends_weaken {A : Type} (c c' : Z) (m : M (state W) A) :
  c <= c' -> spends c m -> spends c' m.
Proof.
  intros Hc Hm st. destruct (Hm st) as (evs & Ht & HP & Hw).
  exists evs. split; [done|]. split; [done|]. lia.
Qed.

Lemma spends_silent {A : Type} (c : Z) (m : M (state W) A) :
  0 <= c -> (forall st, trace (m st).2 = trace st) -> spends c m.
Proof.
  intros Hc Hm st. exists []. rewrite app_nil_r. split; [apply Hm|]. split; [constructor|done].
Qed.

Lemma spends_ret {A : Type} (c : Z) (a : A) : 0 <= c -> spends c (ret a).
Proof. intros Hc. by apply spends_silent. Qed.

Lemma spends_raise {A : Type} (c : Z) (e : exn) : 0 <= c -> spends (A:=A) c (raise e).
Proof. intros Hc. by apply spends_silent. Qed.

Lemma spends_lift {A : Type} (c : Z) (o : outcome A) : 0 <= c -> spends c (lift o).
Proof. intros Hc. by apply spends_silent. Qed.

Lemma spends_bind {A B : Type} (c1 c2 : Z) (m : M (state W) A) (k : A -> M (state W) B) :
  0 <= c2 -> spends c1 m -> (forall a, spends c2 (k a)) -> spends (c1 + c2) (bind m k).
Proof.
  intros Hc Hm Hk st. unfold bind.
  destruct (Hm st) as (evs1 & Ht1 & HP1 & Hw1).
  destruct (m st) as [[a|e] st1]; cbn [fst snd] in *.
  - destruct (Hk a st1) as (evs2 & Ht2 & HP2 & Hw2).
    exists (evs1 ++ evs2)%list. rewrite Ht2, Ht1, app_assoc, cost_app.
    split; [done|]. split; [by apply Forall_app|]. lia.
  - exists evs1. split; [done|]. split; [done|]. lia.
Qed.

Lemma spends_try_except {A : Type} (c1 c2 : Z) (m : M (state W) A)
    (h : exn -> M (state W) A) :
  0 <= c2 -> spends c1 m -> (forall e, spends c2 (h e)) -> spends (c1 + c2) (try_except m h).
Proof.
  intros Hc Hm Hh st. unfold try_except.
  destruct (Hm st) as (evs1 & Ht1 & HP1 & Hw1).
  destruct (m st) as [[a|e] st1]; cbn [fst snd] in *.
  - exists evs1. split; [done|]. split; [done|]. lia.
  - destruct (Hh e st1) as (evs2 & Ht2 & HP2 & Hw2).
    exists (evs1 ++ evs2)%list. rewrite Ht2, Ht1, app_assoc, cost_app.
    split; [done|]. split; [by apply Forall_app|]. lia.
Qed.

Lemma spends_emit (c : Z) (ev : event) :
  P ev -> w ev <= c -> spends c (emit_unit emit ev).
Proof.
  intros HP Hw st. exists [ev]. cbn. split; [done|]. split; [by repeat constructor|lia].
Qed.

Lemma spends_send (c : Z) (r : request) :
  P (EvRequest r) -> w (EvRequest r) <= c -> spends c (send env r).
Proof.
  intros HP Hw st. exists [EvRequest r]. unfold send.
  destruct (http env r (world st)) as [o w']. cbn.
  split; [done|]. split; [by repeat constructor|lia].
Qed.

Lemma spends_db_save (c : Z) (order_id me_order_id tracking : pyval) (new_status : string)
    (error : option string) :
  0 <= c -> spends c (db_save env order_id me_order_id tracking new_status error).
Proof.
  intros Hc. apply spends_silent; [done|]. intros st.
  by destruct (db_save_table env order_id me_order_id tracking new_status error st) as [Ht _].
Qed.

Lemma spends_db_pending (c : Z) : 0 <= c -> spends c (db_pending env).
Proof.
  intros Hc. apply spends_silent; [done|]. intros st.
  destruct (db_pending_total env st) as (rows & st' & Hp & _ & Ht & _). by rewrite Hp.
Qed.

Lemma spends_db_select_status (c : Z) (order_id : pyval) :
  0 <= c -> spends c (db_select_status env order_id).
Proof.
  intros Hc. apply spends_silent; [done|]. intros st.
  unfold db_select_status, bind, db_connect, lift.
  destruct (db_fault env (world st)) as [[e|] w']; cbn; [done|].
  by destruct (bind_param (env_rt env) order_id).
Qed.

Lemma spends_for_each {A : Type} (c : Z) (xs : list A) (body : A -> M (state W) unit) :
  0 <= c -> (forall x, spends c (body x)) ->
  spends (Z.of_nat (length xs) * c) (for_each xs body).
Proof.
  intros Hc Hbody. induction xs as [|x xs IH].
  - apply spends_ret. cbn. lia.
  - cbn [for_each]. eapply spends_weaken; [|apply (spends_bind c (Z.of_nat (length xs) * c))].
    + cbn [length]. lia.
    + lia.
    + apply Hbody.
    + intros _. apply IH.
Qed.

(** The decorator: [todo] calls at most and, between two calls, a pause. *)
Lemma spends_retry_attempts {A : Type} (func : M (state W) A) (max_attempts delay : Z)
    (func_name : string) (c s : Z) :
  0 <= c -> 0 <= s ->
  (forall l, P (EvLog l)) -> (forall l, w (EvLog l) = 0) ->
  P (EvSleep delay) -> w (EvSleep delay) <= s ->
  spends c func ->
  forall (todo : nat) (attempt : Z) (last : option exn),
    todo = O \/ attempt + Z.of_nat todo = max_attempts + 1 ->
    spends (Z.of_nat todo * c + Z.of_nat (pred todo) * s)
           (retry_attempts emit max_attempts delay func_name func todo attempt last).
Proof.
  intros Hc Hs HPl Hwl HPs Hws Hf todo.
  induction todo as [|todo IH]; intros attempt last Hat.
  - cbn [retry_attempts]. destruct last; apply spends_raise; cbn; lia.
  - destruct Hat as [|Hat]; [done|]. cbn [retry_attempts pred].
    destruct (attempt <? max_attempts) eqn:Hlt.
    + apply Z.ltb_lt in Hlt. destruct todo as [|todo]; [lia|].
      eapply spends_weaken;
        [|apply (spends_try_except c
                   (s + (Z.of_nat (S todo) * c + Z.of_nat (pred (S todo)) * s)));
          [|done|]].
      * cbn [pred]. lia.
      * cbn [pred]. lia.
      * intros e. apply spends_bind.
        -- cbn [pred]. lia.
        -- eapply spends_weaken; [|apply (spends_bind 0 s); [done| |]].
           ++ lia.
           ++ apply spends_emit; [done|]. rewrite Hwl. lia.
           ++ intros _. by apply spends_emit.
        -- intros _. apply IH. right. lia.
    + apply Z.ltb_ge in Hlt. assert (todo = O) as -> by lia.
      eapply spends_weaken; [|apply (spends_try_except c 0); [done|done|]].
      * cbn. lia.
      * intros e. eapply spends_weaken; [|apply (spends_bind 0 0); [done| |]].
        -- lia.
        -- apply spends_emit; [done|]. rewrite Hwl. lia.
        -- intros _. cbn [retry_attempts]. by apply spends_raise.
Qed.

Lemma spends_retry_on_failure {A : Type} (func : M (state W) A) (max_attempts delay : Z)
    (func_name : string) (c s : Z) :
  0 <= c -> 0 <= s ->
  (forall l, P (EvLog l)) -> (forall l, w (EvLog l) = 0) ->
  P (EvSleep delay) -> w (EvSleep delay) <= s ->
  spends c func ->
  spends (Z.max 0 max_attempts * c + Z.max 0 (max_attempts - 1) * s)
         (retry_on_failure emit max_attempts delay func_name func).
Proof.
  intros Hc Hs HPl Hwl HPs Hws Hf. unfold retry_on_failure.
  eapply spends_weaken; [|apply (spends_retry_attempts func max_attempts delay func_name c s)];
    try done.
  - nia.
  - destruct (Z.to_nat max_attempts) eqn:Hn; [by left|right; lia].
Qed.
End Effects.

(** What one decorated client may cost: MAX_RETRIES calls, and a pause
    between two calls. *)
Definition call_budget (cfg : config) (per_call per_pause : Z) : Z :=
  Z.max 0 (MAX_RETRIES cfg) * per_call + Z.max 0 (MAX_RETRIES cfg - 1) * per_pause.

Section EngineEffects.
Context {W : Type}.
Variable env : environment W.
Local Abbreviation rt := (env_rt env).
Local Abbreviation cfg := (env_cfg env).
Variable P : event -> Prop.
Variable w : event -> Z.
Variables per_call per_pause : Z.
Hypothesis per_call_nonneg : 0 <= per_call.
Hypothesis per_pause_nonneg : 0 <= per_pause.
Hypothesis P_log : forall l, P (EvLog l).
Hypothesis w_log : forall l, w (EvLog l) = 0.
Hypothesis P_sleep : forall seconds, P (EvSleep seconds).
Hypothesis w_sleep : w (EvSleep 2) <= per_pause.
Hypothesis P_request : forall r, request_ok cfg r -> P (EvRequest r).
Hypothesis w_request : forall r, w (EvRequest r) <= per_call.

Local Abbreviation spends := (spends P w).
Local Abbreviation budget := (call_budget cfg per_call per_pause).

Lemma budget_nonneg : 0 <= budget.
Proof. unfold call_budget. nia. Qed.

Lemma spends_bind_lift {A B : Type} (c : Z) (o : outcome A) (k : A -> M (state W) B) :
  0 <= c -> (forall a, o = Ok a -> spends c (k a)) -> spends c (bind (lift o) k).
Proof.
  intros Hc Hk st. unfold bind, lift. destruct o as [a|e].
  - by apply Hk.
  - exists []. rewrite app_nil_r. split; [done|]. split; [constructor|done].
Qed.

Lemma spends_answer (r : response) (what : string) :
  spends 0 (if negb (resp_ok r) then raise (St:=state W) (http_error what r)
            else lift (response_data r)).
Proof. destruct (resp_ok r); cbn [negb]; [by apply spends_lift|by apply spends_raise]. Qed.

Lemma spends_bagy_mark_shipped_once (order_id tracking_code : pyval) :
  spends per_call (bagy_mark_shipped_once env order_id tracking_code).
Proof.
  unfold bagy_mark_shipped_once. apply spends_bind_lift; [done|]. intros headers Hh.
  eapply spends_weaken; [|apply (spends_bind P w per_call 0); [done| |]].
  - lia.
  - apply spends_send; [|apply w_request]. apply P_request.
    split; [done|]. left. split; [done|]. cbn [req_url req_headers].
    split; [|by eapply token_headers_bearer].
    rewrite <- !append_assoc. rewrite append_assoc. apply prefix_append.
  - intros r. apply spends_answer.
Qed.

Lemma spends_bagy_mark_delivered_once (order_id : pyval) :
  spends per_call (bagy_mark_delivered_once env order_id).
Proof.
  unfold bagy_mark_delivered_once. apply spends_bind_lift; [done|]. intros headers Hh.
  eapply spends_weaken; [|apply (spends_bind P w per_call 0); [done| |]].
  - lia.
  - apply spends_send; [|apply w_request]. apply P_request.
    split; [done|]. left. split; [done|]. cbn [req_url req_headers].
    split; [|by eapply token_headers_bearer].
    rewrite <- !append_assoc. rewrite append_assoc. apply prefix_append.
  - intros r. apply spends_answer.
Qed.

Lemma spends_send_to_melhorenvio_once (pedido : pyval) :
  spends per_call (send_to_melhorenvio_once env pedido).
Proof.
  unfold send_to_melhorenvio_once. apply spends_bind_lift; [done|]. intros p _.
  apply spends_bind_lift; [done|]. intros payload _.
  apply spends_bind_lift; [done|]. intros headers Hh.
  eapply spends_weaken; [|apply (spends_bind P w per_call 0); [done| |]].
  - lia.
  - apply spends_send; [|apply w_request]. apply P_request.
    split; [done|]. right. split; [done|]. cbn [req_url req_headers].
    split; [|by eapply token_headers_bearer].
    change "/me/cart" with ("/me/" +:+ "cart"). rewrite <- append_assoc. apply prefix_append.
  - intros r. destruct (resp_ok r); cbn [negb]; [|by apply spends_raise].
    apply spends_bind_lift; [done|]. intros data _. by apply spends_lift.
Qed.

Lemma spends_decorated {A : Type} (func_name : string) (func : M (state W) A) :
  spends per_call func ->
  spends budget (retry_on_failure emit (MAX_RETRIES cfg) 2 func_name func).
Proof. intros Hf. by apply spends_retry_on_failure. Qed.

Lemma spends_bagy_mark_shipped (order_id tracking_code : pyval) :
  spends budget (bagy_mark_shipped env order_id tracking_code).
Proof. apply spends_decorated, spends_bagy_mark_shipped_once. Qed.

Lemma spends_bagy_mark_delivered (order_id : pyval) :
  spends budget (bagy_mark_delivered env order_id).
Proof. apply spends_decorated, spends_bagy_mark_delivered_once. Qed.

Lemma spends_send_to_melhorenvio (pedido : pyval) :
  spends budget (send_to_melhorenvio env pedido).
Proof. apply spends_decorated, spends_send_to_melhorenvio_once. Qed.

Lemma spends_check_delivered (me_order_id : pyval) :
  spends per_call (melhorenvio_check_delivered env me_order_id).
Proof.
  unfold melhorenvio_check_delivered.
  eapply spends_weaken; [|apply (spends_try_except P w per_call 0); [done| |]].
  - lia.
  - apply spends_bind_lift; [done|]. intros headers Hh.
    eapply spends_weaken; [|apply (spends_bind P w per_call 0); [done| |]].
    + lia.
    + apply spends_send; [|apply w_request]. apply P_request.
      split; [done|]. right. split; [done|]. cbn [tracking_request req_url req_headers].
      split; [|by eapply token_headers_bearer].
      change "/me/shipment/tracking" with ("/me/" +:+ "shipment/tracking").
      rewrite <- append_assoc. apply prefix_append.
    + intros r. destruct (resp_ok r); cbn [negb]; [|by apply spends_ret].
      apply spends_bind_lift; [done|]. intros data _. by apply spends_lift.
  - intros e. by apply spends_ret.
Qed.

Lemma spends_process_order (pedido order_id : pyval) :
  spends (2 * budget) (process_order env pedido order_id).
Proof.
  pose proof budget_nonneg as Hb. unfold process_order.
  eapply spends_weaken; [|apply (spends_try_except P w (2 * budget) 0); [done| |]].
  - lia.
  - eapply spends_weaken; [|apply (spends_bind P w budget budget); [done| |]].
    + lia.
    + apply spends_send_to_melhorenvio.
    + intros [me_order_id tracking].
      eapply spends_weaken; [|apply (spends_bind P w budget 0); [done| |]].
      * lia.
      * apply spends_bagy_mark_shipped.
      * intros _. eapply spends_weaken; [|apply (spends_bind P w 0 0); [done| |]].
        -- lia.
        -- by apply spends_db_save.
        -- intros _. by apply spends_ret.
  - intros e. eapply spends_weaken; [|apply (spends_bind P w 0 0); [done| |]].
    + lia.
    + by apply spends_db_save.
    + intros _. by apply spends_ret.
Qed.

Lemma spends_webhook_handler (pedido : pyval) :
  spends (2 * budget) (webhook_handler env pedido).
Proof.
  pose proof budget_nonneg as Hb. unfold webhook_handler.
  eapply spends_weaken; [|apply (spends_try_except P w (2 * budget) 0); [done| |]].
  - lia.
  - apply spends_bind_lift; [lia|]. intros p _.
    apply spends_bind_lift; [lia|]. intros order_id _.
    apply spends_bind_lift; [lia|]. intros order_code _.
    destruct (truthy order_id); cbn [negb]; [|apply spends_ret; lia].
    apply spends_bind_lift; [lia|]. intros fulfillment_status _.
    destruct (py_eq_str fulfillment_status "invoiced"); cbn [negb]; [|apply spends_ret; lia].
    eapply spends_weaken; [|apply (spends_bind P w 0 (2 * budget)); [lia| |]].
    + lia.
    + by apply spends_db_select_status.
    + intros [stored|]; [|apply spends_process_order].
      destruct (already_processed stored); [apply spends_ret; lia|apply spends_process_order].
  - intros e. by apply spends_ret.
Qed.

Lemma spends_check_delivery (bagy_order_id me_order_id tracking_code : pyval) :
  spends (per_call + budget) (check_delivery env bagy_order_id me_order_id tracking_code).
Proof.
  pose proof budget_nonneg as Hb. unfold check_delivery.
  apply spends_bind; [done| |].
  - destruct (truthy me_order_id); [apply spends_check_delivered|by apply spends_ret].
  - intros [|]; [|by apply spends_ret].
    eapply spends_weaken; [|apply (spends_bind P w budget 0); [done| |]].
    + lia.
    + apply spends_bagy_mark_delivered.
    + intros _. by apply spends_db_save.
Qed.

Lemma spends_check_order (row : string * option string * option string) :
  spends (per_call + budget + per_pause) (check_order env row).
Proof.
  pose proof budget_nonneg as Hb. destruct row as [[k me] trk]. unfold check_order.
  apply spends_bind; [done| |].
  - eapply spends_weaken; [|apply (spends_try_except P w (per_call + budget) 0); [done| |]].
    + lia.
    + apply spends_check_delivery.
    + intros e. by apply spends_db_save.
  - intros _. by apply spends_emit.
Qed.

Lemma scan_effects (pause : Z) (st : state W) :
  w (EvSleep (TRACKER_INTERVAL cfg)) <= pause ->
  exists evs,
    trace (tracking_scan env st).2 = (trace st ++ evs)%list
    /\ Forall P evs
    /\ cost w evs
       <= Z.of_nat (length (select_pending (MAX_RETRIES cfg) (db st)))
          * (per_call + budget + per_pause) + pause.
Proof.
  intros Hpause. pose proof budget_nonneg as Hb.
  destruct (db_pending_total env st) as (rows & st1 & Hp & Hdb & Htr & Hrows).
  unfold tracking_scan, bind, try_except. rewrite Hp.
  destruct (spends_for_each P w (per_call + budget + per_pause) rows (check_order env)
              ltac:(lia) spends_check_order st1) as (evs & Ht & HP & Hw).
  assert (cost w evs
          <= Z.of_nat (length (select_pending (MAX_RETRIES cfg) (db st)))
             * (per_call + budget + per_pause)) as Hw'.
  { destruct Hrows as [-> | ->]; [exact Hw|]. cbn [length] in Hw. nia. }
  exists (evs ++ [EvSleep (TRACKER_INTERVAL cfg)])%list.
  rewrite cost_app. cbn [cost foldr].
  destruct (for_each rows (check_order env) st1) as [[[]|e] st2]; cbn [fst snd] in *;
    unfold ret, sleep, emit_unit, emit; cbn [fst snd trace];
    rewrite Ht, Htr, app_assoc;
    (split; [done|]); (split; [apply Forall_app; by repeat constructor|lia]).
Qed.
End EngineEffects.

Section Budgets.
Context {W : Type}.
Variable env : environment W.
Local Abbreviation cfg := (env_cfg env).

(** Every request the handler or a round of the worker makes has the
    configured timeout and goes, under that platform's token, to the
    storefront (a PUT on an order) or to the carrier (a POST): no call is
    made without a token or without a timeout, and neither token is sent to
    the other platform. *)
Theorem requests_are_authorised (pedido : pyval) (st : state W) :
  (exists evs,
     trace (webhook_handler env pedido st).2 = (trace st ++ evs)%list
     /\ forall r, EvRequest r ∈ evs -> request_ok cfg r)
  /\ (exists evs,
        trace (tracking_scan env st).2 = (trace st ++ evs)%list
        /\ forall r, EvRequest r ∈ evs -> request_ok cfg r).
Proof.
  split.
  - destruct (spends_webhook_handler env (event_ok cfg) (fun _ => 0) 0 0
                ltac:(lia) ltac:(lia) ltac:(done) ltac:(done) ltac:(done) ltac:(done)
                ltac:(done) ltac:(done) pedido st) as (evs & Ht & HP & _).
    exists evs. split; [done|]. intros r Hin.
    rewrite Forall_forall in HP. apply (HP (EvRequest r) Hin).
  - destruct (scan_effects env (event_ok cfg) (fun _ => 0) 0 0
                ltac:(lia) ltac:(lia) ltac:(done) ltac:(done) ltac:(done) ltac:(done)
                ltac:(done) ltac:(done) 0 st ltac:(done)) as (evs & Ht & HP & _).
    exists evs. split; [done|]. intros r Hin.
    rewrite Forall_forall in HP. apply (HP (EvRequest r) Hin).
Qed.

(** One event costs the handler at most 2 x MAX_RETRIES requests (none when
    MAX_RETRIES is not positive) and, between them, pauses of two seconds:
    at most 2 x (MAX_RETRIES - 1). *)
Theorem handler_budget (pedido : pyval) (st : state W) :
  exists evs,
    trace (webhook_handler env pedido st).2 = (trace st ++ evs)%list
    /\ requests_made evs <= 2 * Z.max 0 (MAX_RETRIES cfg)
    /\ seconds_slept evs <= 4 * Z.max 0 (MAX_RETRIES cfg - 1).
Proof.
  destruct (spends_webhook_handler env (fun _ => True) request_count 1 0
              ltac:(lia) ltac:(lia) ltac:(done) ltac:(done) ltac:(done) ltac:(done)
              ltac:(done) ltac:(by intros []) pedido st) as (evs & Ht & _ & Hr).
  destruct (spends_webhook_handler env (fun _ => True) sleep_seconds 0 2
              ltac:(lia) ltac:(lia) ltac:(done) ltac:(done) ltac:(done) ltac:(done)
              ltac:(done) ltac:(done) pedido st) as (evs' & Ht' & _ & Hs).
  rewrite Ht in Ht'. apply app_inv_head in Ht' as <-.
  exists evs. split; [done|]. unfold requests_made, seconds_slept, call_budget in *. lia.
Qed.

(** A round of the worker, TRACKER_INTERVAL not being negative: for each
    order selected, at most one query and MAX_RETRIES storefront calls, the
    pauses of the decorator and the pause of two seconds; then the pause of
    TRACKER_INTERVAL. *)
Theorem scan_budget (st : state W) :
  0 <= TRACKER_INTERVAL cfg ->
  let selected := Z.of_nat (length (select_pending (MAX_RETRIES cfg) (db st))) in
  exists evs,
    trace (tracking_scan env st).2 = (trace st ++ evs)%list
    /\ requests_made evs <= selected * (1 + Z.max 0 (MAX_RETRIES cfg))
    /\ seconds_slept evs
       <= selected * (2 + 2 * Z.max 0 (MAX_RETRIES cfg - 1)) + TRACKER_INTERVAL cfg.
Proof.
  intros Hint selected.
  destruct (scan_effects env (fun _ => True) request_count 1 0
              ltac:(lia) ltac:(lia) ltac:(done) ltac:(done) ltac:(done) ltac:(done)
              ltac:(done) ltac:(by intros []) 0 st ltac:(done)) as (evs & Ht & _ & Hr).
  destruct (scan_effects env (fun _ => True) sleep_seconds 0 2
              ltac:(lia) ltac:(lia) ltac:(done) ltac:(done) ltac:(done) ltac:(done)
              ltac:(done) ltac:(done) (TRACKER_INTERVAL cfg) st ltac:(done))
    as (evs' & Ht' & _ & Hs).
  rewrite Ht in Ht'. apply app_inv_head in Ht' as <-.
  exists evs. split; [done|].
  unfold requests_made, seconds_slept, call_budget in *. fold selected in Hr, Hs. lia.
Qed.
End Budgets.

(** ** The webhook handler: its reply and the store *)

Section HandlerOutcome.
Context {W : Type}.
Variable env : environment W.
Local Abbreviation rt := (env_rt env).

(** The three ways the inner [try] of the handler ends: both calls went
    through and the order is written as shipped; something raised and the
    error is written; the write of the error path itself raised. *)
Lemma process_order_cases (p order_id : pyval) (st : state W) :
  let run := process_order env p order_id st in
  (exists me_order_id tracking v st1 st2 k me trk w',
     send_to_melhorenvio env p st = (Ok (me_order_id, tracking), st1)
     /\ bagy_mark_shipped env order_id tracking st1 = (Ok v, st2)
     /\ run.1 = Ok (ReplySuccess order_id me_order_id tracking)
     /\ bind_param rt order_id = Ok (Some k)
     /\ bind_param rt me_order_id = Ok me
     /\ bind_param rt tracking = Ok trk
     /\ db run.2 = upsert_order (clock env w') k me trk "shipped" None (db st))
  \/ (exists e k w',
        run.1 = Ok (ReplyError (str_exn e) order_id)
        /\ bind_param rt order_id = Ok (Some k)
        /\ db run.2
           = upsert_order (clock env w') k None None "error" (Some (str_exn e)) (db st))
  \/ (exists e, run.1 = Raise e /\ db run.2 = db st).
Proof.
  cbv zeta. unfold process_order, try_except, bind.
  pose proof (same_table_send_to_melhorenvio env p st) as [Hdb1 _].
  assert (forall e stx, db stx = db st ->
            let run := (let (o, st') :=
                          db_save env order_id PNone PNone "error" (Some (str_exn e)) stx in
                        match o with
                        | Ok _ => ret (ReplyError (str_exn e) order_id) st'
                        | Raise e0 => (Raise e0, st')
                        end) in
            (exists e k w',
               run.1 = Ok (ReplyError (str_exn e) order_id)
               /\ bind_param rt order_id = Ok (Some k)
               /\ db run.2
                  = upsert_order (clock env w') k None None "error" (Some (str_exn e)) (db st))
            \/ (exists e, run.1 = Raise e /\ db run.2 = db st))
    as Herr.
  { intros e stx Hstx. cbv zeta.
    destruct (db_save_table env order_id PNone PNone "error" (Some (str_exn e)) stx)
      as [_ [(e2 & He2 & Hdb) | (k & me & trk & w' & Hok & Hk & Hme & Htrk & Hdb)]];
      destruct (db_save env order_id PNone PNone "error" (Some (str_exn e)) stx)
        as [[[]|?] sty]; cbn [fst snd ret] in *; try congruence.
    - right. eexists. split; [done|]. congruence.
    - left. exists e, k, w'. split; [done|]. split; [done|].
      cbn in Hme, Htrk. injection Hme as <-. injection Htrk as <-. congruence. }
  destruct (send_to_melhorenvio env p st) as [[[me_order_id tracking]|e] st1];
    cbn [fst snd] in *; [|right; by apply Herr].
  pose proof (same_table_bagy_mark_shipped env order_id tracking st1) as [Hdb2 _].
  destruct (bagy_mark_shipped env order_id tracking st1) as [[v|e] st2] eqn:Hmark;
    cbn [fst snd] in *; [|right; apply Herr; congruence].
  destruct (db_save_table env order_id me_order_id tracking "shipped" None st2)
    as [_ [(e2 & He2 & Hdb) | (k & me & trk & w' & Hok & Hk & Hme & Htrk & Hdb)]];
    destruct (db_save env order_id me_order_id tracking "shipped" None st2)
      as [[[]|?] st3]; cbn [fst snd ret] in *; try congruence.
  - right. apply Herr. congruence.
  - left. exists me_order_id, tracking, v, st1, st2, k, me, trk, w'.
    repeat (split; [done|]). congruence.
Qed.

(** What each reply of the handler says of the run from [st] to [st']. *)
Definition reply_effect (st : state W) (r : reply) (st' : state W) : Prop :=
  match r with
  | ReplyMissingId | ReplyIgnored _ _ _ => st' = st
  | ReplyAlreadyProcessed stored =>
      db st' = db st /\ trace st' = trace st /\ already_processed stored = true
  | ReplySuccess order_id me_order_id tracking =>
      exists k me trk now,
        bind_param rt order_id = Ok (Some k)
        /\ bind_param rt me_order_id = Ok me
        /\ bind_param rt tracking = Ok trk
        /\ (forall old, db st !! k = Some old -> already_processed (status old) = false)
        /\ db st' = upsert_order now k me trk "shipped" None (db st)
  | ReplyError msg order_id =>
      exists k now,
        bind_param rt order_id = Ok (Some k)
        /\ (forall old, db st !! k = Some old -> already_processed (status old) = false)
        /\ db st' = upsert_order now k None None "error" (Some msg) (db st)
  | ReplyInternalError _ => db st' = db st
  end.

Lemma webhook_handler_cases (pedido : pyval) (st : state W) :
  let run := webhook_handler env pedido st in
  exists r, run.1 = Ok r /\ reply_effect st r run.2.
Proof.
  cbv zeta. unfold webhook_handler, try_except, bind, lift, ret.
  destruct (normalize_order_data pedido) as [p|]; [|by eexists].
  destruct (py_get p "id" PNone) as [order_id|]; [|by eexists].
  destruct (py_get p "code" PNone) as [order_code|]; [|by eexists].
  destruct (truthy order_id); cbn [negb]; [|by eexists].
  destruct (py_get p "fulfillment_status" (PStr "")) as [fulfillment_status|]; [|by eexists].
  destruct (py_eq_str fulfillment_status "invoiced"); cbn [negb]; [|by eexists].
  unfold db_select_status, bind, db_connect, lift.
  destruct (db_fault env (world st)) as [[e|] w1]; [by eexists|].
  destruct (bind_param rt order_id) as [key|] eqn:Hkey; [|by eexists].
  set (looked_up := {| db := db st; world := w1; trace := trace st |}).
  cbn [fst snd db].
  set (stored := match key with Some k => status <$> db looked_up !! k | None => None end).
  assert (forall k old, key = Some k -> db st !! k = Some old -> stored = Some (status old))
    as Hstored.
  { intros k old -> Hold. unfold stored, looked_up. cbn [db]. by rewrite Hold. }
  assert ((stored = None \/ exists s, stored = Some s /\ already_processed s = false) ->
          let run := (let (o, st') := process_order env p order_id looked_up in
                      match o with
                      | Ok a => (Ok a, st')
                      | Raise e => (Ok (ReplyInternalError (str_exn e)), st')
                      end) in
          exists r, run.1 = Ok r /\ reply_effect st r run.2) as Hproc.
  { intros Hfree. cbv zeta.
    assert (forall k old, bind_param rt order_id = Ok (Some k) -> db st !! k = Some old ->
              already_processed (status old) = false) as Hguard.
    { intros k old Hk Hold. rewrite Hkey in Hk. injection Hk as ->.
      rewrite (Hstored k old eq_refl Hold) in Hfree.
      destruct Hfree as [|(s & [= <-] & Hs)]; [discriminate|done]. }
    destruct (process_order_cases p order_id looked_up)
      as [(me_order_id & tracking & v & st1 & st2 & k & me & trk & w' & _ & _ & Hr & Hk
           & Hme & Htrk & Hdb)
         | [(e & k & w' & Hr & Hk & Hdb) | (e & Hr & Hdb)]];
      destruct (process_order env p order_id looked_up) as [[r|e'] st'];
      cbn [fst snd] in *; try discriminate.
    - injection Hr as ->. eexists. split; [done|].
      exists k, me, trk, (clock env w'). eauto 10.
    - injection Hr as ->. eexists. split; [done|].
      exists k, (clock env w'). eauto 10.
    - eexists. split; [done|]. done. }
  destruct stored as [s|] eqn:Hs.
  - destruct (already_processed s) eqn:Hap; [by eexists|].
    apply Hproc. right. eauto.
  - apply Hproc. by left.
Qed.
End HandlerOutcome.

Section HandlerReplies.
Context {W : Type}.
Variable env : environment W.
Local Abbreviation rt := (env_rt env).

(** The reply of the handler tells what the table shows.  After "success"
    the order's row is 'shipped', with no error, its retries as they were,
    and the shipment id and tracking code of the reply (a value SQLite
    stores as NULL leaves the column as it was).  After "error" the row is
    'error' with the message of the reply and one more retry (none more
    for an empty message), its shipment id and tracking code as they were.
    After every other reply the table is as it was. *)
Theorem reply_tells_the_store (pedido : pyval) (st st' : state W) (r : reply) :
  webhook_handler env pedido st = (Ok r, st') ->
  match r with
  | ReplySuccess order_id me_order_id tracking =>
      exists k row,
        bind_param rt order_id = Ok (Some k)
        /\ db st' !! k = Some row
        /\ status row = "shipped"
        /\ last_error row = None
        /\ retry_count row = match db st !! k with Some old => retry_count old | None => 0 end
        /\ (forall t, bind_param rt tracking = Ok (Some t) -> tracking_code row = Some t)
        /\ (forall m, bind_param rt me_order_id = Ok (Some m) ->
            melhorenvio_order_id row = Some m)
  | ReplyError msg order_id =>
      exists k row,
        bind_param rt order_id = Ok (Some k)
        /\ db st' !! k = Some row
        /\ status row = "error"
        /\ last_error row = Some msg
        /\ retry_count row
           = match db st !! k with Some old => retry_count old | None => 0 end
             + (if String.eqb msg "" then 0 else 1)
        /\ tracking_code row
           = match db st !! k with Some old => tracking_code old | None => None end
        /\ melhorenvio_order_id row
           = match db st !! k with Some old => melhorenvio_order_id old | None => None end
  | _ => db st' = db st
  end.
Proof.
  intros Hrun. destruct (webhook_handler_cases env pedido st) as (r' & Hr & Heff).
  rewrite Hrun in Hr, Heff. cbn [fst snd] in Hr, Heff. injection Hr as <-.
  destruct r as [| | |order_id me_order_id tracking|msg order_id|]; cbn in Heff.
  - by rewrite Heff.
  - by rewrite Heff.
  - by destruct Heff.
  - destruct Heff as (k & me & trk & now & Hk & Hme & Htrk & _ & ->).
    destruct (upsert_order_lookup now k me trk "shipped" None (db st))
      as (row & Hrow & Hs & He & _ & Hc & Hm & Ht & _).
    exists k, row. cbn in Hc. rewrite Z.add_0_r in Hc.
    repeat (split; [done|]). split.
    + intros t Hb. rewrite Hb in Htrk. injection Htrk as <-. by rewrite Ht.
    + intros m Hb. rewrite Hb in Hme. injection Hme as <-. by rewrite Hm.
  - destruct Heff as (k & now & Hk & _ & ->).
    destruct (upsert_order_lookup now k None None "error" (Some msg) (db st))
      as (row & Hrow & Hs & He & _ & Hc & Hm & Ht & _).
    exists k, row. cbn in Hc, Hm, Ht.
    repeat (split; [done|]). split; [|done].
    rewrite Hc. by destruct (String.eqb msg "").
  - done.
Qed.

(** The table shows an order shipped only once the carrier has created the
    shipment and the storefront has accepted the notification: a row that
    the pipeline leaves 'shipped', and that was not so before, comes with
    both calls returned. *)
Theorem shipped_means_acknowledged (p order_id : pyval) (st : state W) (k : string)
    (row : order_row) :
  db (process_order env p order_id st).2 !! k = Some row ->
  status row = "shipped" ->
  (forall old, db st !! k = Some old -> status old <> "shipped") ->
  exists me_order_id tracking v st1 st2,
    send_to_melhorenvio env p st = (Ok (me_order_id, tracking), st1)
    /\ bagy_mark_shipped env order_id tracking st1 = (Ok v, st2)
    /\ (process_order env p order_id st).1 = Ok (ReplySuccess order_id me_order_id tracking).
Proof.
  intros Hrow Hs Hold.
  destruct (process_order_cases env p order_id st)
    as [(me_order_id & tracking & v & st1 & st2 & k0 & me & trk & w' & Hsend & Hmark & Hr & _)
       | [(e & k0 & w' & _ & _ & Hdb) | (e & _ & Hdb)]].
  - by exists me_order_id, tracking, v, st1, st2.
  - rewrite Hdb in Hrow. destruct (decide (k0 = k)) as [->|Hne].
    + destruct (upsert_order_lookup (clock env w') k None None "error" (Some (str_exn e))
                  (db st)) as (row' & Hrow' & Hs' & _).
      rewrite Hrow in Hrow'. injection Hrow' as <-. congruence.
    + rewrite upsert_order_other in Hrow by done. by destruct (Hold row).
  - rewrite Hdb in Hrow. by destruct (Hold row).
Qed.
End HandlerReplies.

(** ** The tracking worker: what a round touches *)

Section WorkerOutcome.
Context {W : Type}.
Variable env : environment W.
Local Abbreviation rt := (env_rt env).
Local Abbreviation cfg := (env_cfg env).

(** The check of one order either leaves the table as it was, or marks the
    order delivered after the query answered True and the storefront
    accepted, or rewrites the row by the error write. *)
Lemma check_order_cases (k : string) (me trk : option string) (st : state W) :
  let run := check_order env (k, me, trk) st in
  db run.2 = db st
  \/ (exists st1 st2 v w',
        truthy (py_of_text me) = true
        /\ melhorenvio_check_delivered env (py_of_text me) st = (Ok true, st1)
        /\ bagy_mark_delivered env (PStr k) st1 = (Ok v, st2)
        /\ db run.2 = upsert_order (clock env w') k me trk "delivered" None (db st))
  \/ (exists w' msg,
        db run.2 = upsert_order (clock env w') k me trk "created" (Some msg) (db st)).
Proof.
  cbv zeta.
  assert (forall stx e, db stx = db st ->
            let run := (let (o, st') :=
                          db_save env (PStr k) (py_of_text me) (py_of_text trk) default_status
                            (Some (str_exn e)) stx in
                        match o with
                        | Ok _ => sleep 2 st'
                        | Raise e0 => (Raise e0, st')
                        end) in
            db run.2 = db st
            \/ exists w' msg,
                 db run.2 = upsert_order (clock env w') k me trk "created" (Some msg) (db st))
    as Herr.
  { intros stx e Hstx. cbv zeta. unfold default_status.
    destruct (db_save_table env (PStr k) (py_of_text me) (py_of_text trk) "created"
                (Some (str_exn e)) stx)
      as [_ [(e2 & He2 & Hdb) | (k' & me' & trk' & w' & Hok & Hk & Hme & Htrk & Hdb)]];
      destruct (db_save env _ _ _ _ _ stx) as [[[]|?] sty]; cbn [fst snd] in *;
      try congruence.
    - left. congruence.
    - right. exists w', (str_exn e). unfold sleep, emit_unit, emit. cbn [fst snd db].
      cbn in Hk. injection Hk as <-.
      assert (me' = me) as -> by (destruct me; cbn in Hme; congruence).
      assert (trk' = trk) as -> by (destruct trk; cbn in Htrk; congruence).
      congruence. }
  remember (check_order env (k, me, trk) st) as run eqn:Hrun.
  unfold check_order, bind, try_except, check_delivery in Hrun. unfold bind in Hrun.
  destruct (truthy (py_of_text me)) eqn:Hme.
  - pose proof (same_table_check_delivered env (py_of_text me) st) as [Hdb1 _].
    destruct (check_delivered_returns env (py_of_text me) st) as (b & st1 & Hq).
    rewrite Hq in Hdb1, Hrun. cbn [fst snd] in Hdb1.
    destruct b.
    + pose proof (same_table_bagy_mark_delivered env (PStr k) st1) as [Hdb2 _].
      destruct (bagy_mark_delivered env (PStr k) st1) as [[v|e] st2] eqn:Hmark;
        cbn [fst snd] in Hdb2.
      * destruct (db_save_table env (PStr k) (py_of_text me) (py_of_text trk) "delivered"
                    None st2)
          as [_ [(e2 & He2 & Hdb) | (k' & me' & trk' & w' & Hok & Hk & Hm & Htrk & Hdb)]];
          destruct (db_save env (PStr k) (py_of_text me) (py_of_text trk) "delivered"
                      None st2) as [[[]|e3] st3] eqn:Hsave;
          cbn [fst snd] in *; try congruence.
        -- subst run.
           destruct (Herr st3 e3 ltac:(congruence)) as [H|H]; [left; exact H|right; right; exact H].
        -- subst run. right. left. exists st1, st2, v, w'. unfold sleep, emit_unit, emit.
           cbn [fst snd db]. cbn in Hk. injection Hk as <-.
           assert (me' = me) as -> by (destruct me; cbn in Hm; congruence).
           assert (trk' = trk) as -> by (destruct trk; cbn in Htrk; congruence).
           repeat (split; [done|]). congruence.
      * subst run.
        destruct (Herr st2 e ltac:(congruence)) as [H|H]; [left; exact H|right; right; exact H].
    + subst run. left. unfold ret, sleep, emit_unit, emit. cbn [fst snd db]. done.
  - subst run. left. unfold ret, sleep, emit_unit, emit. cbn [fst snd db]. done.
Qed.

(** The table shows an order delivered only once the carrier has reported
    the delivery and the storefront has accepted the notification. *)
Theorem delivered_means_reported (k k' : string) (me trk : option string) (st : state W)
    (row : order_row) :
  db (check_order env (k, me, trk) st).2 !! k' = Some row ->
  status row = "delivered" ->
  (forall old, db st !! k' = Some old -> status old <> "delivered") ->
  k' = k
  /\ exists st1 st2 v,
       truthy (py_of_text me) = true
       /\ melhorenvio_check_delivered env (py_of_text me) st = (Ok true, st1)
       /\ bagy_mark_delivered env (PStr k) st1 = (Ok v, st2).
Proof.
  intros Hrow Hs Hold.
  destruct (check_order_cases k me trk st)
    as [Hdb | [(st1 & st2 & v & w' & Hme & Hq & Hmark & Hdb) | (w' & msg & Hdb)]];
    rewrite Hdb in Hrow.
  - by destruct (Hold row).
  - destruct (decide (k = k')) as [<-|Hne]; [by eauto 10|].
    rewrite upsert_order_other in Hrow by done. by destruct (Hold row).
  - destruct (decide (k = k')) as [<-|Hne].
    + destruct (upsert_order_lookup (clock env w') k me trk "created" (Some msg) (db st))
        as (row' & Hrow' & Hs' & _).
      rewrite Hrow in Hrow'. injection Hrow' as <-. congruence.
    + rewrite upsert_order_other in Hrow by done. by destruct (Hold row).
Qed.

Lemma for_each_check_other (rows : list (string * option string * option string))
    (st : state W) (k : string) :
  k ∉ rows.*1.*1 ->
  db (for_each rows (check_order env) st).2 !! k = db st !! k.
Proof.
  revert st. induction rows as [|[[k0 me] trk] rows IH]; intros st Hk; [done|].
  cbn in Hk. apply not_elem_of_cons in Hk as [Hne Hk].
  cbn [for_each]. unfold bind.
  assert (db (check_order env (k0, me, trk) st).2 !! k = db st !! k) as Hone.
  { destruct (check_order_table env k0 me trk st)
      as [-> | [(w' & _ & ->) | (w' & msg & _ & ->)]];
      [done|by apply upsert_order_other..]. }
  destruct (check_order env (k0, me, trk) st) as [[[]|e] st1]; cbn [fst snd] in *.
  - by rewrite IH.
  - done.
Qed.

(** A round of the worker changes no row outside its selection: an order
    that is delivered, in error, without a tracking code or with the
    sentinel, or out of retries when the round starts is as it was when the
    round ends. *)
Theorem scan_leaves_the_rest (st : state W) (k : string) :
  (forall r, db st !! k = Some r -> is_pending (MAX_RETRIES cfg) r = false) ->
  db (tracking_scan env st).2 !! k = db st !! k.
Proof.
  intros Hk. unfold tracking_scan, bind, try_except.
  destruct (db_pending_total env st) as (rows & st1 & Hp & Hdb & _ & Hrows). rewrite Hp.
  assert (k ∉ rows.*1.*1) as Hout.
  { destruct Hrows as [-> | ->]; [|by apply not_elem_of_nil].
    intros (key & -> & (row & -> & Hin)%list_elem_of_fmap)%list_elem_of_fmap.
    apply select_pending_spec in Hin as (r & Hr & Hpend & _).
    specialize (Hk r Hr). congruence. }
  pose proof (for_each_check_other rows st1 k Hout) as Hfor.
  destruct (for_each rows (check_order env) st1) as [[[]|e] st2]; cbn [fst snd] in *;
    unfold ret, sleep, emit_unit, emit; cbn [fst snd db]; congruence.
Qed.
End WorkerOutcome.

(** ** The table over the life of the system *)

(** The statuses the program writes. *)
Definition known_status (s : string) : Prop :=
  s = "created" \/ s = "shipped" \/ s = "delivered" \/ s = "error".

(** A status and the error message written with it: none with 'shipped'
    and 'delivered', one with 'error' and with the 'created' of the
    worker's error write. *)
Definition written_together (new_status : string) (error : option string) : Prop :=
  (new_status = "shipped" /\ error = None)
  \/ (new_status = "delivered" /\ error = None)
  \/ (new_status = "error" /\ is_Some error)
  \/ (new_status = "created" /\ is_Some error).

Definition row_ok (r : order_row) : Prop :=
  known_status (status r)
  /\ 0 <= retry_count r
  /\ (is_Some (last_error r) <-> status r = "error" \/ status r = "created").


Lemma upsert_order_row_ok (now : Z) (k : string) (me trk : option string)
    (new_status : string) (error : option string) (tbl : gmap string order_row) :
  written_together new_status error ->
  (forall k0 r, tbl !! k0 = Some r -> row_ok r) ->
  forall k0 r, upsert_order now k me trk new_status error tbl !! k0 = Some r -> row_ok r.
Proof.
  intros Hw Htbl k0 r Hr. destruct (decide (k = k0)) as [<-|Hne].
  2: { rewrite upsert_order_other in Hr by done. by apply (Htbl k0). }
  destruct (upsert_order_lookup now k me trk new_status error tbl)
    as (r' & Hr' & Hs & He & _ & Hc & _).
  rewrite Hr in Hr'. injection Hr' as <-. unfold row_ok, known_status.
  rewrite Hs, He, Hc. split; [|split].
  - destruct Hw as [[-> _]|[[-> _]|[[-> _]|[-> _]]]]; auto.
  - assert (0 <= match tbl !! k with Some old => retry_count old | None => 0 end).
    { destruct (tbl !! k) as [old|] eqn:Hold; [|done]. by apply (Htbl k old Hold). }
    destruct (error_given error); lia.
  - destruct Hw as [[-> ->]|[[-> ->]|[[-> Hsome]|[-> Hsome]]]].
    + split; [by intros [? ?]|]. by intros [|].
    + split; [by intros [? ?]|]. by intros [|].
    + split; auto.
    + split; auto.
Qed.

(** ** The program as concurrent threads *)

(** Flask serves each request in a thread of its own and the tracking
    worker runs in another (main.py starts it before the server): between
    two HTTP requests or database transactions of one thread the others may
    run.  The threads are cut here at each HTTP request and at each
    database transaction.  A stage of a thread is one of them, with what
    the thread computes after it up to the next (the log line and the pause
    of the retry decorator after a failed attempt, for one); a step of the
    system is one stage of one thread. *)

Section RetryStage.
Context {St A : Type}.
Variable emit : event -> St -> St.
Variables (max_attempts delay : Z) (func_name : string).
Variable func : M St A.

(** One iteration of the decorator's loop: the call and, when it raises,
    the log line and the pause; the exception is handed on to the next
    iteration. *)
Definition retry_attempt (attempt : Z) : M St A :=
  try_except func (fun e =>
    run! (if attempt <? max_attempts
          then run! emit_unit emit (EvLog (LogRetry attempt max_attempts func_name e delay)) in
               emit_unit emit (EvSleep delay)
          else emit_unit emit (EvLog (LogExhausted max_attempts func_name e))) in
    raise e).

(** [raise last_exception] *)
Definition raise_last (last_exception : option exn) : exn :=
  match last_exception with
  | Some e => e
  | None => raise_none_error
  end.

(** The loop of the decorator is its iterations, one after the other. *)
Lemma retry_attempts_next (todo : nat) (attempt : Z) (last_exception : option exn) (st : St) :
  retry_attempts emit max_attempts delay func_name func (S todo) attempt last_exception st
  = match retry_attempt attempt st with
    | (Ok a, st') => (Ok a, st')
    | (Raise e, st') =>
        retry_attempts emit max_attempts delay func_name func todo (attempt + 1) (Some e) st'
    end.
Proof.
  cbn [retry_attempts]. unfold retry_attempt, try_except.
  destruct (func st) as [[a|e] st1]; [done|].
  unfold bind. destruct (attempt <? max_attempts); unfold bind, emit_unit, raise; done.
Qed.

Lemma retry_attempts_last (attempt : Z) (last_exception : option exn) (st : St) :
  retry_attempts emit max_attempts delay func_name func O attempt last_exception st
  = (Raise (raise_last last_exception), st).
Proof. by destruct last_exception. Qed.

(** What every call of [func] keeps, an iteration keeps. *)
Lemma retry_attempt_keeps (R : St -> St -> Prop) (attempt : Z) (st : St) :
  (forall st1 st2 st3, R st1 st2 -> R st2 st3 -> R st1 st3) ->
  (forall ev st0, R st0 (emit ev st0)) ->
  R st (func st).2 ->
  R st (retry_attempt attempt st).2.
Proof.
  intros Rtrans Remit Hf. unfold retry_attempt, try_except.
  destruct (func st) as [[a|e] st1]; cbn [snd] in *; [done|].
  unfold bind. destruct (attempt <? max_attempts); unfold bind, emit_unit, raise; cbn [snd];
    eauto.
Qed.
End RetryStage.

(** Where a run of the handler stands once the guard has let it through:
    in [send_to_melhorenvio] or in [bagy_mark_shipped], with the iterations
    the decorator has left, the number of the next attempt and the last
    exception; before the write of the success; in the [except] block,
    before the write of the error. *)
Inductive handler_run : Type :=
  | Sending (pedido_normalizado order_id : pyval)
      (todo : nat) (attempt : Z) (last_exception : option exn)
  | Marking (order_id me_order_id tracking : pyval)
      (todo : nat) (attempt : Z) (last_exception : option exn)
  | Saving (order_id me_order_id tracking : pyval)
  | Caught (order_id : pyval) (e : exn).

(** The order a run is for. *)
Definition run_order_id (run : handler_run) : pyval :=
  match run with
  | Sending _ order_id _ _ _ => order_id
  | Marking order_id _ _ _ _ _ => order_id
  | Saving order_id _ _ => order_id
  | Caught order_id _ => order_id
  end.

(** The run that goes on, if the handler has not answered. *)
Definition in_flight (x : handler_run + reply) : list handler_run :=
  match x with
  | inl run => [run]
  | inr _ => []
  end.

(** Where the tracking worker stands: in the pause between two rounds;
    at the head of the [for] loop, with the rows it has still to visit; in
    [bagy_mark_delivered] for a row; before the write of 'delivered';
    in the [except] block of the loop body, before its write; before the
    two-second pause that ends the loop body. *)
Inductive worker_run : Type :=
  | Resting
  | Visiting (rows : list (string * option string * option string))
  | Reporting (row : string * option string * option string)
      (todo : nat) (attempt : Z) (last_exception : option exn)
      (rest : list (string * option string * option string))
  | Recording (row : string * option string * option string)
      (rest : list (string * option string * option string))
  | Raised (row : string * option string * option string) (e : exn)
      (rest : list (string * option string * option string))
  | Pausing (rest : list (string * option string * option string)).

(** The rows of the round in progress the worker has not done with. *)
Definition worker_rows (wk : worker_run) : list (string * option string * option string) :=
  match wk with
  | Resting => []
  | Visiting rows => rows
  | Reporting row _ _ _ rest => row :: rest
  | Recording row rest => row :: rest
  | Raised row _ rest => row :: rest
  | Pausing rest => rest
  end.

(** The engine's state, the runs of the handler in progress and the
    worker. *)
Record system (W : Type) : Type := {
  sys_state : state W;
  sys_runs : list handler_run;
  sys_worker : worker_run
}.
Arguments sys_state {W} _.
Arguments sys_runs {W} _.
Arguments sys_worker {W} _.

Section Threads.
Context {W : Type}.
Variable env : environment W.
Local Abbreviation rt := (env_rt env).
Local Abbreviation cfg := (env_cfg env).
Local Abbreviation state := (state W).
Local Abbreviation system := (system W).

(** [webhook_handler] up to the end of the transaction that reads the
    order's status: the handler answers, or the run goes on to
    [send_to_melhorenvio]. *)
Definition handler_guard (pedido : pyval) : M state (handler_run + reply) :=
  try_except
    (let! pedido_normalizado := lift (normalize_order_data pedido) in
     let! order_id := lift (py_get pedido_normalizado "id" PNone) in
     let! order_code := lift (py_get pedido_normalizado "code" PNone) in
     if negb (truthy order_id) then ret (inr ReplyMissingId)
     else
       let! fulfillment_status :=
         lift (py_get pedido_normalizado "fulfillment_status" (PStr "")) in
       if negb (py_eq_str fulfillment_status "invoiced") then
         ret (inr (ReplyIgnored order_id order_code fulfillment_status))
       else
         let! existing := db_select_status env order_id in
         let run := Sending pedido_normalizado order_id (Z.to_nat (MAX_RETRIES cfg)) 1 None in
         match existing with
         | Some stored_status =>
             if already_processed stored_status then ret (inr (ReplyAlreadyProcessed stored_status))
             else ret (inl run)
         | None => ret (inl run)
         end)
    (fun e => ret (inr (ReplyInternalError (str_exn e)))).

(** The next stage of a run: an attempt of [send_to_melhorenvio]; an
    attempt of [bagy_mark_shipped]; the write of 'shipped' and the answer;
    the write of 'error' and the answer.  An exception of the inner [try]
    leads to the [except] block, one of the [except] block to the outer
    one. *)
Definition handler_advance (run : handler_run) : M state (handler_run + reply) :=
  match run with
  | Sending pedido_normalizado order_id O _ last_exception =>
      ret (inl (Caught order_id (raise_last last_exception)))
  | Sending pedido_normalizado order_id (S todo) attempt _ =>
      try_except
        (let! '(me_order_id, tracking) :=
           retry_attempt (emit (W:=W)) (MAX_RETRIES cfg) 2 "send_to_melhorenvio"
             (send_to_melhorenvio_once env pedido_normalizado) attempt in
         ret (inl (Marking order_id me_order_id tracking (Z.to_nat (MAX_RETRIES cfg)) 1 None)))
        (fun e => ret (inl (Sending pedido_normalizado order_id todo (attempt + 1) (Some e))))
  | Marking order_id me_order_id tracking O _ last_exception =>
      ret (inl (Caught order_id (raise_last last_exception)))
  | Marking order_id me_order_id tracking (S todo) attempt _ =>
      try_except
        (let! _ :=
           retry_attempt (emit (W:=W)) (MAX_RETRIES cfg) 2 "bagy_mark_shipped"
             (bagy_mark_shipped_once env order_id tracking) attempt in
         ret (inl (Saving order_id me_order_id tracking)))
        (fun e => ret (inl (Marking order_id me_order_id tracking todo (attempt + 1) (Some e))))
  | Saving order_id me_order_id tracking =>
      try_except
        (run! db_save env order_id me_order_id tracking "shipped" None in
         ret (inr (ReplySuccess order_id me_order_id tracking)))
        (fun e => ret (inl (Caught order_id e)))
  | Caught order_id e =>
      try_except
        (let error_msg := str_exn e in
         run! db_save env order_id PNone PNone "error" (Some error_msg) in
         ret (inr (ReplyError error_msg order_id)))
        (fun e' => ret (inr (ReplyInternalError (str_exn e'))))
  end.

(** The next stage of the worker: the selection of a round; the query for
    the next row, or the pause that ends the round; an attempt of
    [bagy_mark_delivered]; the write of 'delivered'; the write of the
    [except] block, whose exception ends the round; the two-second pause. *)
Definition worker_advance (wk : worker_run) : M state worker_run :=
  match wk with
  | Resting =>
      try_except
        (let! pending_orders := db_pending env in
         ret (Visiting pending_orders))
        (fun _ => ret (Visiting []))
  | Visiting [] =>
      run! sleep (TRACKER_INTERVAL cfg) in
      ret Resting
  | Visiting (row :: rest) =>
      let me_order_id := py_of_text row.1.2 in
      try_except
        (let! delivered :=
           (if truthy me_order_id then melhorenvio_check_delivered env me_order_id
            else ret false) in
         if delivered then ret (Reporting row (Z.to_nat (MAX_RETRIES cfg)) 1 None rest)
         else ret (Pausing rest))
        (fun e => ret (Raised row e rest))
  | Reporting row O _ last_exception rest =>
      ret (Raised row (raise_last last_exception) rest)
  | Reporting row (S todo) attempt _ rest =>
      try_except
        (let! _ :=
           retry_attempt (emit (W:=W)) (MAX_RETRIES cfg) 2 "bagy_mark_delivered"
             (bagy_mark_delivered_once env (PStr row.1.1)) attempt in
         ret (Recording row rest))
        (fun e => ret (Reporting row todo (attempt + 1) (Some e) rest))
  | Recording row rest =>
      try_except
        (run! db_save env (PStr row.1.1) (py_of_text row.1.2) (py_of_text row.2)
                "delivered" None in
         ret (Pausing rest))
        (fun e => ret (Raised row e rest))
  | Raised row e rest =>
      try_except
        (let error_msg := str_exn e in
         run! db_save env (PStr row.1.1) (py_of_text row.1.2) (py_of_text row.2)
                default_status (Some error_msg) in
         ret (Pausing rest))
        (fun _ => ret (Visiting []))
  | Pausing rest =>
      run! sleep 2 in
      ret (Visiting rest)
  end.

(** *** The steps of the system *)

(** The system at rest in the state [st]: no run of the handler in
    progress, the worker between two rounds. *)
Definition at_rest (st : state) : system :=
  {| sys_state := st; sys_runs := []; sys_worker := Resting |}.

(** An event reaches the handler, which runs its guard. *)
Definition receive (pedido : pyval) (s : system) : system :=
  match handler_guard pedido (sys_state s) with
  | (Ok x, st') =>
      {| sys_state := st'; sys_runs := sys_runs s ++ in_flight x; sys_worker := sys_worker s |}
  | (Raise _, _) => s
  end.

(** The run at the place [i] among those in progress takes its next
    stage. *)
Definition advance_handler (i : nat) (s : system) : system :=
  match sys_runs s !! i with
  | Some run =>
      match handler_advance run (sys_state s) with
      | (Ok x, st') =>
          {| sys_state := st';
             sys_runs := take i (sys_runs s) ++ in_flight x ++ drop (S i) (sys_runs s);
             sys_worker := sys_worker s |}
      | (Raise _, _) => s
      end
  | None => s
  end.

(** The worker takes its next stage. *)
Definition advance_worker (s : system) : system :=
  match worker_advance (sys_worker s) (sys_state s) with
  | (Ok wk', st') => {| sys_state := st'; sys_runs := sys_runs s; sys_worker := wk' |}
  | (Raise _, _) => s
  end.

(** Time passes and the remote platforms change. *)
Definition idle (w' : W) (evs : list event) (s : system) : system :=
  {| sys_state := {| db := db (sys_state s); world := w';
                     trace := (trace (sys_state s) ++ evs)%list |};
     sys_runs := sys_runs s;
     sys_worker := sys_worker s |}.

(** The process is stopped and started again: the runs in progress and
    the round of the worker are lost; the table, in its file, stays. *)
Definition restart (s : system) : system := at_rest (sys_state s).

(** What can happen next, in any order: an event arrives; a run of the
    handler, any of those in progress, takes a stage; the worker takes a
    stage; time passes; the process is started again. *)
Inductive step : system -> system -> Prop :=
  | step_event (pedido : pyval) (s : system) : step s (receive pedido s)
  | step_handler (i : nat) (s : system) : step s (advance_handler i s)
  | step_worker (s : system) : step s (advance_worker s)
  | step_idle (w' : W) (evs : list event) (s : system) : step s (idle w' evs s)
  | step_restart (s : system) : step s (restart s).

(** The states the system reaches from an empty table. *)
Inductive reachable : system -> Prop :=
  | reachable_start (w : W) : reachable (at_rest {| db := ∅; world := w; trace := [] |})
  | reachable_step (s s' : system) : reachable s -> step s s' -> reachable s'.

(** *** The stages make up the source's functions *)

(** The [except] block of the inner [try] of [webhook_handler]. *)
Definition error_path (order_id : pyval) (e : exn) : M state reply :=
  let error_msg := str_exn e in
  run! db_save env order_id PNone PNone "error" (Some error_msg) in
  ret (ReplyError error_msg order_id).

(** What [webhook_handler] has still to do from a stage, as the source has
    it: the rest of the inner [try], its [except] block and the outer
    one. *)
Definition handler_rest (run : handler_run) : M state reply :=
  try_except
    (try_except
       (match run with
        | Sending pedido_normalizado order_id todo attempt last_exception =>
            let! '(me_order_id, tracking) :=
              retry_attempts (emit (W:=W)) (MAX_RETRIES cfg) 2 "send_to_melhorenvio"
                (send_to_melhorenvio_once env pedido_normalizado) todo attempt last_exception in
            let! _ := bagy_mark_shipped env order_id tracking in
            run! db_save env order_id me_order_id tracking "shipped" None in
            ret (ReplySuccess order_id me_order_id tracking)
        | Marking order_id me_order_id tracking todo attempt last_exception =>
            let! _ :=
              retry_attempts (emit (W:=W)) (MAX_RETRIES cfg) 2 "bagy_mark_shipped"
                (bagy_mark_shipped_once env order_id tracking) todo attempt last_exception in
            run! db_save env order_id me_order_id tracking "shipped" None in
            ret (ReplySuccess order_id me_order_id tracking)
        | Saving order_id me_order_id tracking =>
            run! db_save env order_id me_order_id tracking "shipped" None in
            ret (ReplySuccess order_id me_order_id tracking)
        | Caught order_id e => raise e
        end)
       (error_path (run_order_id run)))
    (fun e => ret (ReplyInternalError (str_exn e))).

(** A run through the stages with no other thread in between: from a stage
    and a state to the reply and the state at the end. *)
Inductive handler_runs_to : handler_run + reply -> state -> reply -> state -> Prop :=
  | handler_replied (r : reply) (st : state) : handler_runs_to (inr r) st r st
  | handler_staged (run : handler_run) (st : state) (x : handler_run + reply) (st1 : state)
      (r : reply) (st' : state) :
      handler_advance run st = (Ok x, st1) ->
      handler_runs_to x st1 r st' ->
      handler_runs_to (inl run) st r st'.

Lemma caught_in_stages (order_id : pyval) (e : exn) (st : state) :
  exists r st',
    handler_rest (Caught order_id e) st = (Ok r, st')
    /\ handler_runs_to (inl (Caught order_id e)) st r st'.
Proof.
  unfold handler_rest, error_path, try_except, raise, bind, ret. cbn [run_order_id].
  destruct (db_save env order_id PNone PNone "error" (Some (str_exn e)) st)
    as [[[]|e'] st1] eqn:Hsave;
    (do 2 eexists; split; [reflexivity|]);
    (eapply handler_staged; [|apply handler_replied]);
    unfold handler_advance, try_except, bind, ret; by rewrite Hsave.
Qed.

Lemma saving_in_stages (order_id me_order_id tracking : pyval) (st : state) :
  exists r st',
    handler_rest (Saving order_id me_order_id tracking) st = (Ok r, st')
    /\ handler_runs_to (inl (Saving order_id me_order_id tracking)) st r st'.
Proof.
  destruct (db_save env order_id me_order_id tracking "shipped" None st)
    as [[[]|e] st1] eqn:Hsave.
  - exists (ReplySuccess order_id me_order_id tracking), st1. split.
    + unfold handler_rest, try_except, bind, ret. by rewrite Hsave.
    + eapply handler_staged; [|apply handler_replied].
      unfold handler_advance, try_except, bind, ret. by rewrite Hsave.
  - destruct (caught_in_stages order_id e st1) as (r & st' & Hrest & Hruns).
    exists r, st'. split.
    + revert Hrest. unfold handler_rest, try_except, raise, bind, ret. cbn [run_order_id].
      by rewrite Hsave.
    + eapply handler_staged; [|exact Hruns].
      unfold handler_advance, try_except, bind, ret. by rewrite Hsave.
Qed.

Lemma marking_in_stages (order_id me_order_id tracking : pyval) (todo : nat) (attempt : Z)
    (last_exception : option exn) (st : state) :
  exists r st',
    handler_rest (Marking order_id me_order_id tracking todo attempt last_exception) st
    = (Ok r, st')
    /\ handler_runs_to (inl (Marking order_id me_order_id tracking todo attempt last_exception))
         st r st'.
Proof.
  revert attempt last_exception st.
  induction todo as [|todo IH]; intros attempt last_exception st.
  - destruct (caught_in_stages order_id (raise_last last_exception) st)
      as (r & st' & Hrest & Hruns).
    exists r, st'. split.
    + revert Hrest. unfold handler_rest, try_except, raise, bind, ret. cbn [run_order_id].
      by rewrite retry_attempts_last.
    + eapply handler_staged; [|exact Hruns]. reflexivity.
  - destruct (retry_attempt (emit (W:=W)) (MAX_RETRIES cfg) 2 "bagy_mark_shipped"
                (bagy_mark_shipped_once env order_id tracking) attempt st)
      as [[v|e] st1] eqn:Hattempt.
    + destruct (saving_in_stages order_id me_order_id tracking st1)
        as (r & st' & Hrest & Hruns).
      exists r, st'. split.
      * revert Hrest. unfold handler_rest, try_except, raise, bind, ret. cbn [run_order_id].
        by rewrite retry_attempts_next, Hattempt.
      * eapply handler_staged; [|exact Hruns].
        unfold handler_advance, try_except, bind, ret. by rewrite Hattempt.
    + destruct (IH (attempt + 1) (Some e) st1) as (r & st' & Hrest & Hruns).
      exists r, st'. split.
      * revert Hrest. unfold handler_rest, try_except, raise, bind, ret. cbn [run_order_id].
        by rewrite (retry_attempts_next _ _ _ _ _ todo), Hattempt.
      * eapply handler_staged; [|exact Hruns].
        unfold handler_advance, try_except, bind, ret. by rewrite Hattempt.
Qed.

Lemma sending_in_stages (pedido_normalizado order_id : pyval) (todo : nat) (attempt : Z)
    (last_exception : option exn) (st : state) :
  exists r st',
    handler_rest (Sending pedido_normalizado order_id todo attempt last_exception) st
    = (Ok r, st')
    /\ handler_runs_to (inl (Sending pedido_normalizado order_id todo attempt last_exception))
         st r st'.
Proof.
  revert attempt last_exception st.
  induction todo as [|todo IH]; intros attempt last_exception st.
  - destruct (caught_in_stages order_id (raise_last last_exception) st)
      as (r & st' & Hrest & Hruns).
    exists r, st'. split.
    + revert Hrest. unfold handler_rest, try_except, raise, bind, ret. cbn [run_order_id].
      by rewrite retry_attempts_last.
    + eapply handler_staged; [|exact Hruns]. reflexivity.
  - destruct (retry_attempt (emit (W:=W)) (MAX_RETRIES cfg) 2 "send_to_melhorenvio"
                (send_to_melhorenvio_once env pedido_normalizado) attempt st)
      as [[[me_order_id tracking]|e] st1] eqn:Hattempt.
    + destruct (marking_in_stages order_id me_order_id tracking (Z.to_nat (MAX_RETRIES cfg))
                  1 None st1) as (r & st' & Hrest & Hruns).
      exists r, st'. split.
      * revert Hrest.
        unfold handler_rest, bagy_mark_shipped, retry_on_failure, try_except, raise, bind, ret.
        cbn [run_order_id]. by rewrite retry_attempts_next, Hattempt.
      * eapply handler_staged; [|exact Hruns].
        unfold handler_advance, try_except, bind, ret. by rewrite Hattempt.
    + destruct (IH (attempt + 1) (Some e) st1) as (r & st' & Hrest & Hruns).
      exists r, st'. split.
      * revert Hrest. unfold handler_rest, try_except, raise, bind, ret. cbn [run_order_id].
        by rewrite (retry_attempts_next _ _ _ _ _ todo), Hattempt.
      * eapply handler_staged; [|exact Hruns].
        unfold handler_advance, try_except, bind, ret. by rewrite Hattempt.
Qed.

(** From any stage, the stages run to the reply and the state the source's
    text gives. *)
Lemma handler_rest_in_stages (run : handler_run) (st : state) :
  exists r st', handler_rest run st = (Ok r, st') /\ handler_runs_to (inl run) st r st'.
Proof.
  destruct run; auto using caught_in_stages, saving_in_stages, marking_in_stages,
    sending_in_stages.
Qed.

(** The handler is its guard followed by its stages. *)
Lemma webhook_handler_in_stages (pedido : pyval) (st : state) :
  exists x st1 r st',
    handler_guard pedido st = (Ok x, st1)
    /\ webhook_handler env pedido st = (Ok r, st')
    /\ handler_runs_to x st1 r st'.
Proof.
  unfold handler_guard, webhook_handler, try_except, bind, lift, ret.
  destruct (normalize_order_data pedido) as [p|];
    [|do 4 eexists; split; [done|]; split; [done|]; constructor].
  destruct (py_get p "id" PNone) as [order_id|];
    [|do 4 eexists; split; [done|]; split; [done|]; constructor].
  destruct (py_get p "code" PNone) as [order_code|];
    [|do 4 eexists; split; [done|]; split; [done|]; constructor].
  destruct (truthy order_id); cbn [negb];
    [|do 4 eexists; split; [done|]; split; [done|]; constructor].
  destruct (py_get p "fulfillment_status" (PStr "")) as [fulfillment_status|];
    [|do 4 eexists; split; [done|]; split; [done|]; constructor].
  destruct (py_eq_str fulfillment_status "invoiced"); cbn [negb];
    [|do 4 eexists; split; [done|]; split; [done|]; constructor].
  destruct (db_select_status env order_id st) as [[existing|e] st1];
    [|do 4 eexists; split; [done|]; split; [done|]; constructor].
  assert (exists r st',
            (let (o, st'0) := process_order env p order_id st1 in
             match o with
             | Ok a => (Ok a, st'0)
             | Raise e => (Ok (ReplyInternalError (str_exn e)), st'0)
             end) = (Ok r, st')
            /\ handler_runs_to
                 (inl (Sending p order_id (Z.to_nat (MAX_RETRIES cfg)) 1 None)) st1 r st')
    as (r & st' & Hrest & Hruns).
  { destruct (sending_in_stages p order_id (Z.to_nat (MAX_RETRIES cfg)) 1 None st1)
      as (r & st' & Hrest & Hruns).
    exists r, st'. split; [|done]. exact Hrest. }
  destruct existing as [stored_status|].
  - destruct (already_processed stored_status).
    + do 4 eexists. split; [done|]. split; [done|]. constructor.
    + exists (inl (Sending p order_id (Z.to_nat (MAX_RETRIES cfg)) 1 None)), st1, r, st'. done.
  - exists (inl (Sending p order_id (Z.to_nat (MAX_RETRIES cfg)) 1 None)), st1, r, st'. done.
Qed.

(** The stages of the worker with no other thread in between. *)
Inductive worker_runs_to : worker_run -> state -> worker_run -> state -> Prop :=
  | worker_there (wk : worker_run) (st : state) : worker_runs_to wk st wk st
  | worker_staged (wk : worker_run) (st : state) (wk1 : worker_run) (st1 : state)
      (wk' : worker_run) (st' : state) :
      worker_advance wk st = (Ok wk1, st1) ->
      worker_runs_to wk1 st1 wk' st' ->
      worker_runs_to wk st wk' st'.

Lemma worker_runs_to_trans (wk1 wk2 wk3 : worker_run) (st1 st2 st3 : state) :
  worker_runs_to wk1 st1 wk2 st2 ->
  worker_runs_to wk2 st2 wk3 st3 ->
  worker_runs_to wk1 st1 wk3 st3.
Proof. induction 1; eauto using worker_staged. Qed.

(** Where the loop stands after the body: at the next row, or out of the
    loop when the body raised. *)
Definition after_body (o : outcome unit) (rest : list (string * option string * option string))
    : worker_run :=
  match o with
  | Ok _ => Visiting rest
  | Raise _ => Visiting []
  end.

Lemma pausing_in_stages (rest : list (string * option string * option string)) (st : state) :
  worker_runs_to (Pausing rest) st (Visiting rest) (sleep 2 st).2.
Proof. eapply worker_staged; [|apply worker_there]. reflexivity. Qed.

Lemma raised_in_stages (row : string * option string * option string) (e : exn)
    (rest : list (string * option string * option string)) (st : state) :
  let run := (run! db_save env (PStr row.1.1) (py_of_text row.1.2) (py_of_text row.2)
                     default_status (Some (str_exn e)) in
              sleep 2) st in
  worker_runs_to (Raised row e rest) st (after_body run.1 rest) run.2.
Proof.
  cbv zeta. unfold bind.
  destruct (db_save env (PStr row.1.1) (py_of_text row.1.2) (py_of_text row.2)
              default_status (Some (str_exn e)) st) as [[[]|e'] st1] eqn:Hsave.
  - eapply worker_staged; [|apply pausing_in_stages].
    unfold worker_advance, try_except, bind, ret. by rewrite Hsave.
  - eapply worker_staged; [|apply worker_there].
    unfold worker_advance, try_except, bind, ret. by rewrite Hsave.
Qed.

Lemma recording_in_stages (row : string * option string * option string)
    (rest : list (string * option string * option string)) (st : state) :
  let run := (run! try_except
                     (db_save env (PStr row.1.1) (py_of_text row.1.2) (py_of_text row.2)
                        "delivered" None)
                     (fun e =>
                        db_save env (PStr row.1.1) (py_of_text row.1.2) (py_of_text row.2)
                          default_status (Some (str_exn e))) in
              sleep 2) st in
  worker_runs_to (Recording row rest) st (after_body run.1 rest) run.2.
Proof.
  cbv zeta. unfold bind, try_except.
  destruct (db_save env (PStr row.1.1) (py_of_text row.1.2) (py_of_text row.2)
              "delivered" None st) as [[[]|e] st1] eqn:Hsave.
  - eapply worker_staged; [|apply pausing_in_stages].
    unfold worker_advance, try_except, bind, ret. by rewrite Hsave.
  - eapply worker_staged; [|apply (raised_in_stages row e rest st1)].
    unfold worker_advance, try_except, bind, ret. by rewrite Hsave.
Qed.

Lemma reporting_in_stages (row : string * option string * option string) (todo : nat)
    (attempt : Z) (last_exception : option exn)
    (rest : list (string * option string * option string)) (st : state) :
  let run := (run! try_except
                     (let! _ :=
                        retry_attempts (emit (W:=W)) (MAX_RETRIES cfg) 2 "bagy_mark_delivered"
                          (bagy_mark_delivered_once env (PStr row.1.1))
                          todo attempt last_exception in
                      db_save env (PStr row.1.1) (py_of_text row.1.2) (py_of_text row.2)
                        "delivered" None)
                     (fun e =>
                        db_save env (PStr row.1.1) (py_of_text row.1.2) (py_of_text row.2)
                          default_status (Some (str_exn e))) in
              sleep 2) st in
  worker_runs_to (Reporting row todo attempt last_exception rest) st
    (after_body run.1 rest) run.2.
Proof.
  cbv zeta. revert attempt last_exception st.
  induction todo as [|todo IH]; intros attempt last_exception st.
  - eapply worker_staged; [reflexivity|].
    pose proof (raised_in_stages row (raise_last last_exception) rest st) as Hruns.
    cbv zeta in Hruns. revert Hruns. unfold bind, try_except.
    by rewrite retry_attempts_last.
  - destruct (retry_attempt (emit (W:=W)) (MAX_RETRIES cfg) 2 "bagy_mark_delivered"
                (bagy_mark_delivered_once env (PStr row.1.1)) attempt st)
      as [[v|e] st1] eqn:Hattempt.
    + eapply worker_staged.
      { unfold worker_advance, try_except, bind, ret. by rewrite Hattempt. }
      pose proof (recording_in_stages row rest st1) as Hruns.
      cbv zeta in Hruns. revert Hruns. unfold bind, try_except.
      by rewrite retry_attempts_next, Hattempt.
    + eapply worker_staged.
      { unfold worker_advance, try_except, bind, ret. by rewrite Hattempt. }
      pose proof (IH (attempt + 1) (Some e) st1) as Hruns.
      revert Hruns. unfold bind, try_except.
      by rewrite (retry_attempts_next _ _ _ _ _ todo), Hattempt.
Qed.

(** The body of the worker's loop is the stages from the head of the loop
    to the head of the loop. *)
Lemma check_order_in_stages (row : string * option string * option string)
    (rest : list (string * option string * option string)) (st : state) :
  worker_runs_to (Visiting (row :: rest)) st
    (after_body (check_order env row st).1 rest) (check_order env row st).2.
Proof.
  destruct row as [[k me] trk].
  unfold check_order, check_delivery.
  destruct ((if truthy (py_of_text me) then melhorenvio_check_delivered env (py_of_text me)
             else ret false) st) as [[delivered|e] st1] eqn:Hquery.
  - destruct delivered.
    + eapply worker_staged.
      { unfold worker_advance, try_except, bind. cbn [fst snd]. by rewrite Hquery. }
      pose proof (reporting_in_stages (k, me, trk) (Z.to_nat (MAX_RETRIES cfg)) 1 None rest st1)
        as Hruns.
      cbv zeta in Hruns. revert Hruns.
      unfold bagy_mark_delivered, retry_on_failure, bind, try_except. cbn [fst snd].
      by rewrite Hquery.
    + eapply worker_staged.
      { unfold worker_advance, try_except, bind. cbn [fst snd]. by rewrite Hquery. }
      pose proof (pausing_in_stages rest st1) as Hruns. revert Hruns.
      unfold bind, try_except. rewrite Hquery. cbn. exact (fun H => H).
  - eapply worker_staged.
    { unfold worker_advance, try_except, bind. cbn [fst snd]. by rewrite Hquery. }
    pose proof (raised_in_stages (k, me, trk) e rest st1) as Hruns.
    cbv zeta in Hruns. revert Hruns. unfold bind, try_except. cbn [fst snd].
    by rewrite Hquery.
Qed.

Lemma for_each_check_in_stages (rows : list (string * option string * option string))
    (st : state) :
  worker_runs_to (Visiting rows) st (Visiting []) (for_each rows (check_order env) st).2.
Proof.
  revert st. induction rows as [|row rows IH]; intros st; [apply worker_there|].
  cbn [for_each]. unfold bind.
  pose proof (check_order_in_stages row rows st) as Hrow.
  destruct (check_order env row st) as [[[]|e] st1]; cbn [fst snd after_body] in *.
  - eapply worker_runs_to_trans; [exact Hrow|apply IH].
  - exact Hrow.
Qed.

(** A round of the worker is the stages from the pause between two rounds
    to the next. *)
Lemma tracking_scan_in_stages (st : state) :
  worker_runs_to Resting st Resting (tracking_scan env st).2.
Proof.
  unfold tracking_scan, bind at 1, try_except, bind at 1.
  destruct (db_pending_total env st) as (rows & st1 & Hp & _). rewrite Hp.
  eapply worker_staged.
  { unfold worker_advance, try_except, bind, ret. by rewrite Hp. }
  eapply worker_runs_to_trans; [apply for_each_check_in_stages|].
  eapply worker_staged; [|apply worker_there].
  destruct (for_each rows (check_order env) st1) as [[[]|e] st2]; reflexivity.
Qed.

(** *** Runs without interruption are sequences of steps *)

Lemma step_of_handler (st st1 : state) (l1 l2 : list handler_run) (run : handler_run)
    (x : handler_run + reply) (wk : worker_run) :
  handler_advance run st = (Ok x, st1) ->
  step {| sys_state := st; sys_runs := l1 ++ run :: l2; sys_worker := wk |}
       {| sys_state := st1; sys_runs := l1 ++ in_flight x ++ l2; sys_worker := wk |}.
Proof.
  intros Hadv.
  pose proof (step_handler (length l1)
                {| sys_state := st; sys_runs := l1 ++ run :: l2; sys_worker := wk |}) as Hstep.
  unfold advance_handler in Hstep. cbn [sys_runs sys_state sys_worker] in Hstep.
  rewrite list_lookup_middle in Hstep by done. rewrite Hadv in Hstep.
  assert (drop (S (length l1)) (l1 ++ run :: l2) = l2) as Hdrop.
  { rewrite (cons_middle run l1 l2), app_assoc. apply drop_app_length'.
    rewrite length_app. cbn. lia. }
  by rewrite take_app_length, Hdrop in Hstep.
Qed.

Lemma handler_runs_to_steps (x : handler_run + reply) (st : state) (r : reply) (st' : state)
    (l1 l2 : list handler_run) (wk : worker_run) :
  handler_runs_to x st r st' ->
  rtc step {| sys_state := st; sys_runs := l1 ++ in_flight x ++ l2; sys_worker := wk |}
           {| sys_state := st'; sys_runs := l1 ++ l2; sys_worker := wk |}.
Proof.
  induction 1 as [r st|run st x st1 r st' Hadv _ IH]; [done|].
  eapply rtc_l; [|exact IH]. by apply step_of_handler.
Qed.

Lemma worker_runs_to_steps (wk : worker_run) (st : state) (wk' : worker_run) (st' : state)
    (runs : list handler_run) :
  worker_runs_to wk st wk' st' ->
  rtc step {| sys_state := st; sys_runs := runs; sys_worker := wk |}
           {| sys_state := st'; sys_runs := runs; sys_worker := wk' |}.
Proof.
  induction 1 as [wk st|wk st wk1 st1 wk' st' Hadv _ IH]; [done|].
  eapply rtc_l; [|exact IH].
  pose proof (step_worker {| sys_state := st; sys_runs := runs; sys_worker := wk |}) as Hstep.
  unfold advance_worker in Hstep. cbn [sys_runs sys_state sys_worker] in Hstep.
  by rewrite Hadv in Hstep.
Qed.

(** A call of the handler that no other thread interrupts is a sequence
    of steps. *)
Lemma webhook_handler_steps (pedido : pyval) (st : state) (runs : list handler_run)
    (wk : worker_run) :
  rtc step {| sys_state := st; sys_runs := runs; sys_worker := wk |}
           {| sys_state := (webhook_handler env pedido st).2; sys_runs := runs;
              sys_worker := wk |}.
Proof.
  destruct (webhook_handler_in_stages pedido st) as (x & st1 & r & st' & Hguard & -> & Hruns).
  cbn [snd]. eapply rtc_l.
  { apply (step_event pedido). }
  unfold receive. cbn [sys_runs sys_state sys_worker]. rewrite Hguard.
  pose proof (handler_runs_to_steps x st1 r st' runs [] wk Hruns) as Hsteps.
  by rewrite !app_nil_r in Hsteps.
Qed.

(** So is a round of the worker. *)
Lemma tracking_scan_steps (st : state) (runs : list handler_run) :
  rtc step {| sys_state := st; sys_runs := runs; sys_worker := Resting |}
           {| sys_state := (tracking_scan env st).2; sys_runs := runs;
              sys_worker := Resting |}.
Proof. apply worker_runs_to_steps, tracking_scan_in_stages. Qed.

Lemma reachable_rtc (s s' : system) : reachable s -> rtc step s s' -> reachable s'.
Proof. intros Hs Hsteps. induction Hsteps; eauto using reachable_step. Qed.

(** Hence the rounds of the worker lead from reachable states to
    reachable states. *)
Corollary tracking_worker_reachable (rounds : nat) (st : state) :
  reachable (at_rest st) -> reachable (at_rest (tracking_worker env rounds st).2).
Proof.
  revert st. induction rounds as [|rounds IH]; intros st Hreach; [done|].
  change (tracking_worker env (S rounds))
    with (run! tracking_scan env in tracking_worker env rounds).
  unfold bind.
  pose proof (tracking_scan_steps st []) as Hsteps.
  destruct (tracking_scan env st) as [[[]|e] st1]; cbn [fst snd] in *.
  - eapply IH, reachable_rtc; eauto.
  - by eapply reachable_rtc.
Qed.

(** *** What a stage does to the table *)

Lemma send_table (r : request) (st : state) : db (send env r st).2 = db st.
Proof. apply (same_table_send env r st). Qed.

Lemma send_to_melhorenvio_once_table (pedido : pyval) (st : state) :
  db (send_to_melhorenvio_once env pedido st).2 = db st.
Proof.
  unfold send_to_melhorenvio_once, bind, lift, raise.
  destruct (normalize_order_data pedido) as [p|]; cbn; [|done].
  destruct (shipment_payload env p) as [payload|]; cbn; [|done].
  destruct (melhorenvio_headers env) as [hs|]; cbn; [|done].
  match goal with
  | |- context [send env ?r st] =>
      pose proof (send_table r st) as Hs; destruct (send env r st) as [[resp|e] st1]
  end; cbn in *; [|done].
  destruct (resp_ok resp); cbn; [|done].
  destruct (response_data resp); cbn; done.
Qed.

Lemma bagy_mark_shipped_once_table (order_id tracking : pyval) (st : state) :
  db (bagy_mark_shipped_once env order_id tracking st).2 = db st.
Proof.
  unfold bagy_mark_shipped_once, bind, lift, raise.
  destruct (bagy_headers env) as [hs|]; cbn; [|done].
  match goal with
  | |- context [send env ?r st] =>
      pose proof (send_table r st) as Hs; destruct (send env r st) as [[resp|e] st1]
  end; cbn in *; [|done].
  destruct (resp_ok resp); cbn; done.
Qed.

Lemma bagy_mark_delivered_once_table (order_id : pyval) (st : state) :
  db (bagy_mark_delivered_once env order_id st).2 = db st.
Proof.
  unfold bagy_mark_delivered_once, bind, lift, raise.
  destruct (bagy_headers env) as [hs|]; cbn; [|done].
  match goal with
  | |- context [send env ?r st] =>
      pose proof (send_table r st) as Hs; destruct (send env r st) as [[resp|e] st1]
  end; cbn in *; [|done].
  destruct (resp_ok resp); cbn; done.
Qed.

Lemma retry_attempt_table {A : Type} (func_name : string) (func : M state A) (attempt : Z)
    (st : state) :
  db (func st).2 = db st ->
  db (retry_attempt (emit (W:=W)) (MAX_RETRIES cfg) 2 func_name func attempt st).2 = db st.
Proof.
  intros Hf.
  apply (retry_attempt_keeps (emit (W:=W)) (MAX_RETRIES cfg) 2 func_name func
           (fun a b : state => db b = db a)); [congruence|done|done].
Qed.

Lemma bind_param_text (t : option string) : bind_param rt (py_of_text t) = Ok t.
Proof. by destruct t. Qed.

(** The guard answers or lets the run through, and writes nothing; it
    lets the run through only if the row it reads for the order, if there
    is one, is neither 'shipped' nor 'delivered'. *)
Lemma handler_guard_cases (pedido : pyval) (st : state) :
  exists x st1,
    handler_guard pedido st = (Ok x, st1)
    /\ db st1 = db st
    /\ forall run, x = inl run ->
         (exists p, run = Sending p (run_order_id run) (Z.to_nat (MAX_RETRIES cfg)) 1 None)
         /\ forall k row,
              bind_param rt (run_order_id run) = Ok (Some k) ->
              db st !! k = Some row ->
              already_processed (status row) = false.
Proof.
  unfold handler_guard, try_except, bind, lift, ret.
  destruct (normalize_order_data pedido) as [p|]; [|by do 2 eexists].
  destruct (py_get p "id" PNone) as [order_id|]; [|by do 2 eexists].
  destruct (py_get p "code" PNone) as [order_code|]; [|by do 2 eexists].
  destruct (truthy order_id); cbn [negb]; [|by do 2 eexists].
  destruct (py_get p "fulfillment_status" (PStr "")) as [fulfillment_status|];
    [|by do 2 eexists].
  destruct (py_eq_str fulfillment_status "invoiced"); cbn [negb]; [|by do 2 eexists].
  unfold db_select_status, bind, db_connect, lift.
  destruct (db_fault env (world st)) as [[e|] w1]; [by do 2 eexists|].
  destruct (bind_param rt order_id) as [key|] eqn:Hkey; [|by do 2 eexists].
  cbn [db].
  destruct key as [k|]; cbn.
  - destruct (db st !! k) as [old|] eqn:Hold; cbn.
    + destruct (already_processed (status old)) eqn:Hap; [by do 2 eexists|].
      do 2 eexists. split; [done|]. split; [done|].
      intros run [= <-]. cbn [run_order_id]. split; [by eexists|].
      intros k' row Hk' Hrow. rewrite Hkey in Hk'. injection Hk' as <-. congruence.
    + do 2 eexists. split; [done|]. split; [done|].
      intros run [= <-]. cbn [run_order_id]. split; [by eexists|].
      intros k' row Hk' Hrow. rewrite Hkey in Hk'. injection Hk' as <-. congruence.
  - do 2 eexists. split; [done|]. split; [done|].
    intros run [= <-]. cbn [run_order_id]. split; [by eexists|].
    intros k' row Hk' Hrow. rewrite Hkey in Hk'. discriminate Hk'.
Qed.

(** A stage of a run returns, with the run still for the same order, and
    leaves the table as it was, or writes the order's row: 'shipped'
    without a message from [Saving], 'error' with a message and no shipment
    id nor tracking code from [Caught]. *)
Lemma handler_advance_cases (run : handler_run) (st : state) :
  exists x st1,
    handler_advance run st = (Ok x, st1)
    /\ (forall run', x = inl run' -> run_order_id run' = run_order_id run)
    /\ (db st1 = db st
        \/ exists k me trk w' new_status error,
             bind_param rt (run_order_id run) = Ok (Some k)
             /\ ((new_status = "shipped" /\ error = None
                  /\ exists me_order_id tracking,
                       run = Saving (run_order_id run) me_order_id tracking
                       /\ bind_param rt me_order_id = Ok me
                       /\ bind_param rt tracking = Ok trk)
                 \/ (new_status = "error" /\ me = None /\ trk = None
                     /\ exists e, run = Caught (run_order_id run) e
                                  /\ error = Some (str_exn e)))
             /\ db st1 = upsert_order (clock env w') k me trk new_status error (db st)).
Proof.
  destruct run as [p order_id [|todo] attempt last
                  |order_id me_order_id tracking [|todo] attempt last
                  |order_id me_order_id tracking|order_id e]; cbn [run_order_id].
  - do 2 eexists. split; [reflexivity|]. split; [by intros run' [= <-]|by left].
  - pose proof (retry_attempt_table "send_to_melhorenvio" (send_to_melhorenvio_once env p)
                  attempt st (send_to_melhorenvio_once_table p st)) as Hdb.
    unfold handler_advance, try_except, bind, ret.
    destruct (retry_attempt _ _ _ _ _ attempt st) as [[[me_order_id tracking]|e] st1];
      cbn [snd] in Hdb;
      (do 2 eexists; split; [reflexivity|]; split; [by intros run' [= <-]|by left]).
  - do 2 eexists. split; [reflexivity|]. split; [by intros run' [= <-]|by left].
  - pose proof (retry_attempt_table "bagy_mark_shipped"
                  (bagy_mark_shipped_once env order_id tracking)
                  attempt st (bagy_mark_shipped_once_table order_id tracking st)) as Hdb.
    unfold handler_advance, try_except, bind, ret.
    destruct (retry_attempt _ _ _ _ _ attempt st) as [[v|e] st1];
      cbn [snd] in Hdb;
      (do 2 eexists; split; [reflexivity|]; split; [by intros run' [= <-]|by left]).
  - unfold handler_advance, try_except, bind, ret.
    destruct (db_save_table env order_id me_order_id tracking "shipped" None st)
      as [_ [(e2 & He2 & Hdb) | (k & me & trk & w' & Hok & Hk & Hme & Htrk & Hdb)]];
      destruct (db_save env order_id me_order_id tracking "shipped" None st)
        as [[[]|?] st1]; cbn [fst snd] in *; try congruence.
    + do 2 eexists. split; [reflexivity|]. split; [by intros run' [= <-]|by left].
    + do 2 eexists. split; [reflexivity|]. split; [by intros run' [= <-]|].
      right. exists k, me, trk, w', "shipped", None. split; [done|]. split; [|done].
      left. split; [done|]. split; [done|]. by exists me_order_id, tracking.
  - unfold handler_advance, try_except, bind, ret.
    destruct (db_save_table env order_id PNone PNone "error" (Some (str_exn e)) st)
      as [_ [(e2 & He2 & Hdb) | (k & me & trk & w' & Hok & Hk & Hme & Htrk & Hdb)]];
      destruct (db_save env order_id PNone PNone "error" (Some (str_exn e)) st)
        as [[[]|?] st1]; cbn [fst snd] in *; try congruence.
    + do 2 eexists. split; [reflexivity|]. split; [by intros run' [= <-]|by left].
    + do 2 eexists. split; [reflexivity|]. split; [by intros run' [= <-]|].
      right. exists k, me, trk, w', "error", (Some (str_exn e)). split; [done|].
      split; [|done]. right. split; [done|]. cbn in Hme, Htrk.
      split; [congruence|]. split; [congruence|]. by exists e.
Qed.

(** A stage of the worker returns.  It leaves the table as it was, going
    on to rows it had still to visit or starting a round with the
    selection (or with nothing); or it marks delivered the row it stands
    at; or it rewrites that row by the error write, whose status is
    [db_save]'s default. *)
Lemma worker_advance_cases (wk : worker_run) (st : state) :
  exists wk' st1,
    worker_advance wk st = (Ok wk', st1)
    /\ ((db st1 = db st
         /\ ((wk = Resting
              /\ (wk' = Visiting (select_pending (MAX_RETRIES cfg) (db st))
                  \/ wk' = Visiting []))
             \/ worker_rows wk' `suffix_of` worker_rows wk))
        \/ (exists k me trk rest w',
              wk = Recording (k, me, trk) rest
              /\ wk' = Pausing rest
              /\ db st1 = upsert_order (clock env w') k me trk "delivered" None (db st))
        \/ (exists k me trk e rest w',
              wk = Raised (k, me, trk) e rest
              /\ wk' = Pausing rest
              /\ db st1
                 = upsert_order (clock env w') k me trk "created" (Some (str_exn e)) (db st))).
Proof.
  destruct wk as [|[|[[k me] trk] rest]|[[k me] trk] [|todo] attempt last rest
                 |[[k me] trk] rest|[[k me] trk] e rest|rest].
  - destruct (db_pending_total env st) as (rows & st1 & Hp & Hdb & _ & Hrows).
    unfold worker_advance, try_except, bind, ret. rewrite Hp.
    do 2 eexists. split; [reflexivity|]. left. split; [done|]. left. split; [done|].
    destruct Hrows as [-> | ->]; auto.
  - do 2 eexists. split; [reflexivity|]. left. split; [done|]. right. done.
  - unfold worker_advance, try_except, bind. cbn [fst snd].
    assert (exists b st1,
              (if truthy (py_of_text me) then melhorenvio_check_delivered env (py_of_text me)
               else ret false) st = (Ok b, st1) /\ db st1 = db st) as (b & st1 & -> & Hdb).
    { destruct (truthy (py_of_text me)); [|by do 2 eexists].
      pose proof (same_table_check_delivered env (py_of_text me) st) as [Hdb _].
      destruct (check_delivered_returns env (py_of_text me) st) as (b & st1 & Hq).
      rewrite Hq in Hdb. eauto. }
    destruct b; (do 2 eexists; split; [reflexivity|]; left; split; [done|]; right).
    + done.
    + cbn. by apply suffix_cons_r.
  - do 2 eexists. split; [reflexivity|]. left. split; [done|]. right. done.
  - pose proof (retry_attempt_table "bagy_mark_delivered"
                  (bagy_mark_delivered_once env (PStr k))
                  attempt st (bagy_mark_delivered_once_table (PStr k) st)) as Hdb.
    unfold worker_advance, try_except, bind, ret. cbn [fst snd].
    destruct (retry_attempt _ _ _ _ _ attempt st) as [[v|e] st1];
      cbn [snd] in Hdb;
      (do 2 eexists; split; [reflexivity|]; left; split; [done|]; right; done).
  - unfold worker_advance, try_except, bind, ret. cbn [fst snd].
    destruct (db_save_table env (PStr k) (py_of_text me) (py_of_text trk) "delivered" None st)
      as [_ [(e2 & He2 & Hdb) | (k' & me' & trk' & w' & Hok & Hk & Hme & Htrk & Hdb)]];
      destruct (db_save env (PStr k) (py_of_text me) (py_of_text trk) "delivered" None st)
        as [[[]|?] st1]; cbn [fst snd] in *; try congruence.
    + do 2 eexists. split; [reflexivity|]. left. split; [done|]. right. done.
    + do 2 eexists. split; [reflexivity|]. right. left.
      rewrite bind_param_text in Hme, Htrk. injection Hk as <-. injection Hme as <-.
      injection Htrk as <-. by exists k, me, trk, rest, w'.
  - unfold worker_advance, try_except, bind, ret, default_status. cbn [fst snd].
    destruct (db_save_table env (PStr k) (py_of_text me) (py_of_text trk) "created"
                (Some (str_exn e)) st)
      as [_ [(e2 & He2 & Hdb) | (k' & me' & trk' & w' & Hok & Hk & Hme & Htrk & Hdb)]];
      destruct (db_save env (PStr k) (py_of_text me) (py_of_text trk) "created"
                  (Some (str_exn e)) st)
        as [[[]|?] st1]; cbn [fst snd] in *; try congruence.
    + do 2 eexists. split; [reflexivity|]. left. split; [done|]. right. apply suffix_nil.
    + do 2 eexists. split; [reflexivity|]. right. right.
      rewrite bind_param_text in Hme, Htrk. injection Hk as <-. injection Hme as <-.
      injection Htrk as <-. by exists k, me, trk, e, rest, w'.
  - do 2 eexists. split; [reflexivity|]. left. split; [done|]. right. done.
Qed.

(** A step is a stage of the guard, of a run or of the worker, or the
    passing of time, or a new start, or changes nothing. *)
Lemma step_cases (s s' : system) :
  step s s' ->
  s' = s
  \/ (exists pedido x st1,
        handler_guard pedido (sys_state s) = (Ok x, st1)
        /\ s' = {| sys_state := st1; sys_runs := sys_runs s ++ in_flight x;
                   sys_worker := sys_worker s |})
  \/ (exists (l1 : list handler_run) run l2 x st1,
        sys_runs s = (l1 ++ run :: l2)%list
        /\ handler_advance run (sys_state s) = (Ok x, st1)
        /\ s' = {| sys_state := st1; sys_runs := (l1 ++ in_flight x ++ l2)%list;
                   sys_worker := sys_worker s |})
  \/ (exists wk' st1,
        worker_advance (sys_worker s) (sys_state s) = (Ok wk', st1)
        /\ s' = {| sys_state := st1; sys_runs := sys_runs s; sys_worker := wk' |})
  \/ (exists w' evs, s' = idle w' evs s)
  \/ s' = restart s.
Proof.
  intros [pedido s0|i s0|s0|w' evs s0|s0].
  - unfold receive.
    destruct (handler_guard pedido (sys_state s0)) as [[x|e] st1] eqn:Hguard; [|by left].
    right. left. by exists pedido, x, st1.
  - unfold advance_handler.
    destruct (sys_runs s0 !! i) as [run|] eqn:Hrun; [|by left].
    destruct (handler_advance run (sys_state s0)) as [[x|e] st1] eqn:Hadv; [|by left].
    right. right. left. exists (take i (sys_runs s0)), run, (drop (S i) (sys_runs s0)), x, st1.
    split; [by rewrite take_drop_middle|done].
  - unfold advance_worker.
    destruct (worker_advance (sys_worker s0) (sys_state s0)) as [[wk'|e] st1] eqn:Hadv;
      [|by left].
    right. right. right. left. by exists wk', st1.
  - right. right. right. right. left. by exists w', evs.
  - by do 5 right.
Qed.

(** What a step does to the table: nothing, or one write, of a status with
    or without a message as [written_together] says. *)
Lemma step_writes (s s' : system) :
  step s s' ->
  db (sys_state s') = db (sys_state s)
  \/ exists now k me trk new_status error,
       db (sys_state s') = upsert_order now k me trk new_status error (db (sys_state s))
       /\ written_together new_status error.
Proof.
  intros Hstep.
  destruct (step_cases s s' Hstep)
    as [-> | [(pedido & x & st1 & Hguard & ->) | [(l1 & run & l2 & x & st1 & _ & Hadv & ->)
       | [(wk' & st1 & Hadv & ->) | [(w' & evs & ->) | ->]]]]];
    cbn [sys_state idle restart at_rest db].
  - by left.
  - destruct (handler_guard_cases pedido (sys_state s)) as (x' & st1' & Hguard' & Hdb & _).
    rewrite Hguard in Hguard'. injection Hguard' as <- <-. by left.
  - destruct (handler_advance_cases run (sys_state s))
      as (x' & st1' & Hadv' & _ & [Hdb | (k & me & trk & w' & new_status & error & _ & Hw & Hdb)]);
      rewrite Hadv in Hadv'; injection Hadv' as <- <-; [by left|].
    right. exists (clock env w'), k, me, trk, new_status, error. split; [done|].
    destruct Hw as [(-> & -> & _) | (-> & _ & _ & e & _ & ->)].
    + by left.
    + right. right. left. split; [done|by eexists].
  - destruct (worker_advance_cases (sys_worker s) (sys_state s))
      as (wk'' & st1' & Hadv' & [[Hdb _] | [(k & me & trk & rest & w' & _ & _ & Hdb)
         | (k & me & trk & e & rest & w' & _ & _ & Hdb)]]);
      rewrite Hadv in Hadv'; injection Hadv' as <- <-; [by left| |].
    + right. exists (clock env w'), k, me, trk, "delivered", None. split; [done|].
      right. by left.
    + right. exists (clock env w'), k, me, trk, "created", (Some (str_exn e)).
      split; [done|]. right. right. right. split; [done|by eexists].
  - by left.
  - by left.
Qed.

(** *** What holds in every reachable state *)

(** A delivered order has its delivery time. *)
Definition delivered_stamped (tbl : gmap string order_row) : Prop :=
  forall k r, tbl !! k = Some r -> status r = "delivered" -> is_Some (delivered_at r).

(** Rows of distinct orders, that are in the table and not delivered. *)
Definition rows_pending (tbl : gmap string order_row)
    (rows : list (string * option string * option string)) : Prop :=
  NoDup rows.*1.*1
  /\ forall row, row ∈ rows -> exists r, tbl !! row.1.1 = Some r /\ status r <> "delivered".

Definition invariant (s : system) : Prop :=
  delivered_stamped (db (sys_state s))
  /\ rows_pending (db (sys_state s)) (worker_rows (sys_worker s)).

Lemma delivered_stamped_upsert (now : Z) (k : string) (me trk : option string)
    (new_status : string) (error : option string) (tbl : gmap string order_row) :
  delivered_stamped tbl ->
  (new_status = "delivered" -> is_Some (tbl !! k)) ->
  delivered_stamped (upsert_order now k me trk new_status error tbl).
Proof.
  intros Hm Hthere k' r' Hr' Hs'. destruct (decide (k = k')) as [<-|Hne].
  - destruct (upsert_order_lookup now k me trk new_status error tbl)
      as (r & Hr & Hs & _ & _ & _ & _ & _ & Hd).
    rewrite Hr in Hr'. injection Hr' as <-. rewrite Hs in Hs'.
    destruct (Hthere Hs') as [old Hold]. rewrite Hold in Hd. rewrite Hd, Hs'. by eexists.
  - rewrite upsert_order_other in Hr' by done. by apply (Hm k').
Qed.

Lemma rows_pending_suffix (tbl : gmap string order_row)
    (rows rows' : list (string * option string * option string)) :
  rows' `suffix_of` rows -> rows_pending tbl rows -> rows_pending tbl rows'.
Proof.
  intros [pre ->] [Hnd Hin]. split.
  - rewrite !fmap_app in Hnd. by apply NoDup_app in Hnd as (_ & _ & ?).
  - intros row Hrow. apply Hin, elem_of_app. by right.
Qed.

Lemma rows_pending_select (max_retries : Z) (tbl : gmap string order_row) :
  rows_pending tbl (select_pending max_retries tbl).
Proof.
  split; [apply select_pending_keys_NoDup|].
  intros row (r & Hr & Hpend & _)%select_pending_spec. exists r. split; [done|].
  unfold is_pending in Hpend. intros Hd. rewrite Hd in Hpend. discriminate Hpend.
Qed.

Lemma rows_pending_nil (tbl : gmap string order_row) : rows_pending tbl [].
Proof. split; [constructor|]. by intros row Hin%elem_of_nil. Qed.

(** Rows that were there and not delivered are still so after a write of
    a status other than 'delivered'. *)
Lemma rows_pending_upsert (now : Z) (k : string) (me trk : option string)
    (new_status : string) (error : option string) (tbl : gmap string order_row)
    (rows : list (string * option string * option string)) :
  new_status <> "delivered" ->
  rows_pending tbl rows ->
  rows_pending (upsert_order now k me trk new_status error tbl) rows.
Proof.
  intros Hnew [Hnd Hin]. split; [done|].
  intros row Hrow. destruct (Hin row Hrow) as (r & Hr & Hs).
  destruct (decide (k = row.1.1)) as [<-|Hne].
  - destruct (upsert_order_lookup now k me trk new_status error tbl) as (r1 & Hr1 & Hs1 & _).
    exists r1. split; [done|]. by rewrite Hs1.
  - exists r. by rewrite upsert_order_other.
Qed.

(** After the write that marks delivered the row the worker stands at, the
    rows it has still to visit are as they were. *)
Lemma rows_pending_delivered (now : Z) (k : string) (me trk : option string)
    (error : option string) (tbl : gmap string order_row)
    (rest : list (string * option string * option string)) :
  rows_pending tbl ((k, me, trk) :: rest) ->
  rows_pending (upsert_order now k me trk "delivered" error tbl) rest.
Proof.
  intros [Hnd Hin]. cbn in Hnd. apply NoDup_cons in Hnd as [Hk Hnd]. split; [done|].
  intros row Hrow. destruct (Hin row) as (r & Hr & Hs); [by right|].
  exists r. split; [|done]. rewrite upsert_order_other; [done|].
  intros ->. apply Hk. apply list_elem_of_fmap. exists row.1.
  split; [done|]. apply list_elem_of_fmap. by exists row.
Qed.

Lemma step_invariant (s s' : system) : invariant s -> step s s' -> invariant s'.
Proof.
  intros [Hm Hrows] Hstep.
  destruct (step_cases s s' Hstep)
    as [-> | [(pedido & x & st1 & Hguard & ->) | [(l1 & run & l2 & x & st1 & _ & Hadv & ->)
       | [(wk' & st1 & Hadv & ->) | [(w' & evs & ->) | ->]]]]];
    unfold invariant; cbn [sys_state sys_worker idle restart at_rest db].
  - done.
  - destruct (handler_guard_cases pedido (sys_state s)) as (x' & st1' & Hguard' & Hdb & _).
    rewrite Hguard in Hguard'. injection Hguard' as <- <-. by rewrite Hdb.
  - destruct (handler_advance_cases run (sys_state s))
      as (x' & st1' & Hadv' & _ & [Hdb | (k & me & trk & w' & new_status & error & _ & Hw & Hdb)]);
      rewrite Hadv in Hadv'; injection Hadv' as <- <-; rewrite Hdb; [done|].
    assert (new_status <> "delivered") as Hnew.
    { by destruct Hw as [(-> & _) | (-> & _)]. }
    split; [by apply delivered_stamped_upsert|by apply rows_pending_upsert].
  - destruct (worker_advance_cases (sys_worker s) (sys_state s))
      as (wk'' & st1' & Hadv' & Hcases).
    rewrite Hadv in Hadv'. injection Hadv' as <- <-.
    destruct Hcases as [[Hdb Hwk] | [(k & me & trk & rest & w' & Hwk & -> & Hdb)
         | (k & me & trk & e & rest & w' & Hwk & -> & Hdb)]]; rewrite Hdb.
    + split; [done|].
      destruct Hwk as [[_ [-> | ->]] | Hsuffix]; cbn [worker_rows].
      * apply rows_pending_select.
      * apply rows_pending_nil.
      * by eapply rows_pending_suffix.
    + rewrite Hwk in Hrows. cbn [worker_rows] in *. split.
      * apply delivered_stamped_upsert; [done|]. intros _.
        destruct Hrows as [_ Hin]. destruct (Hin (k, me, trk)) as (r & Hr & _); [by left|].
        by exists r.
      * by apply rows_pending_delivered.
    + rewrite Hwk in Hrows. cbn [worker_rows] in *. split.
      * by apply delivered_stamped_upsert.
      * apply rows_pending_upsert; [done|].
        eapply rows_pending_suffix; [|exact Hrows]. by apply suffix_cons_r.
  - done.
  - split; [done|]. apply rows_pending_nil.
Qed.

Lemma reachable_invariant (s : system) : reachable s -> invariant s.
Proof.
  induction 1 as [w|s s' _ IH Hstep]; [|by eapply step_invariant].
  split; cbn.
  - intros k r Hr. by rewrite lookup_empty in Hr.
  - apply rows_pending_nil.
Qed.

(** C9, as the code has it.  In every state reached from the empty table
    by events, stages of the handler's runs, stages of the worker and new
    starts, in any order, an order whose status is 'delivered' has a
    [delivered_at];
    and no step clears a [delivered_at] that is set: the step leaves its
    value as it is, unless it marks the order delivered (again), and then
    the value is the time of that write.  (The converse of the first part
    fails, and so does "never overwritten": see [shipped_again] and
    [delivered_again] below.) *)
Theorem delivered_at_invariant (s : system) :
  reachable s ->
  (forall k r,
     db (sys_state s) !! k = Some r -> status r = "delivered" -> is_Some (delivered_at r))
  /\ (forall s' k r t,
        step s s' ->
        db (sys_state s) !! k = Some r ->
        delivered_at r = Some t ->
        exists r',
          db (sys_state s') !! k = Some r'
          /\ (delivered_at r' = Some t
              \/ (status r' = "delivered" /\ delivered_at r' = Some (updated_at r')))).
Proof.
  intros Hreach. split; [apply (reachable_invariant s Hreach)|].
  intros s' k r t Hstep Hr Ht.
  destruct (step_writes s s' Hstep)
    as [-> | (now & k0 & me & trk & new_status & error & -> & _)]; [eauto|].
  destruct (decide (k0 = k)) as [->|Hne].
  - destruct (upsert_order_lookup now k me trk new_status error (db (sys_state s)))
      as (r' & Hr' & Hs & _ & Hu & _ & _ & _ & Hd).
    exists r'. split; [done|]. rewrite Hr in Hd. rewrite Hd.
    destruct (String.eqb_spec new_status "delivered") as [Heq|Hneq].
    + right. split; [congruence|]. by rewrite Hu.
    + by left.
  - exists r. rewrite upsert_order_other by done. auto.
Qed.

(** Whatever the event says, the handler answers (no exception leaves
    it), and its run is the guard followed by the stages.  The guard
    writes nothing, and lets the run go on only if the row it reads for
    the order, if there is one, is neither 'shipped' nor 'delivered'.  A
    stage, from whatever state the other threads have left, hands the run
    on for the same order and changes no row but that order's. *)
Theorem handler_footprint (pedido : pyval) (st : state) :
  (exists x st1 r st',
     handler_guard pedido st = (Ok x, st1)
     /\ webhook_handler env pedido st = (Ok r, st')
     /\ handler_runs_to x st1 r st'
     /\ db st1 = db st
     /\ forall run k row,
          x = inl run ->
          bind_param rt (run_order_id run) = Ok (Some k) ->
          db st !! k = Some row ->
          already_processed (status row) = false)
  /\ (forall (run : handler_run) (st0 : state),
        (exists x, (handler_advance run st0).1 = Ok x
                   /\ forall run', x = inl run' -> run_order_id run' = run_order_id run)
        /\ forall k,
             bind_param rt (run_order_id run) <> Ok (Some k) ->
             db (handler_advance run st0).2 !! k = db st0 !! k).
Proof.
  split.
  - destruct (webhook_handler_in_stages pedido st) as (x & st1 & r & st' & Hguard & Hrun & Hto).
    destruct (handler_guard_cases pedido st) as (x' & st1' & Hguard' & Hdb & Hlet).
    rewrite Hguard in Hguard'. injection Hguard' as <- <-.
    exists x, st1, r, st'. repeat (split; [done|]).
    intros run k row Hx. by apply (Hlet run Hx).
  - intros run st0.
    destruct (handler_advance_cases run st0)
      as (x & st1 & -> & Hsame & [Hdb | (k0 & me & trk & w' & new_status & error & Hk0 & _ & Hdb)]);
      cbn [fst snd]; (split; [by exists x|]); intros k Hk; rewrite Hdb; [done|].
    apply upsert_order_other. congruence.
Qed.


(** In every state reached from the empty table, every order has one of
    the four statuses, a retry count that is not negative, and an error
    message exactly when its status is 'error' or 'created'. *)
Theorem stored_rows_well_formed (s : system) (k : string) (r : order_row) :
  reachable s ->
  db (sys_state s) !! k = Some r ->
  known_status (status r)
  /\ 0 <= retry_count r
  /\ (is_Some (last_error r) <-> status r = "error" \/ status r = "created").
Proof.
  intros Hreach. revert k r. induction Hreach as [w|s s' _ IH Hstep]; intros k r Hr.
  - cbn in Hr. by rewrite lookup_empty in Hr.
  - destruct (step_writes s s' Hstep)
      as [Hdb | (now & k0 & me & trk & new_status & error & Hdb & Hw)]; rewrite Hdb in Hr.
    + by apply (IH k).
    + by apply (upsert_order_row_ok now k0 me trk new_status error (db (sys_state s)) Hw IH k r).
Qed.

(** No run of the handler in progress is for the order [k]. *)
Definition no_run_for (k : string) (runs : list handler_run) : Prop :=
  Forall (fun run => bind_param rt (run_order_id run) <> Ok (Some k)) runs.

Lemma delivered_kept_step (s s' : system) (k : string) (r : order_row) :
  invariant s ->
  step s s' ->
  db (sys_state s) !! k = Some r ->
  status r = "delivered" ->
  no_run_for k (sys_runs s) ->
  db (sys_state s') !! k = Some r /\ no_run_for k (sys_runs s').
Proof.
  intros [_ Hrows] Hstep Hr Hs Hruns.
  destruct (step_cases s s' Hstep)
    as [-> | [(pedido & x & st1 & Hguard & ->) | [(l1 & run & l2 & x & st1 & Hl & Hadv & ->)
       | [(wk' & st1 & Hadv & ->) | [(w' & evs & ->) | ->]]]]];
    cbn [sys_state sys_runs sys_worker idle restart at_rest db].
  - done.
  - destruct (handler_guard_cases pedido (sys_state s)) as (x' & st1' & Hguard' & Hdb & Hlet).
    rewrite Hguard in Hguard'. injection Hguard' as <- <-. rewrite Hdb. split; [done|].
    apply Forall_app. split; [done|].
    destruct x as [run|reply]; [|constructor]. cbn. constructor; [|constructor].
    intros Hk. destruct (Hlet run eq_refl) as [_ Hfree].
    specialize (Hfree k r Hk Hr). unfold already_processed in Hfree.
    rewrite Hs in Hfree. discriminate Hfree.
  - rewrite Hl in Hruns. apply Forall_app in Hruns as [H1 Hruns].
    apply Forall_cons in Hruns as [Hrun H2].
    destruct (handler_advance_cases run (sys_state s))
      as (x' & st1' & Hadv' & Hsame
          & [Hdb | (k0 & me & trk & w' & new_status & error & Hk0 & _ & Hdb)]);
      rewrite Hadv in Hadv'; injection Hadv' as <- <-; rewrite Hdb.
    + split; [done|]. apply Forall_app. split; [done|]. apply Forall_app. split; [|done].
      destruct x as [run'|reply]; [|constructor]. cbn. constructor; [|constructor].
      by rewrite (Hsame run' eq_refl).
    + split.
      * rewrite upsert_order_other; [done|]. intros ->. by apply Hrun.
      * apply Forall_app. split; [done|]. apply Forall_app. split; [|done].
        destruct x as [run'|reply]; [|constructor]. cbn. constructor; [|constructor].
        by rewrite (Hsame run' eq_refl).
  - split; [|done].
    destruct (worker_advance_cases (sys_worker s) (sys_state s))
      as (wk'' & st1' & Hadv' & Hcases).
    rewrite Hadv in Hadv'. injection Hadv' as <- <-.
    destruct Hcases as [[Hdb _] | [(k0 & me & trk & rest & w' & Hwk & _ & Hdb)
         | (k0 & me & trk & e & rest & w' & Hwk & _ & Hdb)]]; rewrite Hdb; [done| |];
      rewrite Hwk in Hrows; cbn [worker_rows] in Hrows; destruct Hrows as [_ Hin];
      (destruct (Hin (k0, me, trk)) as (r0 & Hr0 & Hs0); [by left|]);
      (rewrite upsert_order_other; [done|]); cbn in Hr0; congruence.
  - done.
  - split; [done|]. constructor.
Qed.

(** Delivered is final once no run of the handler is in progress for the
    order: from a state reached from the empty table in which an order is
    delivered and no run let through by the guard is still in progress for
    it, no sequence of steps changes anything of the order's row.  (With
    such a run in progress the row is overwritten: see [shipped_again]
    below.) *)
Theorem delivered_is_final (s s' : system) (k : string) (r : order_row) :
  reachable s ->
  db (sys_state s) !! k = Some r ->
  status r = "delivered" ->
  no_run_for k (sys_runs s) ->
  rtc step s s' ->
  db (sys_state s') !! k = Some r /\ no_run_for k (sys_runs s').
Proof.
  intros Hreach Hr Hs Hruns Hsteps.
  induction Hsteps as [s|s1 s2 s3 Hstep _ IH]; [done|].
  destruct (delivered_kept_step s1 s2 k r (reachable_invariant s1 Hreach) Hstep Hr Hs Hruns)
    as [Hr2 Hruns2].
  apply IH; [by eapply reachable_step|done..].
Qed.

End Threads.

(** ** The race of the handler and the worker *)

(** The state [after_event] is reached from the empty table by one event,
    [after_scan] by a round of the worker after it. *)
Lemma after_event_reachable : reachable script_env (at_rest after_event).
Proof.
  apply (reachable_rtc script_env (at_rest (start ∅ all_goes_well))).
  - apply reachable_start.
  - apply webhook_handler_steps.
Qed.

Lemma after_scan_reachable : reachable script_env (at_rest after_scan).
Proof.
  apply (reachable_rtc script_env (at_rest after_event)).
  - apply after_event_reachable.
  - apply tracking_scan_steps.
Qed.

Lemma delivered_at_invariant_witness :
  (forall k r,
     db after_scan !! k = Some r -> status r = "delivered" -> is_Some (delivered_at r))
  /\ (forall s' k r t,
        step script_env (at_rest after_scan) s' ->
        db after_scan !! k = Some r ->
        delivered_at r = Some t ->
        exists r',
          db (sys_state s') !! k = Some r'
          /\ (delivered_at r' = Some t
              \/ (status r' = "delivered" /\ delivered_at r' = Some (updated_at r')))).
Proof.
  apply (delivered_at_invariant script_env (at_rest after_scan)).
  apply (reachable_rtc script_env (at_rest after_event)).
  - apply (reachable_rtc script_env (at_rest (start ∅ all_goes_well))).
    + apply reachable_start.
    + apply webhook_handler_steps.
  - apply tracking_scan_steps.
Defined.

(** The event for the order A arrives twice before either run has written
    anything: whenever they are asked, the carrier creates a shipment and
    reports it delivered, and the storefront accepts. *)
Definition race_script : script :=
  {| answers := [json_response 200 (PDict [("id", PStr "me-1"); ("tracking", PStr "BR1")]);
                 json_response 200 (PDict []);
                 delivered_answer;
                 json_response 200 (PDict []);
                 json_response 200 (PDict [("id", PStr "me-2"); ("tracking", PStr "BR2")]);
                 json_response 200 (PDict []);
                 delivered_answer;
                 json_response 200 (PDict [])];
     faults := []; now := 0 |}.

(** Both events pass the guard: the order has no row yet. *)
Definition both_in_progress : system script :=
  receive script_env invoiced_order
    (receive script_env invoiced_order (at_rest (start ∅ race_script))).

(** The first run creates the shipment, tells the storefront and writes
    'shipped'. *)
Definition first_shipped : system script :=
  advance_handler script_env 0
    (advance_handler script_env 0 (advance_handler script_env 0 both_in_progress)).

(** The worker starts a round, finds the order delivered, tells the
    storefront and writes 'delivered'. *)
Definition marked_delivered : system script :=
  advance_worker script_env
    (advance_worker script_env
       (advance_worker script_env (advance_worker script_env first_shipped))).

(** The second run, in progress since before the first write, creates
    another shipment, tells the storefront and writes 'shipped'. *)
Definition shipped_again : system script :=
  advance_handler script_env 0
    (advance_handler script_env 0 (advance_handler script_env 0 marked_delivered)).

(** The worker ends its round and starts the next, which finds the order,
    'shipped' again, delivered once more. *)
Definition delivered_again : system script :=
  advance_worker script_env
    (advance_worker script_env
       (advance_worker script_env
          (advance_worker script_env
             (advance_worker script_env (advance_worker script_env shipped_again))))).

Lemma delivered_again_reachable :
  reachable script_env marked_delivered
  /\ reachable script_env shipped_again
  /\ reachable script_env delivered_again.
Proof.
  assert (reachable script_env marked_delivered) as H1.
  { unfold marked_delivered, first_shipped, both_in_progress.
    do 4 (eapply reachable_step; [|apply step_worker]).
    do 3 (eapply reachable_step; [|apply step_handler]).
    do 2 (eapply reachable_step; [|apply step_event]).
    apply reachable_start. }
  assert (reachable script_env shipped_again) as H2.
  { unfold shipped_again. by do 3 (eapply reachable_step; [|apply step_handler]). }
  split; [done|]. split; [done|].
  unfold delivered_again. by do 6 (eapply reachable_step; [|apply step_worker]).
Qed.

(** C9, as stated, fails on both counts.  The three states are reached
    from the empty table.  In the first the order A is 'delivered', with
    the delivery time 4.  In the second its status is 'shipped', and the
    delivery time is still there.  In the third it is 'delivered' again,
    and the delivery time is 8. *)
Lemma delivered_at_not_only_delivered_counterexample :
  reachable script_env marked_delivered
  /\ reachable script_env shipped_again
  /\ reachable script_env delivered_again
  /\ status <$> db (sys_state marked_delivered) !! "A" = Some "delivered"
  /\ delivered_at <$> db (sys_state marked_delivered) !! "A" = Some (Some 4)
  /\ status <$> db (sys_state shipped_again) !! "A" = Some "shipped"
  /\ delivered_at <$> db (sys_state shipped_again) !! "A" = Some (Some 4)
  /\ status <$> db (sys_state delivered_again) !! "A" = Some "delivered"
  /\ delivered_at <$> db (sys_state delivered_again) !! "A" = Some (Some 8).
Proof.
  destruct delivered_again_reachable as (H1 & H2 & H3).
  repeat (split; [done|]). vm_compute. repeat split; reflexivity.
Qed.

(** ** The selection of the scan, in full *)

Lemma older_or_same_transitive : Transitive older_or_same.
Proof. intros a b c. unfold older_or_same. lia. Qed.

Lemma older_or_same_total : Total older_or_same.
Proof. intros a b. unfold older_or_same. lia. Qed.

Lemma StronglySorted_lookup_lt {A : Type} (R : relation A) (l : list A) (i j : nat) (x y : A) :
  StronglySorted R l -> (i < j)%nat -> l !! i = Some x -> l !! j = Some y -> R x y.
Proof.
  intros Hsorted. revert i j. induction Hsorted as [|a l _ IH Hall]; intros i j Hij Hx Hy.
  - by rewrite lookup_nil in Hx.
  - destruct j as [|j]; [lia|]. cbn in Hy. destruct i as [|i].
    + cbn in Hx. injection Hx as <-. rewrite Forall_forall in Hall.
      apply Hall. by eapply list_elem_of_lookup_2.
    + cbn in Hx. apply (IH i j); [lia|done..].
Qed.

Section Selection.
Context {W : Type}.
Variable env : environment W.
Local Abbreviation cfg := (env_cfg env).

(** [db_pending], when the database answers: the rows returned are those
    of the orders whose status is 'created' or 'shipped', whose tracking
    code is set and is not the sentinel, and whose retry count is below
    twice MAX_RETRIES; each order comes once; and they come least recently
    updated first.  When the database fails the result is empty. *)
Theorem db_pending_selection (st : state W) :
  exists rows st',
    db_pending env st = (Ok rows, st')
    /\ match (db_fault env (world st)).1 with
       | Some _ => rows = []
       | None =>
           (forall k me trk,
              (k, me, trk) ∈ rows <->
              exists r, db st !! k = Some r
                /\ me = melhorenvio_order_id r
                /\ trk = tracking_code r
                /\ (status r = "created" \/ status r = "shipped")
                /\ (exists t, tracking_code r = Some t /\ t <> "SEM-RASTREIO")
                /\ retry_count r < MAX_RETRIES cfg * 2)
           /\ NoDup rows.*1.*1
           /\ (forall i j row_i row_j r_i r_j,
                 (i <= j)%nat ->
                 rows !! i = Some row_i ->
                 rows !! j = Some row_j ->
                 db st !! row_i.1.1 = Some r_i ->
                 db st !! row_j.1.1 = Some r_j ->
                 updated_at r_i <= updated_at r_j)
       end.
Proof.
  unfold db_pending, try_except, bind, db_connect, ret.
  destruct (db_fault env (world st)) as [[e|] w']; cbn [fst snd]; [by eauto|].
  do 2 eexists. split; [reflexivity|]. cbn [db]. split; [|split].
  - intros k me trk. rewrite select_pending_spec. cbn [fst snd]. split.
    + intros (r & Hr & Hpend & [= -> ->]). exists r. repeat (split; [done|]).
      unfold is_pending in Hpend.
      apply andb_true_iff in Hpend as [[Hs Ht]%andb_true_iff Hc].
      split; [|split].
      * apply orb_true_iff in Hs as [Hs|Hs]; apply String.eqb_eq in Hs; auto.
      * destruct (tracking_code r) as [t|]; [|discriminate]. exists t. split; [done|].
        intros ->. discriminate Ht.
      * lia.
    + intros (r & Hr & -> & -> & Hs & (t & Ht & Hne) & Hc). exists r.
      split; [done|]. split; [|done]. unfold is_pending. rewrite Ht.
      apply andb_true_iff. split; [apply andb_true_iff; split|lia].
      * apply orb_true_iff. destruct Hs as [-> | ->]; auto.
      * apply negb_true_iff. by apply String.eqb_neq.
  - apply select_pending_keys_NoDup.
  - intros i j row_i row_j r_i r_j Hij Hi Hj Hri Hrj.
    unfold select_pending in Hi, Hj.
    set (l := merge_sort older_or_same
                (filter (fun kr => is_pending (MAX_RETRIES cfg) kr.2 = true)
                   (map_to_list (db st)))) in *.
    change (map ?f l) with (f <$> l) in Hi, Hj.
    rewrite list_lookup_fmap in Hi, Hj.
    destruct (l !! i) as [[ki xi]|] eqn:Hli; [|discriminate].
    destruct (l !! j) as [[kj xj]|] eqn:Hlj; [|discriminate].
    cbn in Hi, Hj. injection Hi as <-. injection Hj as <-. cbn in Hri, Hrj.
    assert (forall n k x, l !! n = Some (k, x) -> db st !! k = Some x) as Hrow.
    { intros n k x Hn. apply list_elem_of_lookup_2 in Hn. unfold l in Hn.
      rewrite merge_sort_Permutation in Hn.
      apply list_elem_of_filter in Hn as [_ Hn]. by apply elem_of_map_to_list in Hn. }
    rewrite (Hrow i ki xi Hli) in Hri. rewrite (Hrow j kj xj Hlj) in Hrj.
    injection Hri as <-. injection Hrj as <-.
    destruct (decide (i = j)) as [->|Hne].
    + rewrite Hli in Hlj. injection Hlj as <- <-. lia.
    + apply (StronglySorted_lookup_lt older_or_same l i j (ki, xi) (kj, xj)); [|lia|done..].
      apply StronglySorted_merge_sort;
        [apply older_or_same_transitive|apply older_or_same_total].
Qed.
End Selection.

(** ** The shipment request: what is refused and what is sent *)

(** [pedido.get("address", {}) or pedido.get("shipping_address", {})] *)
Definition order_address (d : list (string * pyval)) : pyval :=
  py_or (dict_get d "address" (PDict [])) (dict_get d "shipping_address" (PDict [])).

Section RequestProperties.
Context {W : Type}.
Variable env : environment W.
Local Abbreviation rt := (env_rt env).
Local Abbreviation cfg := (env_cfg env).

(** The request [send_to_melhorenvio] sends, or the exception it raises
    before sending any: from the normalisation, from the payload, or from
    the headers when MELHORENVIO_TOKEN is not set. *)
Definition shipment_request (pedido : pyval) : outcome request :=
  try! pedido := normalize_order_data pedido in
  try! payload := shipment_payload env pedido in
  try! headers := melhorenvio_headers env in
  Ok {| req_method := "POST"; req_url := MELHORENVIO_BASE cfg +:+ "/me/cart";
        req_headers := headers; req_json := Some payload;
        req_timeout := REQUEST_TIMEOUT cfg |}.

Lemma send_to_melhorenvio_once_unsent (pedido : pyval) (e : exn) (st : state W) :
  shipment_request pedido = Raise e ->
  send_to_melhorenvio_once env pedido st = (Raise e, st).
Proof.
  unfold shipment_request, send_to_melhorenvio_once, bind, lift.
  destruct (normalize_order_data pedido) as [p|]; cbn [bind_outcome]; [|by intros [= ->]].
  destruct (shipment_payload env p) as [payload|]; cbn [bind_outcome]; [|by intros [= ->]].
  destruct (melhorenvio_headers env) as [headers|]; cbn [bind_outcome]; [done|by intros [= ->]].
Qed.

(** The decorator around a call that fails the same way every time and
    does nothing else. *)
Lemma retry_attempts_failing {A : Type} (func : M (state W) A) (e : exn)
    (max_attempts delay : Z) (func_name : string) :
  (forall st, func st = (Raise e, st)) ->
  forall (todo : nat) (attempt : Z) (last : option exn) (st : state W),
    todo = O \/ attempt + Z.of_nat todo = max_attempts + 1 ->
    exists evs,
      retry_attempts emit max_attempts delay func_name func todo attempt last st
      = (Raise (match todo with
                | O => match last with Some e' => e' | None => raise_none_error end
                | S _ => e
                end),
         {| db := db st; world := world st; trace := (trace st ++ evs)%list |})
      /\ requests_made evs = 0
      /\ seconds_slept evs = delay * Z.of_nat (pred todo).
Proof.
  intros Hfail todo. induction todo as [|todo IH]; intros attempt last st Hat.
  - exists []. rewrite app_nil_r. cbn [retry_attempts]. destruct st.
    split; [by destruct last|]. split; [done|]. cbn. lia.
  - destruct Hat as [|Hat]; [done|]. cbn [retry_attempts]. unfold try_except.
    rewrite Hfail. unfold bind at 1.
    destruct (attempt <? max_attempts) eqn:Hlt.
    + apply Z.ltb_lt in Hlt. unfold bind at 1. unfold emit_unit at 1 2. cbn [fst snd].
      destruct (IH (attempt + 1) (Some e)
                  (emit (EvSleep delay)
                     (emit (EvLog (LogRetry attempt max_attempts func_name e delay)) st))
                  ltac:(right; lia)) as (evs & -> & Hr & Hs).
      exists ([EvLog (LogRetry attempt max_attempts func_name e delay); EvSleep delay]
              ++ evs)%list.
      destruct todo as [|todo]; [lia|].
      split; [|split].
      * cbn [emit db world trace]. by rewrite <- !app_assoc.
      * unfold requests_made in *. rewrite cost_app, Hr. done.
      * unfold seconds_slept in *. rewrite cost_app, Hs. cbn [cost foldr sleep_seconds pred].
        nia.
    + apply Z.ltb_ge in Hlt. assert (todo = O) as -> by lia.
      unfold emit_unit. cbn [retry_attempts raise emit db world trace].
      exists [EvLog (LogExhausted max_attempts func_name e)]. split; [done|].
      split; [done|]. cbn. lia.
Qed.

(** An order that cannot be turned into a request (it does not normalise,
    the payload refuses it, or no carrier token is set) is never sent.  The
    decorator still makes its MAX_RETRIES attempts and sleeps two seconds
    between them; nothing else changes; the exception of the attempt comes
    out. *)
Theorem unsendable_order_sends_nothing (pedido : pyval) (e : exn) (st : state W) :
  shipment_request pedido = Raise e ->
  1 <= MAX_RETRIES cfg ->
  exists evs,
    send_to_melhorenvio env pedido st
    = (Raise e, {| db := db st; world := world st; trace := (trace st ++ evs)%list |})
    /\ requests_made evs = 0
    /\ seconds_slept evs = 2 * (MAX_RETRIES cfg - 1).
Proof.
  intros Hreq Hmax. unfold send_to_melhorenvio, retry_on_failure.
  destruct (retry_attempts_failing (send_to_melhorenvio_once env pedido) e
              (MAX_RETRIES cfg) 2 "send_to_melhorenvio"
              (fun st0 => send_to_melhorenvio_once_unsent pedido e st0 Hreq)
              (Z.to_nat (MAX_RETRIES cfg)) 1 None st ltac:(right; lia))
    as (evs & Hrun & Hr & Hs).
  exists evs. rewrite Hrun. split; [|split; [done|]].
  - destruct (Z.to_nat (MAX_RETRIES cfg)) eqn:Hn; [lia|done].
  - rewrite Hs. lia.
Qed.

(** What the payload refuses.  An order with no address block (none under
    "address" nor under "shipping_address", or an empty one) raises the
    ValueError of the address; with an address and without a customer block
    (or with an empty one), that of the customer; with a customer that is
    not an object (null, a string), the AttributeError of the log line that
    reads the customer's name before the test. *)
Theorem unusable_order_refused (d : list (string * pyval)) :
  (truthy (order_address d) = false ->
   shipment_payload env (PDict d)
   = Raise (mk_exn ValueError "Endereço de entrega não encontrado no pedido"))
  /\ (truthy (order_address d) = true ->
      dict_get d "customer" (PDict []) = PDict [] ->
      shipment_payload env (PDict d)
      = Raise (mk_exn ValueError "Dados do cliente não encontrados no pedido"))
  /\ (truthy (order_address d) = true ->
      (forall c, dict_get d "customer" (PDict []) <> PDict c) ->
      shipment_payload env (PDict d)
      = Raise (no_attribute (dict_get d "customer" (PDict [])) "get")).
Proof.
  unfold order_address, shipment_payload. cbn [py_get bind_outcome].
  rewrite or_as_py_or. cbn [bind_outcome].
  split; [|split].
  - by intros ->.
  - intros -> ->. done.
  - intros -> Hc. cbn [negb].
    destruct (dict_get d "customer" (PDict [])) as [| | | | | |c]; try done.
    by destruct (Hc c).
Qed.
End RequestProperties.

Ltac payload_step H :=
  match type of H with
  | bind_outcome ?o _ = Ok _ =>
      let E := fresh "E" in
      destruct o eqn:E; cbn [bind_outcome] in H; [|discriminate H]
  | (if ?b then Raise _ else _) = Ok _ =>
      destruct b; [discriminate H|]
  end.

Lemma py_max2_floor (x floor : float) :
  PrimFloat.ltb floor floor = false -> PrimFloat.ltb (py_max2 x floor) floor = false.
Proof. intros Hf. unfold py_max2. by destruct (PrimFloat.ltb x floor) eqn:Hx. Qed.

Lemma cleaning_digits (rt : runtime) (v : pyval) :
  Forall (fun c => is_digit c = true) (list_ascii_of_string (clean_document rt v))
  /\ Forall (fun c => is_digit c = true) (list_ascii_of_string (clean_zipcode rt v)).
Proof.
  unfold clean_document, clean_zipcode.
  destruct (truthy v); split; (apply filter_string_all || constructor).
Qed.

Section PayloadInvariants.
Context {W : Type}.
Variable env : environment W.
Local Abbreviation rt := (env_rt env).
Local Abbreviation cfg := (env_cfg env).

(** Every payload built declares one product and one volume.  The weight
    of the volume is never below 0.3 and the declared value never below
    10; the insured value is the declared value; the recipient's document
    is empty or a CPF that [validate_cpf] accepts; document and postal code
    hold digits only. *)
Theorem payload_floors_and_document (d : list (string * pyval)) (payload : pyval) :
  shipment_payload env (PDict d) = Ok payload ->
  exists (document postal_code name : string) (height width length : Z)
         (weight value : float),
    (try! recipient := py_get payload "to" PNone in py_get recipient "document" PNone)
    = Ok (PStr document)
    /\ (try! recipient := py_get payload "to" PNone in py_get recipient "postal_code" PNone)
       = Ok (PStr postal_code)
    /\ py_get payload "volumes" PNone
       = Ok (PList [PDict [("height", PInt height); ("width", PInt width);
                           ("length", PInt length); ("weight", PFloat weight)]])
    /\ py_get payload "products" PNone
       = Ok (PList [PDict [("name", PStr name); ("quantity", PInt 1);
                           ("unitary_value", PFloat value)]])
    /\ py_get payload "options" PNone
       = Ok (PDict [("insurance_value", PFloat value); ("receipt", PBool false);
                    ("own_hand", PBool false); ("collect", PBool false)])
    /\ PrimFloat.ltb weight weight_floor = false
    /\ PrimFloat.ltb value 10 = false
    /\ (document = "" \/ validate_cpf rt (PStr document) = true)
    /\ Forall (fun c => is_digit c = true) (list_ascii_of_string document)
    /\ Forall (fun c => is_digit c = true) (list_ascii_of_string postal_code).
Proof.
  intros H. unfold shipment_payload in H. cbn [py_get bind_outcome] in H.
  repeat payload_step H.
  injection H as <-.
  do 8 eexists.
  split; [reflexivity|]. split; [reflexivity|]. split; [reflexivity|].
  split; [reflexivity|]. split; [reflexivity|].
  split; [by apply py_max2_floor|]. split; [by apply py_max2_floor|].
  match goal with
  | |- context [clean_document rt ?v] => set (c := clean_document rt v)
  end.
  assert (Forall (fun a => is_digit a = true) (list_ascii_of_string c)) as Hc.
  { apply (proj1 (cleaning_digits rt _)). }
  split; [|split].
  - destruct (String.eqb_spec c ""); cbn [negb andb]; [by left|].
    destruct (validate_cpf rt (PStr c)) eqn:Hv; cbn [negb]; [by right|by left].
  - destruct (negb (String.eqb c "") && negb (validate_cpf rt (PStr c))); [constructor|done].
  - apply (proj2 (cleaning_digits rt _)).
Qed.
End PayloadInvariants.

(** ** Redelivery, and a decorator that makes no attempt *)

Section Composition.
Context {W : Type}.
Variable env : environment W.
Local Abbreviation rt := (env_rt env).
Local Abbreviation cfg := (env_cfg env).

(** A success is not repeated: the event that was answered "success",
    delivered again, is answered "already processed" with the status
    'shipped'; nothing is sent and nothing is written (the status lookup
    itself succeeding). *)
Theorem success_is_not_repeated (pedido order_id me_order_id tracking : pyval)
    (st st1 : state W) (w2 : W) :
  webhook_handler env pedido st = (Ok (ReplySuccess order_id me_order_id tracking), st1) ->
  db_fault env (world st1) = (None, w2) ->
  webhook_handler env pedido st1
  = (Ok (ReplyAlreadyProcessed "shipped"),
     {| db := db st1; world := w2; trace := trace st1 |}).
Proof.
  intros Hrun Hfault.
  assert (exists p k,
            normalize_order_data pedido = Ok p
            /\ py_get p "id" PNone = Ok order_id
            /\ truthy order_id = true
            /\ (exists code, py_get p "code" PNone = Ok code)
            /\ py_get p "fulfillment_status" (PStr "") = Ok (PStr "invoiced")
            /\ bind_param rt order_id = Ok (Some k)
            /\ status <$> db st1 !! k = Some "shipped")
    as (p & k & Hnorm & Hid & Htruthy & (code & Hcode) & Hful & Hk & Hrow).
  { unfold webhook_handler, try_except, bind, lift, ret in Hrun.
    destruct (normalize_order_data pedido) as [p|]; [|discriminate].
    destruct (py_get p "id" PNone) as [oid|] eqn:Hid; [|discriminate].
    destruct (py_get p "code" PNone) as [code|] eqn:Hcode; [|discriminate].
    destruct (truthy oid) eqn:Htruthy; cbn [negb] in Hrun; [|discriminate].
    destruct (py_get p "fulfillment_status" (PStr "")) as [fs|] eqn:Hful; [|discriminate].
    destruct (py_eq_str fs "invoiced") eqn:Hinv; cbn [negb] in Hrun; [|discriminate].
    assert (fs = PStr "invoiced") as ->.
    { destruct fs; try discriminate. cbn in Hinv. by apply String.eqb_eq in Hinv as ->. }
    unfold db_select_status, bind, db_connect, lift in Hrun.
    destruct (db_fault env (world st)) as [[e|] w1]; [discriminate|].
    destruct (bind_param rt oid) as [key|] eqn:Hkey; [|discriminate].
    set (looked_up := {| db := db st; world := w1; trace := trace st |}) in Hrun.
    assert ((let (o, st') := process_order env p oid looked_up in
             match o with
             | Ok a => (Ok a, st')
             | Raise e => (Ok (ReplyInternalError (str_exn e)), st')
             end) = (Ok (ReplySuccess order_id me_order_id tracking), st1)) as Hproc.
    { cbn [fst snd db] in Hrun.
      destruct (match key with Some k => status <$> db looked_up !! k | None => None end)
        as [stored|]; [|exact Hrun].
      destruct (already_processed stored); [discriminate|exact Hrun]. }
    destruct (process_order_cases env p oid looked_up)
      as [(me0 & trk0 & v & sta & stb & k & me & trk & w' & _ & _ & Hr & Hk & _ & _ & Hdb)
         | [(e & k & w' & Hr & _) | (e & Hr & _)]];
      destruct (process_order env p oid looked_up) as [[r|e'] st'];
      cbn [fst snd] in *; try discriminate; try congruence.
    injection Hproc as -> <-. injection Hr as <- _ _.
    exists p, k. repeat (split; [by eauto|]). rewrite Hdb.
    destruct (upsert_order_lookup (clock env w') k me trk "shipped" None (db looked_up))
      as (row & -> & Hs & _). cbn. by rewrite Hs. }
  unfold webhook_handler, try_except, bind, lift, ret.
  rewrite Hnorm, Hid, Hcode, Htruthy, Hful.
  cbn [negb py_eq_str String.eqb Ascii.eqb Bool.eqb].
  unfold db_select_status, bind, db_connect, lift. rewrite Hfault, Hk.
  cbn [db]. by rewrite Hrow.
Qed.

(** MAX_RETRIES at zero or below: the loop of the decorator runs no
    attempt, so that none of the three clients calls its platform; each
    raises the TypeError of [raise None] and leaves everything as it was. *)
Theorem no_attempt_without_retries (pedido order_id tracking_code : pyval) (st : state W) :
  MAX_RETRIES cfg <= 0 ->
  send_to_melhorenvio env pedido st = (Raise raise_none_error, st)
  /\ bagy_mark_shipped env order_id tracking_code st = (Raise raise_none_error, st)
  /\ bagy_mark_delivered env order_id st = (Raise raise_none_error, st).
Proof.
  intros Hmax.
  unfold send_to_melhorenvio, bagy_mark_shipped, bagy_mark_delivered, retry_on_failure.
  assert (Z.to_nat (MAX_RETRIES cfg) = O) as -> by lia. done.
Qed.
End Composition.

(** ** What the storefront is told *)

Section StorefrontTold.
Context {W : Type}.
Variable env : environment W.
Local Abbreviation rt := (env_rt env).
Local Abbreviation cfg := (env_cfg env).

(** The PUT of [bagy_mark_shipped]. *)
Definition shipped_request (order_id tracking_code : pyval) (headers : list (string * string))
    : request :=
  {| req_method := "PUT";
     req_url := BAGY_BASE cfg +:+ "/orders/" +:+ py_str rt order_id +:+ "/fulfillment/shipped";
     req_headers := headers;
     req_json := Some (PDict [("shipping_code", tracking_code);
                              ("shipping_carrier", PStr "Melhor Envio")]);
     req_timeout := REQUEST_TIMEOUT cfg |}.

(** When the decorator returns, its last call of the function returned. *)
Lemma retry_attempts_returns {A : Type} (func : M (state W) A) (max_attempts delay : Z)
    (func_name : string) :
  (forall st, exists evs, trace (func st).2 = (trace st ++ evs)%list) ->
  forall (todo : nat) (attempt : Z) (last : option exn) (st st' : state W) (v : A),
    retry_attempts emit max_attempts delay func_name func todo attempt last st = (Ok v, st') ->
    exists st0 evs,
      func st0 = (Ok v, st') /\ trace st0 = (trace st ++ evs)%list.
Proof.
  intros Hfunc todo. induction todo as [|todo IH]; intros attempt last st st' v Hrun.
  - cbn in Hrun. by destruct last.
  - cbn [retry_attempts] in Hrun. unfold try_except in Hrun.
    destruct (Hfunc st) as (evs1 & Ht1).
    destruct (func st) as [[a|e] st1] eqn:Hf; cbn [fst snd] in Ht1.
    + injection Hrun as <- <-. exists st, []. by rewrite app_nil_r.
    + unfold bind at 1 in Hrun.
      destruct (attempt <? max_attempts); unfold bind, emit_unit in Hrun; cbn in Hrun;
        apply IH in Hrun as (st0 & evs & Hok & Ht); exists st0; eexists;
        (split; [done|]); rewrite Ht; cbn [emit trace]; rewrite Ht1;
        rewrite <- !app_assoc; reflexivity.
Qed.

Lemma bagy_mark_shipped_once_returns (order_id tracking_code v : pyval) (st st' : state W) :
  bagy_mark_shipped_once env order_id tracking_code st = (Ok v, st') ->
  exists headers,
    bagy_headers env = Ok headers
    /\ trace st' = (trace st ++ [EvRequest (shipped_request order_id tracking_code headers)])%list.
Proof.
  unfold bagy_mark_shipped_once, bind, lift, raise, send.
  destruct (bagy_headers env) as [headers|]; [|discriminate].
  fold (shipped_request order_id tracking_code headers).
  destruct (http env (shipped_request order_id tracking_code headers) (world st))
    as [[r|e] w']; [|discriminate].
  destruct (resp_ok r); cbn [negb]; [|discriminate].
  destruct (response_data r); [|discriminate].
  intros [= _ <-]. by exists headers.
Qed.

(** After a "success", the last request sent is the PUT that tells the
    storefront the tracking code of the reply, on the order of the reply. *)
Theorem success_told_the_storefront (p order_id order_id' me_order_id tracking : pyval)
    (st st' : state W) :
  process_order env p order_id st = (Ok (ReplySuccess order_id' me_order_id tracking), st') ->
  order_id' = order_id
  /\ exists evs headers,
       bagy_headers env = Ok headers
       /\ trace st'
          = (trace st ++ evs ++ [EvRequest (shipped_request order_id tracking headers)])%list.
Proof.
  unfold process_order, try_except, bind. intros Hrun.
  pose proof (same_table_send_to_melhorenvio env p st) as [_ (evs1 & Ht1)].
  destruct (send_to_melhorenvio env p st) as [[[me trk]|e] st1]; cbn [fst snd] in *.
  2: { destruct (db_save env order_id PNone PNone "error" _ st1) as [[[]|?] ?];
       discriminate. }
  destruct (bagy_mark_shipped env order_id trk st1) as [[v|e] st2] eqn:Hmark.
  2: { destruct (db_save env order_id PNone PNone "error" _ st2) as [[[]|?] ?];
       discriminate. }
  destruct (db_save_table env order_id me trk "shipped" None st2) as [Ht3 _].
  destruct (db_save env order_id me trk "shipped" None st2) as [[[]|e] st3];
    cbn [fst snd ret] in *.
  2: { destruct (db_save env order_id PNone PNone "error" _ st3) as [[[]|?] ?];
       discriminate. }
  injection Hrun as <- <- <- <-. split; [done|].
  unfold bagy_mark_shipped, retry_on_failure in Hmark.
  apply retry_attempts_returns in Hmark as (st0 & evs0 & Hok & Ht0).
  2: { intros stx.
       unfold bagy_mark_shipped_once, bind, lift, raise, send.
       destruct (bagy_headers env) as [headers|]; [|exists []; by rewrite app_nil_r].
       destruct (http env _ (world stx)) as [[r|e] w']; cbn [fst snd trace]; [|by eexists].
       destruct (resp_ok r); cbn [negb fst snd trace]; [|by eexists].
       destruct (response_data r); cbn [fst snd trace]; by eexists. }
  apply bagy_mark_shipped_once_returns in Hok as (headers & Hh & Ht2).
  exists (evs1 ++ evs0)%list, headers. split; [done|].
  rewrite Ht3, Ht2, Ht0, Ht1. by rewrite <- !app_assoc.
Qed.
End StorefrontTold.

Lemma success_told_the_storefront_witness :
  PStr "A" = PStr "A"
  /\ exists evs headers,
       bagy_headers script_env = Ok headers
       /\ trace (process_order script_env invoiced_order (PStr "A") (start ∅ all_goes_well)).2
          = (trace (start ∅ all_goes_well) ++ evs
             ++ [EvRequest (shipped_request script_env (PStr "A") (PStr "BR1") headers)])%list.
Proof.
  apply (success_told_the_storefront script_env invoiced_order (PStr "A") (PStr "A")
           (PStr "me-1") (PStr "BR1") (start ∅ all_goes_well)).
  vm_compute. reflexivity.
Defined.

(** ** The statistics and the endpoints *)

(** [SELECT status, COUNT( * ) FROM orders GROUP BY status]: a row for each
    status some order has, with the number of orders that have it. *)
Definition count_status (s : string) (tbl : gmap string order_row) : Z :=
  Z.of_nat (length (filter (fun kr => status kr.2 = s) (map_to_list tbl))).

Definition status_counts (tbl : gmap string order_row) : list (string * Z) :=
  map (fun s => (s, count_status s tbl))
      (remove_dups (map (fun kr => status kr.2) (map_to_list tbl))).

(** [bool(TOKEN)] *)
Definition token_set (token : option string) : bool :=
  match token with
  | Some t => negb (String.eqb t "")
  | None => false
  end.

(** The answers of /health (the path of the database file is left out) and
    of /stats. *)
Inductive health_reply : Type :=
  | HealthReport (health_status : string) (timestamp : Z)
      (bagy_token_configured melhorenvio_token_configured : bool)
      (sender_zipcode : string) (service_id tracker_interval : Z)
      (stats : gmap string Z)
  | HealthUnhealthy (error : string).

Definition health_code (r : health_reply) : Z :=
  match r with
  | HealthReport _ _ _ _ _ _ _ _ => 200
  | HealthUnhealthy _ => 500
  end.

Inductive stats_reply : Type :=
  | StatsReport (statistics : gmap string Z) (timestamp : Z)
  | StatsError (error : string).

Definition stats_code (r : stats_reply) : Z :=
  match r with
  | StatsReport _ _ => 200
  | StatsError _ => 500
  end.

(** What Flask hands to the view: [request.method], [request.args] and
    [request.json], which raises on a body that is not JSON. *)
Record web_request : Type := {
  request_method : string;
  request_args : list (string * string);
  request_json : outcome pyval
}.

(** [request.args.get(k)] *)
Definition args_get (args : list (string * string)) (k : string) : pyval :=
  match find (fun kv => String.eqb kv.1 k) args with
  | Some kv => PStr kv.2
  | None => PNone
  end.

(** The answers of the webhook route: its own three, and the handler's. *)
Inductive route_reply : Type :=
  | RouteMissingOrder
  | RouteLookupFailed (error : string)
  | RouteHandled (r : reply)
  | RouteFailed (error : string).

Definition route_status (r : route_reply) : Z :=
  match r with
  | RouteMissingOrder => 400
  | RouteLookupFailed _ => 500
  | RouteHandled r => reply_status r
  | RouteFailed _ => 500
  end.

(** The order of /test-webhook; [stamp] is the time of the call, as
    [strftime] prints it. *)
Definition test_order (stamp : string) : pyval :=
  PDict [("id", PStr ("TEST-" +:+ stamp));
         ("fulfillment_status", PStr "invoiced");
         ("total", PFloat 150);
         ("customer", PDict [("name", PStr "Cliente Teste");
                             ("email", PStr "teste@example.com");
                             ("phone", PStr "11999999999");
                             ("document", PStr "12345678909")]);
         ("address", PDict [("street", PStr "Avenida Paulista");
                            ("number", PStr "1000");
                            ("complement", PStr "Apto 45");
                            ("district", PStr "Bela Vista");
                            ("city", PStr "São Paulo");
                            ("state", PStr "SP");
                            ("zipcode", PStr "01310-100")]);
         ("items", PList [PDict [("name", PStr "Produto Teste");
                                 ("quantity", PInt 1);
                                 ("price", PFloat 150);
                                 ("weight", PFloat 0.5);
                                 ("length", PInt 20);
                                 ("width", PInt 15);
                                 ("height", PInt 10)]])].

Section Endpoints.
Context {W : Type}.
Variable env : environment W.
Local Abbreviation rt := (env_rt env).
Local Abbreviation cfg := (env_cfg env).
(** [bagy_get_order], which the GET branch of the route calls and main.py
    does not define: whatever it does, it is a function of the order id. *)
Variable bagy_get_order : pyval -> M (state W) pyval.
(** [strftime("%Y%m%d-%H%M%S")] of the clock's reading. *)
Variable strftime : Z -> string.

(** On any exception [db_stats] returns the empty dict. *)
Definition db_stats : M (state W) (gmap string Z) :=
  try_except
    (run! db_connect env in
     fun st =>
       let stats := foldl (fun stats sc => <[sc.1 := sc.2]> stats) ∅ (status_counts (db st)) in
       let stats := <["total" := Z.of_nat (size (db st))]> stats in
       (Ok stats, st))
    (fun _ => ret ∅).

Definition health : M (state W) health_reply :=
  try_except
    (let! stats := db_stats in
     let config_ok := token_set (BAGY_TOKEN cfg) && token_set (MELHORENVIO_TOKEN cfg) in
     fun st =>
       (Ok (HealthReport (if config_ok then "healthy" else "degraded")
              (clock env (world st))
              (token_set (BAGY_TOKEN cfg)) (token_set (MELHORENVIO_TOKEN cfg))
              (SENDER_ZIPCODE cfg) (SERVICE_ID cfg) (TRACKER_INTERVAL cfg) stats),
        st))
    (fun e => ret (HealthUnhealthy (str_exn e))).

Definition stats_endpoint : M (state W) stats_reply :=
  try_except
    (let! stats := db_stats in
     fun st => (Ok (StatsReport stats (clock env (world st))), st))
    (fun e => ret (StatsError (str_exn e))).

Definition webhook (req : web_request) : M (state W) route_reply :=
  try_except
    (if String.eqb (request_method req) "GET" then
       let order_id :=
         py_or (args_get (request_args req) "order") (args_get (request_args req) "id") in
       if negb (truthy order_id) then ret RouteMissingOrder
       else
         let! fetched :=
           try_except
             (let! pedido := bagy_get_order order_id in ret (inl pedido))
             (fun e => ret (inr (RouteLookupFailed ("Erro ao buscar pedido: " +:+ str_exn e)))) in
         match fetched with
         | inl pedido => let! r := webhook_handler env pedido in ret (RouteHandled r)
         | inr r => ret r
         end
     else
       let! body := lift (request_json req) in
       let! r := webhook_handler env (py_or body (PDict [])) in
       ret (RouteHandled r))
    (fun e => ret (RouteFailed (str_exn e))).

Definition test_webhook : M (state W) reply :=
  fun st => webhook_handler env (test_order (strftime (clock env (world st)))) st.
End Endpoints.

Lemma foldl_insert_other (l : list (string * Z)) (m : gmap string Z) (s : string) :
  s ∉ l.*1 ->
  foldl (fun stats sc => <[sc.1 := sc.2]> stats) m l !! s = m !! s.
Proof.
  revert m. induction l as [|[s0 c0] l IH]; intros m Hs; [done|].
  cbn in Hs. apply not_elem_of_cons in Hs as [Hne Hs].
  cbn [foldl]. rewrite IH by done. cbn. by rewrite lookup_insert_ne.
Qed.

Lemma foldl_insert_in (l : list (string * Z)) (m : gmap string Z) (s : string) (c : Z) :
  NoDup l.*1 -> (s, c) ∈ l ->
  foldl (fun stats sc => <[sc.1 := sc.2]> stats) m l !! s = Some c.
Proof.
  revert m. induction l as [|[s0 c0] l IH]; intros m Hnd Hin.
  - by apply elem_of_nil in Hin.
  - cbn in Hnd. apply NoDup_cons in Hnd as [Hs0 Hnd]. cbn [foldl].
    apply elem_of_cons in Hin as [[= -> ->]|Hin].
    + rewrite foldl_insert_other by done. cbn. by rewrite lookup_insert_eq.
    + by apply IH.
Qed.

Lemma count_status_zero (s : string) (tbl : gmap string order_row) :
  count_status s tbl = 0 <-> forall k r, tbl !! k = Some r -> status r <> s.
Proof.
  unfold count_status. split.
  - intros Hz k r Hr Hs.
    assert ((k, r) ∈ filter (fun kr => status kr.2 = s) (map_to_list tbl)) as Hin.
    { apply list_elem_of_filter. split; [done|]. by apply elem_of_map_to_list. }
    destruct (filter _ (map_to_list tbl)); [by apply elem_of_nil in Hin|]. cbn in Hz. lia.
  - intros Hnone.
    destruct (filter (fun kr => status kr.2 = s) (map_to_list tbl)) as [|[k r] l] eqn:Hf;
      [done|].
    assert ((k, r) ∈ filter (fun kr => status kr.2 = s) (map_to_list tbl)) as Hin
      by (rewrite Hf; by left).
    apply list_elem_of_filter in Hin as [Hs Hin]. apply elem_of_map_to_list in Hin.
    by destruct (Hnone k r Hin).
Qed.

Lemma status_counts_spec (tbl : gmap string order_row) (s : string) (c : Z) :
  (s, c) ∈ status_counts tbl <-> c = count_status s tbl /\ c <> 0.
Proof.
  unfold status_counts. rewrite list_elem_of_In, in_map_iff. split.
  - intros (s' & [= -> <-] & Hin). split; [done|].
    apply list_elem_of_In, elem_of_remove_dups, list_elem_of_In, in_map_iff in Hin
      as ([k r] & Hs & Hin%list_elem_of_In%elem_of_map_to_list).
    rewrite count_status_zero. intros Hnone. by destruct (Hnone k r Hin).
  - intros [-> Hne]. exists s. split; [done|].
    apply list_elem_of_In, elem_of_remove_dups, list_elem_of_In, in_map_iff.
    destruct (filter (fun kr => status kr.2 = s) (map_to_list tbl)) as [|[k r] l] eqn:Hf.
    { unfold count_status in Hne. by rewrite Hf in Hne. }
    assert ((k, r) ∈ filter (fun kr => status kr.2 = s) (map_to_list tbl)) as Hin
      by (rewrite Hf; by left).
    apply list_elem_of_filter in Hin as [Hs Hin].
    exists (k, r). split; [done|]. by apply list_elem_of_In.
Qed.

Lemma status_counts_NoDup (tbl : gmap string order_row) : NoDup (status_counts tbl).*1.
Proof.
  unfold status_counts.
  assert (forall l : list string, (map (fun s => (s, count_status s tbl)) l).*1 = l) as ->.
  { induction l as [|? ? IH]; cbn; [done|]. by rewrite IH. }
  apply NoDup_remove_dups.
Qed.

Section EndpointProperties.
Context {W : Type}.
Variable env : environment W.
Local Abbreviation rt := (env_rt env).
Local Abbreviation cfg := (env_cfg env).

Lemma db_stats_total (st : state W) :
  exists stats st',
    db_stats env st = (Ok stats, st')
    /\ db st' = db st
    /\ trace st' = trace st
    /\ world st' = (db_fault env (world st)).2
    /\ match (db_fault env (world st)).1 with
       | Some _ => stats = ∅
       | None =>
           stats !! "total" = Some (Z.of_nat (size (db st)))
           /\ forall s, s <> "total" ->
                stats !! s
                = if count_status s (db st) =? 0 then None
                  else Some (count_status s (db st))
       end.
Proof.
  unfold db_stats, try_except, bind, db_connect, ret.
  destruct (db_fault env (world st)) as [[e|] w']; cbn [fst snd]; [by eauto 10|].
  do 2 eexists. split; [reflexivity|]. cbn [db trace world]. repeat (split; [done|]).
  split; [by rewrite lookup_insert_eq|].
  intros s Hs. rewrite lookup_insert_ne by done.
  destruct (Z.eqb_spec (count_status s (db st)) 0) as [Hz|Hnz].
  - rewrite foldl_insert_other; [done|].
    intros ([s' c] & -> & Hin)%list_elem_of_fmap. cbn in Hz.
    apply status_counts_spec in Hin as [-> Hne]. done.
  - apply foldl_insert_in; [apply status_counts_NoDup|]. by apply status_counts_spec.
Qed.

(** [db_stats] never raises and changes nothing.  When the database
    answers, its dict maps 'total' to the number of orders and every other
    status that some order has to the number of the orders that have it (a
    status no order has is not a key); when the database fails the dict is
    empty. *)
Theorem db_stats_counts (st : state W) :
  exists stats st',
    db_stats env st = (Ok stats, st')
    /\ db st' = db st
    /\ trace st' = trace st
    /\ match (db_fault env (world st)).1 with
       | Some _ => stats = ∅
       | None =>
           stats !! "total" = Some (Z.of_nat (size (db st)))
           /\ forall s, s <> "total" ->
                stats !! s
                = if count_status s (db st) =? 0 then None
                  else Some (count_status s (db st))
       end.
Proof.
  destruct (db_stats_total st) as (stats & st' & H1 & H2 & H3 & _ & H4). eauto 10.
Qed.

(** /health and /stats never answer 500.  /health reports 'healthy' when
    both tokens are set and 'degraded' otherwise, and a database that fails
    shows in neither endpoint but as empty statistics. *)
Theorem health_never_unhealthy (st : state W) :
  (exists stats st',
     health env st
     = (Ok (HealthReport
              (if token_set (BAGY_TOKEN cfg) && token_set (MELHORENVIO_TOKEN cfg)
               then "healthy" else "degraded")
              (clock env (world st'))
              (token_set (BAGY_TOKEN cfg)) (token_set (MELHORENVIO_TOKEN cfg))
              (SENDER_ZIPCODE cfg) (SERVICE_ID cfg) (TRACKER_INTERVAL cfg) stats),
        st')
     /\ db st' = db st
     /\ (is_Some (db_fault env (world st)).1 -> stats = ∅))
  /\ (exists stats st',
        stats_endpoint env st = (Ok (StatsReport stats (clock env (world st'))), st')
        /\ db st' = db st
        /\ (is_Some (db_fault env (world st)).1 -> stats = ∅)).
Proof.
  destruct (db_stats_total st) as (stats & st' & Hs & Hdb & _ & _ & Hstats).
  assert (is_Some (db_fault env (world st)).1 -> stats = ∅) as Hfail.
  { intros [e He]. by rewrite He in Hstats. }
  split; exists stats, st'; (split; [|by split]).
  - unfold health, try_except, bind. by rewrite Hs.
  - unfold stats_endpoint, try_except, bind. by rewrite Hs.
Qed.

Section Route.
Variable bagy_get_order : pyval -> M (state W) pyval.

(** The webhook route always answers.  A GET with neither "order" nor "id"
    (or with empty values) is answered 400 and changes nothing; a GET whose
    order lookup raises is answered 500 and the handler is not run; a POST
    whose JSON content is empty (null, {}, [], 0) is answered the 400 of the
    handler for a missing id and changes nothing; a POST with content goes to
    the handler as it is; and only a body that does not read as JSON gives
    the 500 of the route itself. *)
Theorem webhook_route (req : web_request) (st : state W) :
  let order_id :=
    py_or (args_get (request_args req) "order") (args_get (request_args req) "id") in
  let run := webhook env bagy_get_order req st in
  (exists r, run.1 = Ok r)
  /\ (request_method req = "GET" -> truthy order_id = false ->
      run = (Ok RouteMissingOrder, st))
  /\ (request_method req = "GET" -> truthy order_id = true ->
      forall e st', bagy_get_order order_id st = (Raise e, st') ->
      run = (Ok (RouteLookupFailed ("Erro ao buscar pedido: " +:+ str_exn e)), st'))
  /\ (request_method req <> "GET" ->
      forall body, request_json req = Ok body -> truthy body = false ->
      run = (Ok (RouteHandled ReplyMissingId), st))
  /\ (request_method req <> "GET" ->
      forall body, request_json req = Ok body -> truthy body = true ->
      exists r,
        (webhook_handler env body st).1 = Ok r
        /\ run = (Ok (RouteHandled r), (webhook_handler env body st).2))
  /\ (forall msg, run.1 = Ok (RouteFailed msg) ->
      request_method req <> "GET"
      /\ exists e, request_json req = Raise e /\ msg = str_exn e).
Proof.
  cbv zeta.
  set (order_id := py_or (args_get (request_args req) "order")
                     (args_get (request_args req) "id")).
  assert (forall pedido stx,
            exists r, webhook_handler env pedido stx
                      = (Ok r, (webhook_handler env pedido stx).2)) as Hhandler.
  { intros pedido stx. destruct (webhook_handler_cases env pedido stx) as (r & Hr & _).
    exists r. destruct (webhook_handler env pedido stx). cbn in Hr. by rewrite Hr. }
  unfold webhook, try_except, bind, lift, ret. fold order_id.
  destruct (String.eqb_spec (request_method req) "GET") as [Hget|Hpost].
  - destruct (truthy order_id) eqn:Hid; cbn [negb].
    + destruct (bagy_get_order order_id st) as [[pedido|e] st1] eqn:Hlookup.
      * destruct (Hhandler pedido st1) as (r & Hr). rewrite Hr. cbn [fst snd].
        split; [by eexists|]. split; [done|]. split; [by intros _ _ e st' [=]|].
        split; [done|]. split; [done|]. intros msg [=].
      * cbn [fst snd]. split; [by eexists|]. split; [done|].
        split; [by intros _ _ e' st' [= <- <-]|]. split; [done|]. split; [done|].
        intros msg [=].
    + cbn [fst snd]. split; [by eexists|]. split; [done|]. split; [done|].
      split; [done|]. split; [done|]. intros msg [=].
  - destruct (request_json req) as [body|e] eqn:Hbody.
    + destruct (Hhandler (py_or body (PDict [])) st) as (r & Hr). rewrite Hr. cbn [fst snd].
      split; [by eexists|]. split; [done|]. split; [done|]. split; [|split].
      * intros _ body' [= <-] Hfalsy. unfold py_or in Hr |- *. rewrite Hfalsy in Hr |- *.
        assert (webhook_handler env (PDict []) st = (Ok ReplyMissingId, st)) as Hempty
          by reflexivity.
        rewrite Hempty in Hr. by injection Hr as <-.
      * intros _ body' [= <-] Htruthy. unfold py_or in Hr |- *. rewrite Htruthy in Hr |- *.
        exists r. by rewrite Hr.
      * intros msg [=].
    + cbn [fst snd]. split; [by eexists|]. split; [done|]. split; [done|].
      split; [by intros _ body [=]|]. split; [by intros _ body [=]|].
      intros msg [= <-]. split; [done|]. by exists e.
Qed.
End Route.

(** The order of /test-webhook passes every test of the pipeline up to the
    request: whatever the time of the call and the settings, its payload is
    built, with the CPF 12345678909 kept as the recipient's document, the
    postal code 01310100, a volume of 0.5 kg and 10 x 15 x 20, and 150 as
    declared and insured value; and the handler answers neither "missing id"
    nor "ignored". *)
Theorem test_order_is_sendable (strftime : Z -> string) (stamp : string) (st : state W) :
  (exists payload,
     shipment_payload env (test_order stamp) = Ok payload
     /\ (try! recipient := py_get payload "to" PNone in py_get recipient "document" PNone)
        = Ok (PStr "12345678909")
     /\ (try! recipient := py_get payload "to" PNone in py_get recipient "postal_code" PNone)
        = Ok (PStr "01310100")
     /\ py_get payload "volumes" PNone
        = Ok (PList [PDict [("height", PInt 10); ("width", PInt 15); ("length", PInt 20);
                            ("weight", PFloat 0.5)]])
     /\ py_get payload "options" PNone
        = Ok (PDict [("insurance_value", PFloat 150); ("receipt", PBool false);
                     ("own_hand", PBool false); ("collect", PBool false)]))
  /\ match (test_webhook env strftime st).1 with
     | Ok (ReplyAlreadyProcessed _) | Ok (ReplySuccess _ _ _) | Ok (ReplyError _ _)
     | Ok (ReplyInternalError _) => True
     | _ => False
     end.
Proof.
  split.
  - eexists. split; [vm_compute; reflexivity|]. repeat split; reflexivity.
  - unfold test_webhook. set (stamp' := strftime _).
    unfold webhook_handler, try_except, bind, lift, ret.
    cbn -[db_select_status process_order already_processed].
    change (String.eqb ("TEST-" +:+ stamp') "") with false. cbn [negb]. cbv beta.
    match goal with
    | |- context [db_select_status env ?oid st] =>
        destruct (db_select_status env oid st) as [[[stored|]|e] st1]; cbn [fst snd];
        [destruct (already_processed stored); [done|]| |done];
        match goal with
        | |- context [process_order env ?p oid st1] =>
            destruct (process_order_cases env p oid st1)
              as [(? & ? & ? & ? & ? & ? & ? & ? & ? & _ & _ & Hr & _)
                 | [(? & ? & ? & Hr & _) | (? & Hr & _)]];
            destruct (process_order env p oid st1) as [[r|?] ?]; cbn [fst snd] in *;
            try discriminate; try done; injection Hr as ->; done
        end
    end.
Qed.
End EndpointProperties.

(** ** The further properties at concrete inputs *)

(** The row of the order A after the event, and after the round. *)
Definition shipped_row : order_row :=
  {| melhorenvio_order_id := Some "me-1"; tracking_code := Some "BR1";
     status := "shipped"; created_at := 2; updated_at := 2;
     delivered_at := None; retry_count := 0; last_error := None |}.

Definition delivered_row : order_row :=
  {| melhorenvio_order_id := Some "me-1"; tracking_code := Some "BR1";
     status := "delivered"; created_at := 2; updated_at := 4;
     delivered_at := Some 4; retry_count := 0; last_error := None |}.

Lemma reply_tells_the_store_witness :
  exists k row,
    bind_param plain_runtime (PStr "A") = Ok (Some k)
    /\ db after_event !! k = Some row
    /\ status row = "shipped"
    /\ last_error row = None
    /\ retry_count row
       = match db (start ∅ all_goes_well) !! k with Some old => retry_count old | None => 0 end
    /\ (forall t, bind_param plain_runtime (PStr "BR1") = Ok (Some t) ->
        tracking_code row = Some t)
    /\ (forall m, bind_param plain_runtime (PStr "me-1") = Ok (Some m) ->
        melhorenvio_order_id row = Some m).
Proof.
  apply (reply_tells_the_store script_env invoiced_order (start ∅ all_goes_well) after_event
           (ReplySuccess (PStr "A") (PStr "me-1") (PStr "BR1"))).
  vm_compute. reflexivity.
Defined.

Lemma shipped_means_acknowledged_witness :
  exists me_order_id tracking v st1 st2,
    send_to_melhorenvio script_env invoiced_order (start ∅ all_goes_well)
    = (Ok (me_order_id, tracking), st1)
    /\ bagy_mark_shipped script_env (PStr "A") tracking st1 = (Ok v, st2)
    /\ (process_order script_env invoiced_order (PStr "A") (start ∅ all_goes_well)).1
       = Ok (ReplySuccess (PStr "A") me_order_id tracking).
Proof.
  apply (shipped_means_acknowledged script_env invoiced_order (PStr "A")
           (start ∅ all_goes_well) "A" shipped_row).
  - vm_compute. reflexivity.
  - reflexivity.
  - intros old Hold. vm_compute in Hold. discriminate Hold.
Defined.

(** The carrier reports the delivery and the storefront accepts. *)
Definition carrier_reports : script :=
  {| answers := [delivered_answer; json_response 200 (PDict [])]; faults := []; now := 10 |}.

Lemma delivered_means_reported_witness :
  "A" = "A"
  /\ exists st1 st2 v,
       truthy (py_of_text (Some "me-1")) = true
       /\ melhorenvio_check_delivered script_env (py_of_text (Some "me-1"))
            (start shipped_once carrier_reports) = (Ok true, st1)
       /\ bagy_mark_delivered script_env (PStr "A") st1 = (Ok v, st2).
Proof.
  eapply (delivered_means_reported script_env "A" "A" (Some "me-1") (Some "BR1")
            (start shipped_once carrier_reports)).
  - vm_compute. reflexivity.
  - reflexivity.
  - intros old Hold. vm_compute in Hold. injection Hold as <-. discriminate.
Defined.

Lemma scan_leaves_the_rest_witness :
  db (tracking_scan script_env (start worn_out quiet)).2 !! "A"
  = db (start worn_out quiet) !! "A".
Proof.
  apply (scan_leaves_the_rest script_env (start worn_out quiet) "A").
  intros r Hr. vm_compute in Hr. injection Hr as <-. reflexivity.
Defined.


Lemma stored_rows_well_formed_witness :
  known_status (status delivered_row)
  /\ 0 <= retry_count delivered_row
  /\ (is_Some (last_error delivered_row)
      <-> status delivered_row = "error" \/ status delivered_row = "created").
Proof.
  apply (stored_rows_well_formed script_env (at_rest after_scan) "A" delivered_row).
  - apply after_scan_reachable.
  - vm_compute. reflexivity.
Defined.

(** The event for the order A comes again once the order is delivered and
    no run is in progress. *)
Lemma delivered_is_final_witness :
  db (webhook_handler script_env invoiced_order after_scan).2 !! "A" = Some delivered_row
  /\ no_run_for script_env "A" [].
Proof.
  apply (delivered_is_final script_env (at_rest after_scan)
           (at_rest (webhook_handler script_env invoiced_order after_scan).2) "A"
           delivered_row).
  - apply after_scan_reachable.
  - vm_compute. reflexivity.
  - reflexivity.
  - constructor.
  - apply webhook_handler_steps.
Defined.

(** An invoiced order with a customer and no address. *)
Definition no_address : pyval :=
  PDict [("id", PStr "A"); ("fulfillment_status", PStr "invoiced");
         ("customer", PDict [("name", PStr "Ana")])].

Lemma unsendable_order_sends_nothing_witness :
  exists evs,
    send_to_melhorenvio script_env no_address (start ∅ quiet)
    = (Raise (mk_exn ValueError "Endereço de entrega não encontrado no pedido"),
       {| db := ∅; world := quiet; trace := ([] ++ evs)%list |})
    /\ requests_made evs = 0
    /\ seconds_slept evs = 2 * (3 - 1).
Proof.
  apply (unsendable_order_sends_nothing script_env no_address
           (mk_exn ValueError "Endereço de entrega não encontrado no pedido") (start ∅ quiet)).
  - vm_compute. reflexivity.
  - vm_compute. discriminate.
Defined.

Lemma unusable_order_refused_witness :
  shipment_payload script_env no_address
  = Raise (mk_exn ValueError "Endereço de entrega não encontrado no pedido").
Proof.
  apply (proj1 (unusable_order_refused script_env
                  [("id", PStr "A"); ("fulfillment_status", PStr "invoiced");
                   ("customer", PDict [("name", PStr "Ana")])])).
  reflexivity.
Defined.

(** The payload of [invoiced_order]. *)
Definition invoiced_payload : pyval :=
  match shipment_payload script_env invoiced_order with
  | Ok payload => payload
  | Raise _ => PNone
  end.

Lemma payload_floors_and_document_witness :
  exists (document postal_code name : string) (height width length : Z)
         (weight value : float),
    (try! recipient := py_get invoiced_payload "to" PNone in
     py_get recipient "document" PNone) = Ok (PStr document)
    /\ (try! recipient := py_get invoiced_payload "to" PNone in
        py_get recipient "postal_code" PNone) = Ok (PStr postal_code)
    /\ py_get invoiced_payload "volumes" PNone
       = Ok (PList [PDict [("height", PInt height); ("width", PInt width);
                           ("length", PInt length); ("weight", PFloat weight)]])
    /\ py_get invoiced_payload "products" PNone
       = Ok (PList [PDict [("name", PStr name); ("quantity", PInt 1);
                           ("unitary_value", PFloat value)]])
    /\ py_get invoiced_payload "options" PNone
       = Ok (PDict [("insurance_value", PFloat value); ("receipt", PBool false);
                    ("own_hand", PBool false); ("collect", PBool false)])
    /\ PrimFloat.ltb weight weight_floor = false
    /\ PrimFloat.ltb value 10 = false
    /\ (document = "" \/ validate_cpf plain_runtime (PStr document) = true)
    /\ Forall (fun c => is_digit c = true) (list_ascii_of_string document)
    /\ Forall (fun c => is_digit c = true) (list_ascii_of_string postal_code).
Proof.
  apply (payload_floors_and_document script_env
           [("id", PStr "A"); ("fulfillment_status", PStr "invoiced"); ("total", PInt 150);
            ("customer", PDict [("name", PStr "Ana"); ("document", PStr "123.456.789-09")]);
            ("address", PDict [("street", PStr "Avenida Paulista");
                               ("zipcode", PStr "01310-100")]);
            ("items", PList [])]
           invoiced_payload).
  vm_compute. reflexivity.
Defined.

Lemma success_is_not_repeated_witness :
  webhook_handler script_env invoiced_order after_event
  = (Ok (ReplyAlreadyProcessed "shipped"),
     {| db := db after_event; world := world after_event; trace := trace after_event |}).
Proof.
  apply (success_is_not_repeated script_env invoiced_order (PStr "A") (PStr "me-1")
           (PStr "BR1") (start ∅ all_goes_well) after_event (world after_event)).
  - vm_compute. reflexivity.
  - vm_compute. reflexivity.
Defined.

(** The settings with another MAX_RETRIES. *)
Definition with_max_retries (n : Z) (c : config) : config := {|
  BAGY_TOKEN := BAGY_TOKEN c;
  MELHORENVIO_TOKEN := MELHORENVIO_TOKEN c;
  BAGY_BASE := BAGY_BASE c;
  MELHORENVIO_BASE := MELHORENVIO_BASE c;
  SENDER_NAME := SENDER_NAME c;
  SENDER_PHONE := SENDER_PHONE c;
  SENDER_EMAIL := SENDER_EMAIL c;
  SENDER_DOCUMENT := SENDER_DOCUMENT c;
  SENDER_ADDRESS := SENDER_ADDRESS c;
  SENDER_COMPLEMENT := SENDER_COMPLEMENT c;
  SENDER_NUMBER := SENDER_NUMBER c;
  SENDER_DISTRICT := SENDER_DISTRICT c;
  SENDER_CITY := SENDER_CITY c;
  SENDER_STATE := SENDER_STATE c;
  SENDER_ZIPCODE := SENDER_ZIPCODE c;
  SERVICE_ID := SERVICE_ID c;
  TRACKER_INTERVAL := TRACKER_INTERVAL c;
  MAX_RETRIES := n;
  REQUEST_TIMEOUT := REQUEST_TIMEOUT c
|}.

Definition no_retries_env : environment script := {|
  env_rt := plain_runtime;
  env_cfg := with_max_retries 0 default_config;
  http := script_http;
  db_fault := script_db_fault;
  clock := now
|}.

Lemma no_attempt_without_retries_witness :
  send_to_melhorenvio no_retries_env invoiced_order (start ∅ all_goes_well)
  = (Raise raise_none_error, start ∅ all_goes_well)
  /\ bagy_mark_shipped no_retries_env (PStr "A") (PStr "BR1") (start ∅ all_goes_well)
     = (Raise raise_none_error, start ∅ all_goes_well)
  /\ bagy_mark_delivered no_retries_env (PStr "A") (start ∅ all_goes_well)
     = (Raise raise_none_error, start ∅ all_goes_well).
Proof.
  apply (no_attempt_without_retries no_retries_env invoiced_order (PStr "A") (PStr "BR1")
           (start ∅ all_goes_well)).
  vm_compute. discriminate.
Defined.

Lemma scan_budget_witness :
  let st := start two_shipped storefront_refuses_first in
  let selected := Z.of_nat (length (select_pending 3 (db st))) in
  exists evs,
    trace (tracking_scan script_env st).2 = (trace st ++ evs)%list
    /\ requests_made evs <= selected * (1 + Z.max 0 3)
    /\ seconds_slept evs <= selected * (2 + 2 * Z.max 0 (3 - 1)) + 600.
Proof.
  apply (scan_budget script_env (start two_shipped storefront_refuses_first)).
  vm_compute. discriminate.
Defined.

(** ** Orders stored without a shipment id *)

Section WithoutShipmentId.
Context {W : Type}.
Variable env : environment W.
Local Abbreviation cfg := (env_cfg env).

Lemma check_order_skip (k : string) (me trk : option string) (st : state W) :
  truthy (py_of_text me) = false ->
  check_order env (k, me, trk) st = (Ok tt, emit (EvSleep 2) st).
Proof.
  intros Hme. unfold check_order, bind, try_except, check_delivery, bind. by rewrite Hme.
Qed.

Lemma for_each_skip (rows : list (string * option string * option string)) (st : state W) :
  (forall row, row ∈ rows -> truthy (py_of_text row.1.2) = false) ->
  exists evs,
    for_each rows (check_order env) st
    = (Ok tt, {| db := db st; world := world st; trace := (trace st ++ evs)%list |})
    /\ requests_made evs = 0.
Proof.
  revert st. induction rows as [|[[k me] trk] rows IH]; intros st Hrows.
  - exists []. rewrite app_nil_r. by destruct st.
  - cbn [for_each]. unfold bind.
    rewrite check_order_skip by (apply (Hrows (k, me, trk)); by left).
    destruct (IH (emit (EvSleep 2) st)) as (evs & -> & Hr).
    { intros row Hin. apply Hrows. by right. }
    exists (EvSleep 2 :: evs). cbn [emit db world trace]. rewrite <- app_assoc.
    split; [done|]. unfold requests_made in *.
    change (cost request_count (EvSleep 2 :: evs)) with (0 + cost request_count evs). lia.
Qed.

(** An order stored without a shipment id (NULL, or the empty text the
    carrier's answer may carry) is selected by the scan like any other and
    never checked: when no selected order has one, the round sends no
    request and leaves the table as it was. *)
Theorem scan_without_shipment_ids (st : state W) :
  (forall k r,
     db st !! k = Some r -> is_pending (MAX_RETRIES cfg) r = true ->
     melhorenvio_order_id r = None \/ melhorenvio_order_id r = Some "") ->
  exists evs,
    trace (tracking_scan env st).2 = (trace st ++ evs)%list
    /\ requests_made evs = 0
    /\ db (tracking_scan env st).2 = db st.
Proof.
  intros Hids. unfold tracking_scan, bind, try_except.
  destruct (db_pending_total env st) as (rows & st1 & Hp & Hdb & Htr & Hrows). rewrite Hp.
  destruct (for_each_skip rows st1) as (evs & -> & Hr).
  { intros row Hin. destruct Hrows as [-> | ->]; [|by apply elem_of_nil in Hin].
    apply select_pending_spec in Hin as (r & Hrow & Hpend & ->). cbn [fst snd].
    by destruct (Hids _ r Hrow Hpend) as [-> | ->]. }
  exists (evs ++ [EvSleep (TRACKER_INTERVAL cfg)])%list.
  unfold sleep, emit_unit, emit. cbn [fst snd db trace]. rewrite Htr, app_assoc.
  split; [done|]. split; [|done].
  unfold requests_made in *. rewrite cost_app, Hr. done.
Qed.
End WithoutShipmentId.

(** The order A, shipped with a tracking code and an empty shipment id. *)
Definition shipped_without_id : gmap string order_row :=
  {[ "A" := {| melhorenvio_order_id := Some ""; tracking_code := Some "BR1";
               status := "shipped"; created_at := 1; updated_at := 1;
               delivered_at := None; retry_count := 0; last_error := None |} ]}.

Lemma scan_without_shipment_ids_witness :
  exists evs,
    trace (tracking_scan script_env (start shipped_without_id carrier_reports)).2
    = (trace (start shipped_without_id carrier_reports) ++ evs)%list
    /\ requests_made evs = 0
    /\ db (tracking_scan script_env (start shipped_without_id carrier_reports)).2
       = db (start shipped_without_id carrier_reports).
Proof.
  apply (scan_without_shipment_ids script_env (start shipped_without_id carrier_reports)).
  intros k r Hr _. cbn [start db] in Hr. unfold shipped_without_id in Hr.
  apply lookup_singleton_Some in Hr as [_ <-]. by right.
Defined.

(** ** The two formats of an event, an event without id, and retries that
    are not reset *)

Lemma py_index_dict_has (w : list (string * pyval)) (k : string) (v : pyval) :
  py_index (PDict w) k = Ok v -> dict_has w k = true.
Proof.
  unfold py_index, dict_has.
  destruct (find (fun kv => String.eqb kv.1 k) w) as [kv|] eqn:Hfind; [|discriminate].
  intros _. apply find_some in Hfind as [Hin Hk]. apply existsb_exists. eauto.
Qed.

Section EventFormats.
Context {W : Type}.
Variable env : environment W.
Local Abbreviation rt := (env_rt env).
Local Abbreviation cfg := (env_cfg env).

(** The handler treats an event in the format {"event": ..., "data":
    order} as it treats the bare order, when the order is not itself in that
    format. *)
Theorem wrapped_event_handled_as_bare (w d : list (string * pyval)) (st : state W) :
  dict_has w "event" = true ->
  py_index (PDict w) "data" = Ok (PDict d) ->
  dict_has d "event" && dict_has d "data" = false ->
  webhook_handler env (PDict w) st = webhook_handler env (PDict d) st.
Proof.
  intros Hevent Hdata Hbare.
  assert (normalize_order_data (PDict w) = Ok (PDict d)) as Hw.
  { unfold normalize_order_data. cbn [py_contains bind_outcome].
    rewrite Hevent, (py_index_dict_has w "data" (PDict d) Hdata). done. }
  assert (normalize_order_data (PDict d) = Ok (PDict d)) as Hd.
  { unfold normalize_order_data. cbn [py_contains bind_outcome].
    destruct (dict_has d "event"); [|done]. cbn in Hbare. by rewrite Hbare. }
  unfold webhook_handler. by rewrite Hw, Hd.
Qed.

(** An event whose order has no id, or an id that is falsy (null, 0, the
    empty string), is answered 400; nothing is sent, nothing is written. *)
Theorem event_without_id_refused (pedido : pyval) (d : list (string * pyval))
    (st : state W) :
  normalize_order_data pedido = Ok (PDict d) ->
  truthy (dict_get d "id" PNone) = false ->
  webhook_handler env pedido st = (Ok ReplyMissingId, st)
  /\ reply_status ReplyMissingId = 400.
Proof.
  intros Hnorm Hid. split; [|done].
  unfold webhook_handler, try_except, bind, lift, ret. rewrite Hnorm. cbn [py_get].
  by rewrite Hid.
Qed.

(** A success does not reset the retries.  An order that had failed
    2 x MAX_RETRIES times or more before the handler shipped it keeps its
    count, so that no scan of the worker ever selects it: the table shows
    it 'shipped' and nothing will mark it delivered. *)
Theorem success_does_not_reset_retries (pedido order_id me_order_id tracking : pyval)
    (st st1 : state W) (k : string) (old : order_row) :
  webhook_handler env pedido st = (Ok (ReplySuccess order_id me_order_id tracking), st1) ->
  bind_param rt order_id = Ok (Some k) ->
  db st !! k = Some old ->
  MAX_RETRIES cfg * 2 <= retry_count old ->
  (exists row, db st1 !! k = Some row
     /\ status row = "shipped" /\ retry_count row = retry_count old)
  /\ exists rows st2,
       db_pending env st1 = (Ok rows, st2)
       /\ forall row, row ∈ rows -> row.1.1 <> k.
Proof.
  intros Hrun Hk Hold Hcount.
  destruct (webhook_handler_cases env pedido st) as (r & Hr & Heff).
  rewrite Hrun in Hr, Heff. cbn [fst snd] in Hr, Heff. injection Hr as <-.
  destruct Heff as (k' & me & trk & now & Hk' & _ & _ & _ & Hdb).
  rewrite Hk in Hk'. injection Hk' as <-.
  destruct (upsert_order_lookup now k me trk "shipped" None (db st))
    as (row & Hrow & Hs & _ & _ & Hc & _).
  rewrite Hold in Hc. cbn in Hc. rewrite Z.add_0_r in Hc. rewrite <- Hdb in Hrow.
  split; [by exists row|].
  destruct (db_pending_total env st1) as (rows & st2 & Hp & _ & _ & Hrows).
  exists rows, st2. split; [done|]. intros row' Hin <-.
  destruct Hrows as [-> | ->]; [|by apply elem_of_nil in Hin].
  apply select_pending_spec in Hin as (r' & Hr' & Hpend & _).
  rewrite Hrow in Hr'. injection Hr' as <-.
  unfold is_pending in Hpend. apply andb_true_iff in Hpend as [_ Hlt]. lia.
Qed.
End EventFormats.

(** The order A, in error after six failed attempts; then the event comes
    again and both platforms answer well. *)
Definition failed_six_times : gmap string order_row :=
  {[ "A" := {| melhorenvio_order_id := None; tracking_code := None;
               status := "error"; created_at := 1; updated_at := 9;
               delivered_at := None; retry_count := 6;
               last_error := Some "Erro Melhor Envio [HTTP 500]: <json>" |} ]}.

Definition error_row : order_row :=
  {| melhorenvio_order_id := None; tracking_code := None;
     status := "error"; created_at := 1; updated_at := 9;
     delivered_at := None; retry_count := 6;
     last_error := Some "Erro Melhor Envio [HTTP 500]: <json>" |}.

Lemma success_does_not_reset_retries_witness :
  let st1 := (webhook_handler script_env invoiced_order
                (start failed_six_times all_goes_well)).2 in
  (exists row, db st1 !! "A" = Some row
     /\ status row = "shipped" /\ retry_count row = retry_count error_row)
  /\ exists rows st2,
       db_pending script_env st1 = (Ok rows, st2)
       /\ forall row, row ∈ rows -> row.1.1 <> "A".
Proof.
  apply (success_does_not_reset_retries script_env invoiced_order (PStr "A") (PStr "me-1")
           (PStr "BR1") (start failed_six_times all_goes_well) _ "A" error_row).
  - vm_compute. reflexivity.
  - reflexivity.
  - vm_compute. reflexivity.
  - vm_compute. discriminate.
Defined.

Lemma wrapped_event_handled_as_bare_witness :
  webhook_handler script_env
    (PDict [("event", PStr "order.invoiced");
            ("data", PDict [("id", PStr "A"); ("fulfillment_status", PStr "shipped")])])
    (start shipped_once quiet)
  = webhook_handler script_env
      (PDict [("id", PStr "A"); ("fulfillment_status", PStr "shipped")])
      (start shipped_once quiet).
Proof.
  apply (wrapped_event_handled_as_bare script_env
           [("event", PStr "order.invoiced");
            ("data", PDict [("id", PStr "A"); ("fulfillment_status", PStr "shipped")])]
           [("id", PStr "A"); ("fulfillment_status", PStr "shipped")]
           (start shipped_once quiet)); reflexivity.
Defined.

Lemma event_without_id_refused_witness :
  webhook_handler script_env (PDict [("id", PInt 0); ("fulfillment_status", PStr "invoiced")])
    (start ∅ all_goes_well)
  = (Ok ReplyMissingId, start ∅ all_goes_well)
  /\ reply_status ReplyMissingId = 400.
Proof.
  apply (event_without_id_refused script_env
           (PDict [("id", PInt 0); ("fulfillment_status", PStr "invoiced")])
           [("id", PInt 0); ("fulfillment_status", PStr "invoiced")]
           (start ∅ all_goes_well)); reflexivity.
Defined.
